(** * Community ERP: record access layer and AI verification heuristics

    A shallow embedding of [crud.py] (the record access layer over the
    document store) and of the two verification heuristics of [main.py]
    ([verify_college_id_with_models], [verify_certificate_with_ai]).

    Modelling conventions.
    - A Python [str] is the Rocq [string] of its UTF-8 bytes.  [len] and
      [for c in s] go by characters (a lead byte with its continuation
      bytes); [split] and [strip] know every character for which
      [str.isspace] holds; [in] and [replace] of ASCII characters act on
      the bytes, which is the same on UTF-8 text.  [lower] and [isalnum] are
      spelt out on ASCII; on other text they are the interpreter's Unicode
      tables, a parameter of the development ([Unicode]).
    - Python floats that are quotients of two small integers are exact
      rationals ([Q]).  For counts [m <= n < 2^50] the float test
      [m / n < 0.6] and the rational test [m/n < 3/5] agree, because
      [m/n] and [3/5] differ by at least [1/(5n)] unless they are equal.
    - [print] calls are left out.
    - The document store is the list of its documents in natural order;
      [find_one] and [update_one] act on the first document that matches. *)

From Stdlib Require Import String Ascii List ZArith QArith Qround Bool Arith Lia.
Import ListNotations.

Local Open Scope list_scope.
Local Open Scope string_scope.

(* ================================================================== *)
(** ** Python string operations *)

Module PyStr.

Definition is_empty (s : string) : bool :=
  match s with EmptyString => true | String _ _ => false end.

(** What the interpreter's Unicode tables decide: [s.lower()] for a text
    with a character outside ASCII, and [c.isalnum()] for a character
    outside ASCII. *)
Class Unicode : Type := {
  unicode_lower : string -> string;
  unicode_isalnum : string -> bool
}.

Definition between (lo hi n : nat) : bool := (lo <=? n)%nat && (n <=? hi)%nat.

Definition is_upper (c : ascii) : bool := between 65 90 (nat_of_ascii c).

Definition lower_char (c : ascii) : ascii :=
  if is_upper c then ascii_of_nat (nat_of_ascii c + 32) else c.

(** [s.lower()] for an ASCII text: the letters A to Z change. *)
Fixpoint ascii_lower (s : string) : string :=
  match s with
  | EmptyString => EmptyString
  | String c s' => String (lower_char c) (ascii_lower s')
  end.

Definition is_ascii_char (c : ascii) : bool := (nat_of_ascii c <? 128)%nat.

(** [s.isascii()] *)
Fixpoint is_ascii (s : string) : bool :=
  match s with
  | EmptyString => true
  | String c s' => is_ascii_char c && is_ascii s'
  end.

(** [s.lower()] *)
Definition lower {U : Unicode} (s : string) : string :=
  if is_ascii s then ascii_lower s else unicode_lower s.

(** A byte that continues a character of several bytes. *)
Definition is_continuation (c : ascii) : bool := between 128 191 (nat_of_ascii c).

(** The characters of [s] ([for char in s]), each as the string of its
    bytes.  [cur] holds the bytes of the character being read. *)
Fixpoint chars_from (cur s : string) : list string :=
  match s with
  | EmptyString => if is_empty cur then [] else [cur]
  | String c s' =>
      if is_continuation c then chars_from (cur ++ String c EmptyString) s'
      else if is_empty cur then chars_from (String c EmptyString) s'
      else cur :: chars_from (String c EmptyString) s'
  end.

Definition chars (s : string) : list string := chars_from EmptyString s.

(** [len(s)]: the number of characters. *)
Definition len (s : string) : nat := List.length (chars s).

(** The number of bytes of the white space character that [s] starts with,
    or 0 when it starts with none.  The characters for which [str.isspace]
    holds are U+0009 to U+000D, U+001C to U+0020, U+0085, U+00A0, U+1680,
    U+2000 to U+200A, U+2028, U+2029, U+202F, U+205F and U+3000. *)
Definition space_len (s : string) : nat :=
  match s with
  | EmptyString => 0
  | String a r =>
      let x := nat_of_ascii a in
      if between 9 13 x || between 28 32 x then 1
      else
        match r with
        | EmptyString => 0
        | String b r' =>
            let y := nat_of_ascii b in
            if (x =? 194)%nat && ((y =? 133)%nat || (y =? 160)%nat) then 2
            else
              match r' with
              | EmptyString => 0
              | String c _ =>
                  let z := nat_of_ascii c in
                  if ((x =? 225)%nat && (y =? 154)%nat && (z =? 128)%nat)
                     || ((x =? 226)%nat && (y =? 128)%nat
                         && (between 128 138 z || between 168 169 z
                             || (z =? 175)%nat))
                     || ((x =? 226)%nat && (y =? 129)%nat && (z =? 159)%nat)
                     || ((x =? 227)%nat && (y =? 128)%nat && (z =? 128)%nat)
                  then 3 else 0
              end
        end
  end.

(** [sub in s] *)
Fixpoint contains (sub s : string) : bool :=
  match s with
  | EmptyString => is_empty sub
  | String _ s' => prefix sub s || contains sub s'
  end.

(** [s.split()]: maximal runs of characters that are not white space.
    [cur] is the run being read, [skip] the number of bytes that are left
    of the white space character being passed. *)
Fixpoint split_from (cur : string) (skip : nat) (s : string) : list string :=
  match s with
  | EmptyString => if is_empty cur then [] else [cur]
  | String c s' =>
      match skip with
      | S k => split_from cur k s'
      | O =>
          match space_len s with
          | O => split_from (cur ++ String c EmptyString) O s'
          | S k =>
              if is_empty cur then split_from EmptyString k s'
              else cur :: split_from EmptyString k s'
          end
      end
  end.

Definition split (s : string) : list string := split_from EmptyString 0 s.

(** [s.replace(c, "")] for a one-character [c] *)
Fixpoint remove_char (c : ascii) (s : string) : string :=
  match s with
  | EmptyString => EmptyString
  | String d s' =>
      if Ascii.eqb c d then remove_char c s' else String d (remove_char c s')
  end.

Fixpoint lstrip_from (skip : nat) (s : string) : string :=
  match s with
  | EmptyString => EmptyString
  | String _ s' =>
      match skip with
      | S k => lstrip_from k s'
      | O =>
          match space_len s with
          | O => s
          | S k => lstrip_from k s'
          end
      end
  end.

(** [s] is made of white space characters only. *)
Fixpoint all_space_from (skip : nat) (s : string) : bool :=
  match s with
  | EmptyString => true
  | String _ s' =>
      match skip with
      | S k => all_space_from k s'
      | O =>
          match space_len s with
          | O => false
          | S k => all_space_from k s'
          end
      end
  end.

Fixpoint rstrip (s : string) : string :=
  match s with
  | EmptyString => EmptyString
  | String c s' => if all_space_from 0 s then EmptyString else String c (rstrip s')
  end.

(** [s.strip()] *)
Definition strip (s : string) : string := rstrip (lstrip_from 0 s).

Fixpoint drop (n : nat) (s : string) : string :=
  match n, s with
  | O, _ => s
  | S _, EmptyString => EmptyString
  | S n', String _ s' => drop n' s'
  end.

(** [s.split(sep, 1)] when [sep in s]: the text before the first occurrence
    of [sep] and the text after it; [None] when [sep] does not occur. *)
Fixpoint split_once (sep s : string) : option (string * string) :=
  if prefix sep s then Some (EmptyString, drop (String.length sep) s)
  else
    match s with
    | EmptyString => None
    | String c s' =>
        match split_once sep s' with
        | Some (a, b) => Some (String c a, b)
        | None => None
        end
    end.

(** [sum(1 for x in xs if p x)] *)
Definition count {A} (p : A -> bool) (xs : list A) : nat :=
  List.length (filter p xs).

(** The double quote character, as a string. *)
Definition dquote : string := String (ascii_of_nat 34) EmptyString.

End PyStr.

Import PyStr.

(** [m / n] on integers ([len] results), as an exact quotient. *)
Definition ratio (m n : nat) : Q :=
  (inject_Z (Z.of_nat m) / inject_Z (Z.of_nat n))%Q.

(** [x < y] on numbers *)
Definition Qltb (x y : Q) : bool := negb (Qle_bool y x).

(** The literal [0.6] *)
Definition threshold : Q := (6 # 10)%Q.

(* ================================================================== *)
(** ** Exceptions and the monad of calls to the external models *)

Inductive exn : Type :=
| ValueError (msg : string)
| DuplicateKeyError (msg : string)
| Exception (msg : string).

(** [str(e)] *)
Definition str_exn (e : exn) : string :=
  match e with
  | ValueError msg | DuplicateKeyError msg | Exception msg => msg
  end.

Inductive outcome (A : Type) : Type :=
| Returns (a : A)
| Raises (e : exn).

Arguments Returns {A} a.
Arguments Raises {A} e.

(** The calls a verification makes to its collaborators, in order. *)
Inductive Call : Type :=
| CallPreprocess
| CallCaption (prompt : string)
| CallOcr.




(** A computation that may raise and that appends to the log of calls. *)
Definition M (A : Type) : Type := list Call -> outcome A * list Call.

Definition ret {A} (a : A) : M A := fun log => (Returns a, log).

Definition bind {A B} (m : M A) (k : A -> M B) : M B :=
  fun log =>
    match m log with
    | (Returns a, log') => k a log'
    | (Raises e, log') => (Raises e, log')
    end.

(** One call to a collaborator whose outcome is [r]. *)
Definition call {A} (c : Call) (r : outcome A) : M A :=
  fun log => (r, (log ++ [c])%list).

(** [try: body except Exception as e: return handler e] *)
Definition try_except {A} (body : M A) (handler : exn -> A)
  : list Call -> A * list Call :=
  fun log =>
    match body log with
    | (Returns a, log') => (a, log')
    | (Raises e, log') => (handler e, log')
    end.

Notation "x <- m ;; k" := (bind m (fun x => k))
  (at level 61, m at next level, right associativity).

(** A preprocessed image. *)
Definition Image : Type := list Byte.byte.

(** [models.extract_text(image)]: the keys the heuristics read. *)
Record OcrData : Type := {
  full_text : string;
  confidence_scores : list Q
}.

(** The loaded models ([ModelLoader], BLIP-2 and PaddleOCR). *)
Record ModelLoader : Type := {
  generate_caption : Image -> string -> outcome string;
  extract_text : Image -> outcome OcrData
}.

(** The confidence map of the certificate check. *)
Record ConfidenceScores : Type := {
  overall_confidence : Q;
  image_type_match : Q;
  student_name_match : Q;
  institution_match : Q;
  skill_match : Q;
  ocr_confidence : Q
}.

Definition zero_scores : ConfidenceScores :=
  {| overall_confidence := 0; image_type_match := 0; student_name_match := 0;
     institution_match := 0; skill_match := 0; ocr_confidence := 0 |}.

Definition set_overall (v : Q) (c : ConfidenceScores) : ConfidenceScores :=
  {| overall_confidence := v; image_type_match := image_type_match c;
     student_name_match := student_name_match c;
     institution_match := institution_match c;
     skill_match := skill_match c; ocr_confidence := ocr_confidence c |}.

Definition set_image_type (v : Q) (c : ConfidenceScores) : ConfidenceScores :=
  {| overall_confidence := overall_confidence c; image_type_match := v;
     student_name_match := student_name_match c;
     institution_match := institution_match c;
     skill_match := skill_match c; ocr_confidence := ocr_confidence c |}.

Definition set_student_name (v : Q) (c : ConfidenceScores) : ConfidenceScores :=
  {| overall_confidence := overall_confidence c;
     image_type_match := image_type_match c; student_name_match := v;
     institution_match := institution_match c;
     skill_match := skill_match c; ocr_confidence := ocr_confidence c |}.

Definition set_institution (v : Q) (c : ConfidenceScores) : ConfidenceScores :=
  {| overall_confidence := overall_confidence c;
     image_type_match := image_type_match c;
     student_name_match := student_name_match c; institution_match := v;
     skill_match := skill_match c; ocr_confidence := ocr_confidence c |}.

Definition set_skill (v : Q) (c : ConfidenceScores) : ConfidenceScores :=
  {| overall_confidence := overall_confidence c;
     image_type_match := image_type_match c;
     student_name_match := student_name_match c;
     institution_match := institution_match c;
     skill_match := v; ocr_confidence := ocr_confidence c |}.

Definition set_ocr (v : Q) (c : ConfidenceScores) : ConfidenceScores :=
  {| overall_confidence := overall_confidence c;
     image_type_match := image_type_match c;
     student_name_match := student_name_match c;
     institution_match := institution_match c;
     skill_match := skill_match c; ocr_confidence := v |}.

(* ================================================================== *)
(** ** The verification heuristics of main.py *)

(** [any(keyword in caption_lower for keyword in keywords)] *)
Definition any_keyword (keywords : list string) (caption_lower : string) : bool :=
  existsb (fun keyword => contains keyword caption_lower) keywords.

Definition id_keywords : list string := ["yes"; "id"; "student"].
Definition certificate_keywords : list string := ["yes"; "certificate"; "award"].

(** [sum(1 for part in name_parts if len(part) > 2 and part in extracted_text)] *)
Definition matched_parts (name_parts : list string) (extracted_text : string) : nat :=
  count (fun part => (2 <? len part)%nat && contains part extracted_text)
        name_parts.

(** [s.replace(" ", "").replace("-", "").replace("_", "")] *)
Definition clean (s : string) : string :=
  remove_char "_"%char (remove_char "-"%char (remove_char " "%char s)).

(** [sum(1 for char in roll_no_clean if char in extracted_clean)] *)
Definition matched_chars (roll_no_clean extracted_clean : string) : nat :=
  count (fun char => contains char extracted_clean) (chars roll_no_clean).

(** [[w for w in s.split() if len(w) > 2]] *)
Definition long_words (s : string) : list string :=
  filter (fun w => (2 <? len w)%nat) (split s).

(** [sum(1 for word in words if word in extracted_text)] *)
Definition matched_words (words : list string) (extracted_text : string) : nat :=
  count (fun word => contains word extracted_text) words.

(** [sum(xs) / len(xs)] *)
Definition average (xs : list Q) : Q :=
  (fold_left Qplus xs 0 / inject_Z (Z.of_nat (List.length xs)))%Q.

(** The f-strings of the name and roll number rejections. *)
Definition id_name_message (student_name : string) : string :=
  "Student name '" ++ student_name ++
  "' does not match the name on the ID card. Please ensure the name matches your registration.".

Definition id_roll_message (roll_no : string) : string :=
  "Roll number '" ++ roll_no ++
  "' does not match the ID on the card. Please verify your roll number and try again.".

Definition certificate_name_message (student_name : string) : string :=
  "Student name '" ++ student_name ++
  "' does not match the name on the certificate".

Section Heuristics.

Context {U : Unicode}.

(** [preprocess_image]: decoding and normalising with PIL, which raises on
    bytes that are not an image. *)
Variable preprocess_image : list Byte.byte -> outcome Image.

(** The module-level [models]. *)
Variable models : ModelLoader.

(** [round(x, 2)] *)
Variable round2 : Q -> Q.

Definition id_caption_prompt : string :=
  "Question: Is this a college ID card or student identification card? Answer:".

Definition certificate_caption_prompt : string :=
  "Question: Is this a certificate, award, or achievement document? Answer:".

(** Steps 4 and 5 of the ID card check, and its step 6. *)
Definition college_id_checks (full : string) (student_name roll_no : string)
  : bool * string * string :=
  let extracted_text := lower full in
  let student_name_lower := lower student_name in
  let name_parts := split student_name_lower in
  let matched := matched_parts name_parts extracted_text in
  let name_match_ratio :=
    match name_parts with
    | [] => 0%Q
    | _ => ratio matched (List.length name_parts)
    end in
  if Qltb name_match_ratio threshold then
    (false,
     id_name_message student_name,
     "")
  else
    let roll_no_clean := clean (lower roll_no) in
    let extracted_clean := clean extracted_text in
    let accepted := (true, "College ID verified successfully", strip full) in
    if negb (contains roll_no_clean extracted_clean) then
      let matched := matched_chars roll_no_clean extracted_clean in
      let roll_match_ratio :=
        if is_empty roll_no_clean then 0%Q
        else ratio matched (len roll_no_clean) in
      if Qltb roll_match_ratio threshold then
        (false,
         id_roll_message roll_no,
         "")
      else accepted
    else accepted.

(** The body of the [try] of [verify_college_id_with_models]. *)
Definition verify_college_id_body
  (image_bytes : list Byte.byte) (student_name roll_no : string)
  : M (bool * string * string) :=
  image <- call CallPreprocess (preprocess_image image_bytes) ;;
  caption <- call (CallCaption id_caption_prompt)
                  (generate_caption models image id_caption_prompt) ;;
  let caption_lower := lower caption in
  let is_id_card := any_keyword id_keywords caption_lower in
  if negb is_id_card then
    ret (false,
         "The uploaded image does not appear to be a valid college ID card",
         "")
  else
    ocr_data <- call CallOcr (extract_text models image) ;;
    let extracted_text := lower (full_text ocr_data) in
    if is_empty extracted_text then
      ret (false,
           "Could not extract any text from the ID card. Please upload a clearer image",
           "")
    else ret (college_id_checks (full_text ocr_data) student_name roll_no).

Definition verify_college_id_with_models
  (image_bytes : list Byte.byte) (student_name roll_no : string)
  : list Call -> (bool * string * string) * list Call :=
  try_except
    (verify_college_id_body image_bytes student_name roll_no)
    (fun e => (false, "Error processing college ID: " ++ str_exn e, "")).

(** [verify_college_id_with_ai]: the wrapper kept for compatibility. *)
Definition verify_college_id_with_ai
  (image_bytes : list Byte.byte) (mime_type student_name roll_no : string) :=
  verify_college_id_with_models image_bytes student_name roll_no.

(** Step 7 of the certificate check and the final score. *)
Definition certificate_skill_stage
  (extracted_text expected_skill : string) (scores : ConfidenceScores)
  : bool * string * ConfidenceScores :=
  let skill_words := long_words expected_skill in
  let final (c : ConfidenceScores) :=
    round2 (image_type_match c * (2 # 10) + student_name_match c * (2 # 10)
            + institution_match c * (15 # 100) + skill_match c * (2 # 10)
            + ocr_confidence c * (25 # 100))%Q in
  match skill_words with
  | _ :: _ =>
      let skill_match_ratio :=
        ratio (matched_words skill_words extracted_text)
              (List.length skill_words) in
      let scores := set_skill (round2 skill_match_ratio) scores in
      if Qltb skill_match_ratio threshold then
        (false,
         "Skill/Achievement '" ++ expected_skill ++
         "' does not match the certificate content",
         set_overall (final scores) scores)
      else
        (true, "Certificate verified successfully",
         set_overall (final scores) scores)
  | [] =>
      let scores := set_skill 1 scores in
      (true, "Certificate verified successfully",
       set_overall (final scores) scores)
  end.

(** Steps 5 to 7 of the certificate check. *)
Definition certificate_later_stages
  (extracted_text skill_or_achievement : string) (description : option string)
  (scores : ConfidenceScores) : bool * string * ConfidenceScores :=
  let parsed :=
    match description with
    | Some d =>
        if negb (is_empty d) && contains " - " d then
          match split_once " - " d with
          | Some (p0, p1) => (Some (lower (strip p0)), lower (strip p1))
          | None => (None, lower skill_or_achievement)
          end
        else (None, lower skill_or_achievement)
    | None => (None, lower skill_or_achievement)
    end in
  let institution_name := fst parsed in
  let expected_skill := snd parsed in
  match institution_name with
  | Some inst =>
      if is_empty inst then
        certificate_skill_stage extracted_text expected_skill
          (set_institution 1 scores)
      else
        let institution_words := long_words inst in
        match institution_words with
        | _ :: _ =>
            let inst_match_ratio :=
              ratio (matched_words institution_words extracted_text)
                    (List.length institution_words) in
            let scores := set_institution (round2 inst_match_ratio) scores in
            if Qltb inst_match_ratio threshold then
              (false,
               "Institution name '" ++ inst ++
               "' does not match the certificate content",
               set_overall
                 (round2 (image_type_match scores * (2 # 10)
                          + student_name_match scores * (2 # 10)
                          + institution_match scores * (2 # 10)
                          + ocr_confidence scores * (4 # 10))%Q)
                 scores)
            else certificate_skill_stage extracted_text expected_skill scores
        | [] =>
            certificate_skill_stage extracted_text expected_skill
              (set_institution 1 scores)
        end
  | None =>
      certificate_skill_stage extracted_text expected_skill
        (set_institution 1 scores)
  end.

(** Step 4 of the certificate check, then the later stages. *)
Definition certificate_name_stage
  (extracted_text student_name skill_or_achievement : string)
  (description : option string) (scores : ConfidenceScores)
  : bool * string * ConfidenceScores :=
  let student_name_lower := lower student_name in
  let name_parts := split student_name_lower in
  match name_parts with
  | _ :: _ =>
      let matched_name_parts := matched_parts name_parts extracted_text in
      let name_match_ratio := ratio matched_name_parts (List.length name_parts) in
      let scores := set_student_name (round2 name_match_ratio) scores in
      if Qltb name_match_ratio threshold then
        (false,
         certificate_name_message student_name,
         set_overall
           (round2 (image_type_match scores * (25 # 100)
                    + student_name_match scores * (25 # 100)
                    + ocr_confidence scores * (5 # 10))%Q)
           scores)
      else
        certificate_later_stages extracted_text skill_or_achievement
          description scores
  | [] =>
      certificate_later_stages extracted_text skill_or_achievement
        description (set_student_name 1 scores)
  end.

(** The body of the [try] of [verify_certificate_with_ai]. *)
Definition verify_certificate_body
  (image_bytes : list Byte.byte) (student_name skill_or_achievement : string)
  (description : option string) : M (bool * string * ConfidenceScores) :=
  image <- call CallPreprocess (preprocess_image image_bytes) ;;
  caption <- call (CallCaption certificate_caption_prompt)
                  (generate_caption models image certificate_caption_prompt) ;;
  let caption_lower := lower caption in
  let is_certificate := any_keyword certificate_keywords caption_lower in
  let scores := zero_scores in
  if is_certificate then
    let scores := set_image_type 1 scores in
    ocr_data <- call CallOcr (extract_text models image) ;;
    let extracted_text := lower (full_text ocr_data) in
    let scores :=
      match confidence_scores ocr_data with
      | _ :: _ => set_ocr (round2 (average (confidence_scores ocr_data))) scores
      | [] => set_ocr 0 scores
      end in
    if is_empty extracted_text then
      ret (false,
           "Could not extract any text from the certificate. Please upload a clearer image",
           set_overall (ocr_confidence scores * (2 # 10))%Q scores)
    else
      ret (certificate_name_stage extracted_text student_name
             skill_or_achievement description scores)
  else
    ret (false,
         "The uploaded image does not appear to be a valid certificate",
         set_overall 0 (set_image_type 0 scores)).

Definition verify_certificate_with_ai
  (image_bytes : list Byte.byte)
  (mime_type student_name skill_or_achievement : string)
  (description : option string)
  : list Call -> (bool * string * ConfidenceScores) * list Call :=
  try_except
    (verify_certificate_body image_bytes student_name skill_or_achievement
       description)
    (fun e => (false, "Error processing certificate: " ++ str_exn e, zero_scores)).

End Heuristics.

(** Sample collaborators for running the heuristics: a decoder that accepts
    every upload, models with a fixed caption and OCR result, and rounding
    half to even on the exact value. *)
Definition decode_ok (image_bytes : list Byte.byte) : outcome Image :=
  Returns image_bytes.

Definition fixed_models (caption full : string) (confs : list Q) : ModelLoader :=
  {| generate_caption := fun _ _ => Returns caption;
     extract_text := fun _ =>
       Returns {| full_text := full; confidence_scores := confs |} |}.

Definition round_half_even (q : Q) : Q :=
  let x := (q * 100)%Q in
  let f := Qfloor x in
  let d := (x - inject_Z f)%Q in
  let up := (inject_Z (f + 1) / 100)%Q in
  let down := (inject_Z f / 100)%Q in
  if Qltb d (1 # 2) then down
  else if Qltb (1 # 2) d then up
  else if Z.even f then down else up.

(* ================================================================== *)
(** ** Documents (models.py) and the document store (database.py) *)

(** [SkillItem] and [AchievementItem] *)
Record Item : Type := {
  item_name : string;
  item_verified : bool;
  item_certificate : option string;
  item_description : option string
}.

Record ProjectItem : Type := {
  project_name : string;
  project_verified : bool;
  project_github_link : string;
  project_description : option string
}.

Record Comment : Type := {
  comment_author : string;
  comment_author_type : string;
  comment_text : string;
  comment_timestamp : string
}.

(** A student document.  A scalar that [update_student] can set is [None]
    when it was set to null; [st_comments] is [None] until the first
    comment is pushed ([create_student] writes no such key). *)
Record Student : Type := {
  st_id : nat;
  st_college_name : option string;
  st_name : option string;
  st_email : option string;
  st_phone : option string;
  st_roll_no : option string;
  st_password : string;
  st_branch : option string;
  st_year : option Z;
  st_age : option Z;
  st_college_id_pic : option string;
  st_skills : list Item;
  st_achievements : list Item;
  st_projects : list ProjectItem;
  st_comments : option (list Comment)
}.

Record College : Type := {
  co_id : nat;
  co_name : string;
  co_address : string;
  co_contact_email : string;
  co_contact_phone : string;
  co_college_id : string;
  co_admin_password : string
}.

(** The two collections of the database [erp]. *)
Record Database : Type := {
  colleges_collection : list College;
  students_collection : list Student
}.

Definition Student_eq_dec (a b : Student) : {a = b} + {a <> b}.
Proof. repeat decide equality. Defined.

Definition opt_eqb (a b : option string) : bool :=
  match a, b with
  | Some x, Some y => String.eqb x y
  | None, None => true
  | _, _ => false
  end.

(** [UpdateResult] *)
Record UpdateResult : Type := {
  matched_count : nat;
  modified_count : nat
}.

(** The error message of the server for a unique index on [field] of the
    collection [ns] that already holds [value]:
    [E11000 duplicate key error collection: ns index: field_1 dup key: { field: "value" }]. *)
Definition render_value (value : option string) : string :=
  match value with
  | Some v => dquote ++ v ++ dquote
  | None => "null"
  end.

Definition dup_key_message (ns field : string) (value : option string) : string :=
  "E11000 duplicate key error collection: " ++ ns ++ " index: " ++ field ++
  "_1 dup key: { " ++ field ++ ": " ++ render_value value ++ " }".

Definition fresh_id (ids : list nat) : nat := S (fold_right Nat.max 0%nat ids).

(** The unique indexes of [create_indexes], in the order of their creation:
    the first index that already holds the key of the new document. *)
Definition college_index_violation (doc : College) (docs : list College)
  : option string :=
  if existsb (fun x => String.eqb (co_name x) (co_name doc)) docs then
    Some (dup_key_message "erp.colleges" "name" (Some (co_name doc)))
  else if existsb (fun x => String.eqb (co_college_id x) (co_college_id doc)) docs then
    Some (dup_key_message "erp.colleges" "college_id" (Some (co_college_id doc)))
  else if existsb (fun x => String.eqb (co_contact_email x) (co_contact_email doc)) docs then
    Some (dup_key_message "erp.colleges" "contact_email" (Some (co_contact_email doc)))
  else if existsb (fun x => String.eqb (co_contact_phone x) (co_contact_phone doc)) docs then
    Some (dup_key_message "erp.colleges" "contact_phone" (Some (co_contact_phone doc)))
  else None.

(** For a student document [doc] that replaces [old] (or is new, when [old]
    is [None]): the first unique index whose key changes to one that the
    collection already holds. *)
Definition key_taken (field : Student -> option string)
  (old : option Student) (doc : Student) (docs : list Student) : bool :=
  match old with
  | Some o => negb (opt_eqb (field o) (field doc))
  | None => true
  end && existsb (fun x => opt_eqb (field x) (field doc)) docs.

Definition student_index_violation
  (old : option Student) (doc : Student) (docs : list Student) : option string :=
  if key_taken st_email old doc docs then
    Some (dup_key_message "erp.students" "email" (st_email doc))
  else if key_taken st_phone old doc docs then
    Some (dup_key_message "erp.students" "phone" (st_phone doc))
  else if key_taken st_roll_no old doc docs then
    Some (dup_key_message "erp.students" "roll_no" (st_roll_no doc))
  else None.

(** [colleges_collection.insert_one(doc)] *)
Definition insert_college (doc : College) (db : Database)
  : outcome nat * Database :=
  match college_index_violation doc (colleges_collection db) with
  | Some msg => (Raises (DuplicateKeyError msg), db)
  | None =>
      let oid := fresh_id (map co_id (colleges_collection db)) in
      let stored :=
        {| co_id := oid; co_name := co_name doc; co_address := co_address doc;
           co_contact_email := co_contact_email doc;
           co_contact_phone := co_contact_phone doc;
           co_college_id := co_college_id doc;
           co_admin_password := co_admin_password doc |} in
      (Returns oid,
       {| colleges_collection := (colleges_collection db ++ [stored])%list;
          students_collection := students_collection db |})
  end.

Definition with_students (docs : list Student) (db : Database) : Database :=
  {| colleges_collection := colleges_collection db;
     students_collection := docs |}.

Definition set_st_id (oid : nat) (d : Student) : Student :=
  {| st_id := oid; st_college_name := st_college_name d; st_name := st_name d;
     st_email := st_email d; st_phone := st_phone d; st_roll_no := st_roll_no d;
     st_password := st_password d; st_branch := st_branch d;
     st_year := st_year d; st_age := st_age d;
     st_college_id_pic := st_college_id_pic d; st_skills := st_skills d;
     st_achievements := st_achievements d; st_projects := st_projects d;
     st_comments := st_comments d |}.

(** [students_collection.insert_one(doc)] *)
Definition insert_student (doc : Student) (db : Database)
  : outcome nat * Database :=
  match student_index_violation None doc (students_collection db) with
  | Some msg => (Raises (DuplicateKeyError msg), db)
  | None =>
      let oid := fresh_id (map st_id (students_collection db)) in
      (Returns oid,
       with_students (students_collection db ++ [set_st_id oid doc])%list db)
  end.

(** [students_collection.find_one(query)] *)
Definition find_one (query : Student -> bool) (db : Database) : option Student :=
  find query (students_collection db).

Fixpoint update_first {A} (p : A -> bool) (f : A -> A) (l : list A) : list A :=
  match l with
  | [] => []
  | x :: r => if p x then f x :: r else x :: update_first p f r
  end.

(** [students_collection.update_one(query, update)]: the first document that
    matches is replaced by its update; [modified_count] is 1 only when the
    document changed. *)
Definition update_one (query : Student -> bool) (update : Student -> Student)
  (db : Database) : outcome UpdateResult * Database :=
  match find query (students_collection db) with
  | None => (Returns {| matched_count := 0; modified_count := 0 |}, db)
  | Some d =>
      match student_index_violation (Some d) (update d) (students_collection db) with
      | Some msg => (Raises (DuplicateKeyError msg), db)
      | None =>
          (Returns {| matched_count := 1;
                      modified_count :=
                        if Student_eq_dec (update d) d then 0 else 1 |},
           with_students (update_first query update (students_collection db)) db)
      end
  end.

(** The query [{"roll_no": roll_no}] *)
Definition by_roll_no (roll_no : string) (d : Student) : bool :=
  opt_eqb (st_roll_no d) (Some roll_no).

Definition set_st_skills (v : list Item) (d : Student) : Student :=
  {| st_id := st_id d; st_college_name := st_college_name d; st_name := st_name d;
     st_email := st_email d; st_phone := st_phone d; st_roll_no := st_roll_no d;
     st_password := st_password d; st_branch := st_branch d;
     st_year := st_year d; st_age := st_age d;
     st_college_id_pic := st_college_id_pic d; st_skills := v;
     st_achievements := st_achievements d; st_projects := st_projects d;
     st_comments := st_comments d |}.

Definition set_st_projects (v : list ProjectItem) (d : Student) : Student :=
  {| st_id := st_id d; st_college_name := st_college_name d; st_name := st_name d;
     st_email := st_email d; st_phone := st_phone d; st_roll_no := st_roll_no d;
     st_password := st_password d; st_branch := st_branch d;
     st_year := st_year d; st_age := st_age d;
     st_college_id_pic := st_college_id_pic d; st_skills := st_skills d;
     st_achievements := st_achievements d; st_projects := v;
     st_comments := st_comments d |}.

Definition set_st_comments (v : option (list Comment)) (d : Student) : Student :=
  {| st_id := st_id d; st_college_name := st_college_name d; st_name := st_name d;
     st_email := st_email d; st_phone := st_phone d; st_roll_no := st_roll_no d;
     st_password := st_password d; st_branch := st_branch d;
     st_year := st_year d; st_age := st_age d;
     st_college_id_pic := st_college_id_pic d; st_skills := st_skills d;
     st_achievements := st_achievements d; st_projects := st_projects d;
     st_comments := v |}.

Definition set_item_verified (v : bool) (i : Item) : Item :=
  {| item_name := item_name i; item_verified := v;
     item_certificate := item_certificate i;
     item_description := item_description i |}.

(* ================================================================== *)
(** ** Request schemas (schemas.py) *)

Record CollegeCreate : Type := {
  cc_name : string;
  cc_address : string;
  cc_contact_email : string;
  cc_contact_phone : string;
  cc_college_id : string;
  cc_admin_password : string
}.

Record StudentCreate : Type := {
  sc_college_name : string;
  sc_name : string;
  sc_email : string;
  sc_phone : string;
  sc_roll_no : string;
  sc_password : string;
  sc_branch : string;
  sc_year : Z;
  sc_age : Z
}.

(** [StudentUpdate]: a field is [None] when the request did not set it, and
    [Some None] when the request set it to null. *)
Record StudentUpdate : Type := {
  su_college_name : option (option string);
  su_name : option (option string);
  su_email : option (option string);
  su_phone : option (option string);
  su_roll_no : option (option string);
  su_branch : option (option string);
  su_year : option (option Z);
  su_age : option (option Z);
  su_college_id_pic : option (option string)
}.

Definition is_set {A} (o : option A) : bool :=
  match o with Some _ => true | None => false end.

(** [bool(student.dict(exclude_unset=True))]: some field was set. *)
Definition update_data_nonempty (u : StudentUpdate) : bool :=
  is_set (su_college_name u) || is_set (su_name u) || is_set (su_email u)
  || is_set (su_phone u) || is_set (su_roll_no u) || is_set (su_branch u)
  || is_set (su_year u) || is_set (su_age u) || is_set (su_college_id_pic u).

Definition supplied {A} (o : option A) (old : A) : A :=
  match o with Some v => v | None => old end.

(** [{"$set": update_data}] *)
Definition apply_set (u : StudentUpdate) (d : Student) : Student :=
  {| st_id := st_id d;
     st_college_name := supplied (su_college_name u) (st_college_name d);
     st_name := supplied (su_name u) (st_name d);
     st_email := supplied (su_email u) (st_email d);
     st_phone := supplied (su_phone u) (st_phone d);
     st_roll_no := supplied (su_roll_no u) (st_roll_no d);
     st_password := st_password d;
     st_branch := supplied (su_branch u) (st_branch d);
     st_year := supplied (su_year u) (st_year d);
     st_age := supplied (su_age u) (st_age d);
     st_college_id_pic := supplied (su_college_id_pic u) (st_college_id_pic d);
     st_skills := st_skills d; st_achievements := st_achievements d;
     st_projects := st_projects d; st_comments := st_comments d |}.

(** The dictionaries [{"success": ..., "message": ...}] *)
Record Reply : Type := {
  success : bool;
  message : string
}.

(** What [add_projects] returns: a string, or a student document or [None]. *)
Inductive AddProjectsResult : Type :=
| ResultStr (s : string)
| ResultDoc (d : option Student).

(** What an endpoint answers. *)
Inductive Response (A : Type) : Type :=
| HTTPException (status_code : nat) (detail : string)
| Ok (body : A).

Arguments HTTPException {A} status_code detail.
Arguments Ok {A} body.

(* ================================================================== *)
(** ** The record access layer (crud.py) *)

Section Crud.

(** [hash_password] of auth.py (bcrypt). *)
Variable hash_password : string -> string.

Definition create_college (college : CollegeCreate) (db : Database)
  : outcome College * Database :=
  let college_doc :=
    {| co_id := 0; co_name := cc_name college; co_address := cc_address college;
       co_contact_email := cc_contact_email college;
       co_contact_phone := cc_contact_phone college;
       co_college_id := cc_college_id college;
       co_admin_password := hash_password (cc_admin_password college) |} in
  match insert_college college_doc db with
  | (Returns oid, db') =>
      (Returns {| co_id := oid; co_name := co_name college_doc;
                  co_address := co_address college_doc;
                  co_contact_email := co_contact_email college_doc;
                  co_contact_phone := co_contact_phone college_doc;
                  co_college_id := co_college_id college_doc;
                  co_admin_password := co_admin_password college_doc |}, db')
  | (Raises (DuplicateKeyError error_msg), db') =>
      if contains "name" error_msg then
        (Raises (ValueError ("College name '" ++ cc_name college ++ "' already exists")), db')
      else if contains "college_id" error_msg then
        (Raises (ValueError ("College ID '" ++ cc_college_id college ++ "' already exists")), db')
      else if contains "contact_email" error_msg then
        (Raises (ValueError ("Contact email '" ++ cc_contact_email college ++ "' already exists")), db')
      else if contains "contact_phone" error_msg then
        (Raises (ValueError ("Contact phone '" ++ cc_contact_phone college ++ "' already exists")), db')
      else
        (Raises (ValueError "Duplicate entry detected. Please check all fields."), db')
  | (Raises e, db') => (Raises e, db')
  end.

Definition create_student (student : StudentCreate) (db : Database)
  : outcome Student * Database :=
  let student_doc :=
    {| st_id := 0;
       st_college_name := Some (sc_college_name student);
       st_name := Some (sc_name student);
       st_email := Some (sc_email student);
       st_phone := Some (sc_phone student);
       st_roll_no := Some (sc_roll_no student);
       st_password := hash_password (sc_password student);
       st_branch := Some (sc_branch student);
       st_year := Some (sc_year student);
       st_age := Some (sc_age student);
       st_college_id_pic := None;
       st_skills := []; st_achievements := []; st_projects := [];
       st_comments := None |} in
  match insert_student student_doc db with
  | (Returns oid, db') => (Returns (set_st_id oid student_doc), db')
  | (Raises (DuplicateKeyError error_msg), db') =>
      if contains "email" error_msg then
        (Raises (ValueError ("Email '" ++ sc_email student ++ "' already exists")), db')
      else if contains "phone" error_msg then
        (Raises (ValueError ("Phone number '" ++ sc_phone student ++ "' already exists")), db')
      else if contains "roll_no" error_msg then
        (Raises (ValueError ("Roll number '" ++ sc_roll_no student ++ "' already exists")), db')
      else
        (Raises (ValueError "Duplicate entry detected"), db')
  | (Raises e, db') => (Raises e, db')
  end.

End Crud.

Definition get_student_by_roll_no (roll_no : string) (db : Database)
  : option Student :=
  find_one (by_roll_no roll_no) db.

Definition update_student (roll_no : string) (student : StudentUpdate)
  (db : Database) : outcome (option Student) * Database :=
  if negb (update_data_nonempty student) then
    (Returns (get_student_by_roll_no roll_no db), db)
  else
    match update_one (by_roll_no roll_no) (apply_set student) db with
    | (Raises e, db') => (Raises e, db')
    | (Returns result, db') =>
        if (matched_count result =? 0)%nat then (Returns None, db')
        else (Returns (get_student_by_roll_no roll_no db'), db')
    end.

(** [{"$push": {"projects": project_obj}}] *)
Definition push_project (project_obj : ProjectItem) (d : Student) : Student :=
  set_st_projects (st_projects d ++ [project_obj])%list d.

Definition invalid_link_message : string :=
  "Invalid repository link. Must be from GitHub or GitLab".

Definition add_projects {U : Unicode} (roll_no project_name github_link : string)
  (db : Database) : outcome AddProjectsResult * Database :=
  if is_empty github_link
     || negb (contains "github.com" (lower github_link)
              || contains "gitlab.com" (lower github_link))
  then (Returns (ResultStr invalid_link_message), db)
  else
    match find_one (by_roll_no roll_no) db with
    | None => (Returns (ResultDoc None), db)
    | Some _ =>
        let project_obj :=
          {| project_name := project_name; project_verified := false;
             project_github_link := github_link;
             project_description := None |} in
        match update_one (by_roll_no roll_no) (push_project project_obj) db with
        | (Raises e, db') => (Raises e, db')
        | (Returns _, db') =>
            (Returns (ResultDoc (get_student_by_roll_no roll_no db')), db')
        end
    end.

(** [get_student_projects]: [None] when there is no such student. *)
Definition get_student_projects (roll_no : string) (db : Database)
  : option (list ProjectItem) :=
  match find_one (by_roll_no roll_no) db with
  | None => None
  | Some student => Some (st_projects student)
  end.

(** The query [{"roll_no": roll_no, "skills.name": skill_name}] *)
Definition by_roll_no_and_skill (roll_no skill_name : string) (d : Student) : bool :=
  by_roll_no roll_no d
  && existsb (fun s => String.eqb (item_name s) skill_name) (st_skills d).

(** [{"$set": {"skills.$.verified": True}}]: the first element of the array
    that matches the query. *)
Definition set_first_skill_verified (skill_name : string) (d : Student) : Student :=
  set_st_skills
    (update_first (fun s => String.eqb (item_name s) skill_name)
                  (set_item_verified true) (st_skills d)) d.

Definition verify_student_skill (roll_no skill_name : string) (db : Database)
  : outcome Reply * Database :=
  match find_one (by_roll_no roll_no) db with
  | None => (Returns {| success := false; message := "Student not found" |}, db)
  | Some _ =>
      match update_one (by_roll_no_and_skill roll_no skill_name)
                       (set_first_skill_verified skill_name) db with
      | (Raises e, db') => (Raises e, db')
      | (Returns result, db') =>
          if (0 <? modified_count result)%nat then
            (Returns {| success := true;
                        message := "Skill '" ++ skill_name ++ "' verified successfully" |},
             db')
          else
            (Returns {| success := false;
                        message := "Skill '" ++ skill_name ++ "' not found" |},
             db')
      end
  end.

(** [{"$pull": {"comments": {"timestamp": timestamp}}}] *)
Definition pull_comments (timestamp : string) (d : Student) : Student :=
  match st_comments d with
  | None => d
  | Some cs =>
      set_st_comments
        (Some (filter (fun c => negb (String.eqb (comment_timestamp c) timestamp)) cs))
        d
  end.

Definition delete_comment (roll_no timestamp : string) (db : Database)
  : outcome Reply * Database :=
  match update_one (by_roll_no roll_no) (pull_comments timestamp) db with
  | (Raises e, db') => (Raises e, db')
  | (Returns result, db') =>
      if (0 <? modified_count result)%nat then
        (Returns {| success := true; message := "Comment deleted successfully" |}, db')
      else
        (Returns {| success := false; message := "Comment not found" |}, db')
  end.

(** [student.get("comments", [])] as [get_comments] reads it *)
Definition comments_of (d : Student) : list Comment :=
  match st_comments d with Some cs => cs | None => [] end.

(* ================================================================== *)
(** ** Endpoints of main.py *)

(** [POST /students/{roll_no}/projects/] *)
Definition add_project {U : Unicode}
  (roll_no project_name github_link : string) (db : Database)
  : outcome (Response (string * string * string)) * Database :=
  match add_projects roll_no project_name github_link db with
  | (Raises e, db') => (Raises e, db')
  | (Returns (ResultDoc None), db') =>
      (Returns (HTTPException 404 "Student not found"), db')
  | (Returns (ResultStr result), db') =>
      (Returns (HTTPException 400 result), db')
  | (Returns (ResultDoc (Some _)), db') =>
      (Returns (Ok ("Project added successfully", project_name, github_link)), db')
  end.

(** [POST /admin/verify-skill/{roll_no}] *)
Definition verify_skill (roll_no skill_name : string) (db : Database)
  : outcome (Response Reply) * Database :=
  match verify_student_skill roll_no skill_name db with
  | (Raises e, db') => (Raises e, db')
  | (Returns result, db') =>
      if negb (success result) then
        (Returns (HTTPException 404 (message result)), db')
      else (Returns (Ok result), db')
  end.

(* ================================================================== *)
(** ** Notions used in the statements *)

(** [t] occurs in [s] as a contiguous substring. *)
Definition occurs_in (t s : string) : Prop := exists p q, s = p ++ t ++ q.


(** *** The stages in the words of the specification

    These notions are written from the text of the specification and use
    nothing of the heuristics above: only what Python's [lower], [split],
    [len] and iteration over a string give, and [occurs_in]. *)

(** Exactly [n] of the elements of [l], counted with repetition, satisfy [P]. *)
Inductive counts {A : Type} (P : A -> Prop) : list A -> nat -> Prop :=
| counts_nil : counts P [] 0
| counts_yes x l n : P x -> counts P l n -> counts P (x :: l) (S n)
| counts_no x l n : ~ P x -> counts P l n -> counts P (x :: l) n.

(** [m] out of [n] as a number; nothing out of nothing is 0. *)
Definition fraction (m n : nat) : Q :=
  match n with
  | O => 0%Q
  | S _ => (Z.of_nat m # Pos.of_nat n)%Q
  end.

(** A name token matches a text: it is longer than 2 characters and occurs
    in the text. *)
Definition token_matches (text token : string) : Prop :=
  (2 < len token)%nat /\ occurs_in token text.

(** [r] is the name match ratio of the specification: the number of
    white-space-separated tokens of the lowercased name that are longer than
    2 characters and occur in the lowercased OCR text, divided by the number
    of tokens. *)
Definition name_ratio_spec {U : Unicode} (student_name full : string) (r : Q)
  : Prop :=
  exists n,
    counts (token_matches (lower full)) (split (lower student_name)) n
    /\ r = fraction n (List.length (split (lower student_name))).

(** [s] without its spaces, hyphens and underscores. *)
Fixpoint without_separators (s : string) : string :=
  match s with
  | EmptyString => EmptyString
  | String c s' =>
      if in_dec ascii_dec c [" "%char; "-"%char; "_"%char]
      then without_separators s'
      else String c (without_separators s')
  end.

(** [r] is the fraction of the characters of the cleaned, lowercased roll
    number that occur somewhere in the cleaned, lowercased OCR text. *)
Definition roll_fraction_spec {U : Unicode} (roll_no full : string) (r : Q)
  : Prop :=
  let roll := without_separators (lower roll_no) in
  let text := without_separators (lower full) in
  exists m,
    counts (fun c => occurs_in c text) (chars roll) m
    /\ r = fraction m (len roll).

(** A verification gets past its first stages with the OCR result
    [ocr_data]: the upload decodes, the lowercased caption contains one of
    the keywords and the lowercased OCR text is not empty. *)
Definition reaches_checks {U : Unicode}
  (preprocess_image : list Byte.byte -> outcome Image) (models : ModelLoader)
  (prompt : string) (keywords : list string)
  (image_bytes : list Byte.byte) (ocr_data : OcrData) : Prop :=
  exists image caption,
    preprocess_image image_bytes = Returns image
    /\ generate_caption models image prompt = Returns caption
    /\ (exists keyword,
          In keyword keywords /\ occurs_in keyword (lower caption))
    /\ extract_text models image = Returns ocr_data
    /\ lower (full_text ocr_data) <> "".

(** The confidence map of the certificate check when it enters the name
    stage. *)
Definition scores_after_ocr (round2 : Q -> Q) (ocr_data : OcrData)
  : ConfidenceScores :=
  match confidence_scores ocr_data with
  | _ :: _ =>
      set_ocr (round2 (average (confidence_scores ocr_data)))
              (set_image_type 1 zero_scores)
  | [] => set_ocr 0 (set_image_type 1 zero_scores)
  end.


(** The message of a verification result. *)
Definition result_message {A} (r : bool * string * A) : string := snd (fst r).

(** The verdict of a verification result. *)
Definition result_accepted {A} (r : bool * string * A) : bool := fst (fst r).


(** The document [d'] holds what [d] held in every field that the update [u]
    does not set, and in every field that no update can set. *)
Definition fields_kept (u : StudentUpdate) (d d' : Student) : Prop :=
  (su_college_name u = None -> st_college_name d' = st_college_name d)
  /\ (su_name u = None -> st_name d' = st_name d)
  /\ (su_email u = None -> st_email d' = st_email d)
  /\ (su_phone u = None -> st_phone d' = st_phone d)
  /\ (su_roll_no u = None -> st_roll_no d' = st_roll_no d)
  /\ (su_branch u = None -> st_branch d' = st_branch d)
  /\ (su_year u = None -> st_year d' = st_year d)
  /\ (su_age u = None -> st_age d' = st_age d)
  /\ (su_college_id_pic u = None -> st_college_id_pic d' = st_college_id_pic d)
  /\ st_id d' = st_id d
  /\ st_password d' = st_password d
  /\ st_skills d' = st_skills d
  /\ st_achievements d' = st_achievements d
  /\ st_projects d' = st_projects d
  /\ st_comments d' = st_comments d.

(* ================================================================== *)
(** ** Sample documents *)

Definition python_skill : Item :=
  {| item_name := "Python"; item_verified := false;
     item_certificate := None; item_description := None |}.

Definition jane : Student :=
  {| st_id := 1; st_college_name := Some "IIITNR";
     st_name := Some "Jane Smith"; st_email := Some "jane.smith@example.com";
     st_phone := Some "1234567890"; st_roll_no := Some "CS101";
     st_password := "$2b$12$hash"; st_branch := Some "Computer Science";
     st_year := Some 2%Z; st_age := Some 20%Z; st_college_id_pic := None;
     st_skills := [python_skill]; st_achievements := []; st_projects := [];
     st_comments :=
       Some [{| comment_author := "admin"; comment_author_type := "admin";
                comment_text := "Great progress";
                comment_timestamp := "2025-01-01T10:00:00" |}] |}.

Definition jane_db : Database :=
  {| colleges_collection := []; students_collection := [jane] |}.

Definition alpha_college : CollegeCreate :=
  {| cc_name := "Alpha College"; cc_address := "1 Main St";
     cc_contact_email := "username@alpha.edu";
     cc_contact_phone := "1234567890"; cc_college_id := "COLL001";
     cc_admin_password := "secret1" |}.

(** A second college that shares only the contact email of the first. *)
Definition beta_college : CollegeCreate :=
  {| cc_name := "Beta Institute"; cc_address := "2 High St";
     cc_contact_email := "username@alpha.edu";
     cc_contact_phone := "0987654321"; cc_college_id := "COLL002";
     cc_admin_password := "secret2" |}.

Definition empty_db : Database :=
  {| colleges_collection := []; students_collection := [] |}.

(** A stand-in for bcrypt when running the record access layer. *)
Definition sample_hash (password : string) : string := "$2b$" ++ password.

(** An update that sets nothing, and one that sets only the branch. *)
Definition empty_update : StudentUpdate :=
  {| su_college_name := None; su_name := None; su_email := None;
     su_phone := None; su_roll_no := None; su_branch := None;
     su_year := None; su_age := None; su_college_id_pic := None |}.

Definition branch_update : StudentUpdate :=
  {| su_college_name := None; su_name := None; su_email := None;
     su_phone := None; su_roll_no := None; su_branch := Some (Some "Physics");
     su_year := None; su_age := None; su_college_id_pic := None |}.

(** Two registrations that share only the roll number. *)
Definition first_student : StudentCreate :=
  {| sc_college_name := "IIITNR"; sc_name := "John Doe";
     sc_email := "john.doe@example.com"; sc_phone := "1234567890";
     sc_roll_no := "phone-07"; sc_password := "secret1";
     sc_branch := "Computer Science"; sc_year := 2; sc_age := 20 |}.

Definition second_student : StudentCreate :=
  {| sc_college_name := "IIITNR"; sc_name := "Mary Major";
     sc_email := "mary.major@example.com"; sc_phone := "0987654321";
     sc_roll_no := "phone-07"; sc_password := "secret2";
     sc_branch := "Physics"; sc_year := 1; sc_age := 19 |}.

(** The document [create_college] hands to the store. *)
Definition college_doc_of (hash_password : string -> string)
  (college : CollegeCreate) : College :=
  {| co_id := 0; co_name := cc_name college; co_address := cc_address college;
     co_contact_email := cc_contact_email college;
     co_contact_phone := cc_contact_phone college;
     co_college_id := cc_college_id college;
     co_admin_password := hash_password (cc_admin_password college) |}.

(* ================================================================== *)
(** ** The rest of the record access layer (crud.py) *)

Definition get_colleges (db : Database) : list College :=
  colleges_collection db.

Definition get_college_by_name (name : string) (db : Database) : option College :=
  find (fun c => String.eqb (co_name c) name) (colleges_collection db).

Fixpoint remove_first {A} (p : A -> bool) (l : list A) : list A :=
  match l with
  | [] => []
  | x :: r => if p x then r else x :: remove_first p r
  end.

(** [students_collection.delete_one(query)]: the deleted count and the
    collection without the first document that matches. *)
Definition delete_one (query : Student -> bool) (db : Database) : nat * Database :=
  match find query (students_collection db) with
  | None => (0%nat, db)
  | Some _ =>
      (1%nat, with_students (remove_first query (students_collection db)) db)
  end.

Definition delete_student (roll_no : string) (db : Database) : bool * Database :=
  let '(deleted_count, db') := delete_one (by_roll_no roll_no) db in
  ((0 <? deleted_count)%nat, db').

Definition set_st_college_id_pic (v : option string) (d : Student) : Student :=
  {| st_id := st_id d; st_college_name := st_college_name d; st_name := st_name d;
     st_email := st_email d; st_phone := st_phone d; st_roll_no := st_roll_no d;
     st_password := st_password d; st_branch := st_branch d;
     st_year := st_year d; st_age := st_age d;
     st_college_id_pic := v; st_skills := st_skills d;
     st_achievements := st_achievements d; st_projects := st_projects d;
     st_comments := st_comments d |}.

Definition set_st_achievements (v : list Item) (d : Student) : Student :=
  {| st_id := st_id d; st_college_name := st_college_name d; st_name := st_name d;
     st_email := st_email d; st_phone := st_phone d; st_roll_no := st_roll_no d;
     st_password := st_password d; st_branch := st_branch d;
     st_year := st_year d; st_age := st_age d;
     st_college_id_pic := st_college_id_pic d; st_skills := st_skills d;
     st_achievements := v; st_projects := st_projects d;
     st_comments := st_comments d |}.

Definition set_project_verified (v : bool) (p : ProjectItem) : ProjectItem :=
  {| project_name := project_name p; project_verified := v;
     project_github_link := project_github_link p;
     project_description := project_description p |}.

Definition update_college_id_pic (roll_no file_path : string) (db : Database)
  : outcome bool * Database :=
  match update_one (by_roll_no roll_no)
                   (set_st_college_id_pic (Some file_path)) db with
  | (Raises e, db') => (Raises e, db')
  | (Returns result, db') => (Returns (0 <? matched_count result)%nat, db')
  end.

(** [{"$push": {"skills": skill_obj}}] *)
Definition push_skill (skill_obj : Item) (d : Student) : Student :=
  set_st_skills (st_skills d ++ [skill_obj])%list d.

(** [{"$push": {"achievements": achievement_obj}}] *)
Definition push_achievement (achievement_obj : Item) (d : Student) : Student :=
  set_st_achievements (st_achievements d ++ [achievement_obj])%list d.

Definition add_skills (roll_no skill_name : string) (db : Database)
  (certificate description : option string)
  : outcome (option Student) * Database :=
  match find_one (by_roll_no roll_no) db with
  | None => (Returns None, db)
  | Some _ =>
      let skill_obj :=
        {| item_name := skill_name; item_verified := false;
           item_certificate := certificate;
           item_description := description |} in
      match update_one (by_roll_no roll_no) (push_skill skill_obj) db with
      | (Raises e, db') => (Raises e, db')
      | (Returns _, db') => (Returns (get_student_by_roll_no roll_no db'), db')
      end
  end.

Definition add_achievements (roll_no achievement_name : string) (db : Database)
  (certificate description : option string)
  : outcome (option Student) * Database :=
  match find_one (by_roll_no roll_no) db with
  | None => (Returns None, db)
  | Some _ =>
      let achievement_obj :=
        {| item_name := achievement_name; item_verified := false;
           item_certificate := certificate;
           item_description := description |} in
      match update_one (by_roll_no roll_no)
                       (push_achievement achievement_obj) db with
      | (Raises e, db') => (Raises e, db')
      | (Returns _, db') => (Returns (get_student_by_roll_no roll_no db'), db')
      end
  end.

(** The query [{"roll_no": roll_no, "achievements.name": achievement_name}] *)
Definition by_roll_no_and_achievement (roll_no achievement_name : string)
  (d : Student) : bool :=
  by_roll_no roll_no d
  && existsb (fun a => String.eqb (item_name a) achievement_name)
       (st_achievements d).

(** [{"$set": {"achievements.$.verified": True}}] *)
Definition set_first_achievement_verified (achievement_name : string)
  (d : Student) : Student :=
  set_st_achievements
    (update_first (fun a => String.eqb (item_name a) achievement_name)
                  (set_item_verified true) (st_achievements d)) d.

Definition verify_student_achievement (roll_no achievement_name : string)
  (db : Database) : outcome Reply * Database :=
  match find_one (by_roll_no roll_no) db with
  | None => (Returns {| success := false; message := "Student not found" |}, db)
  | Some _ =>
      match update_one (by_roll_no_and_achievement roll_no achievement_name)
                       (set_first_achievement_verified achievement_name) db with
      | (Raises e, db') => (Raises e, db')
      | (Returns result, db') =>
          if (0 <? modified_count result)%nat then
            (Returns {| success := true;
                        message := "Achievement '" ++ achievement_name
                                   ++ "' verified successfully" |}, db')
          else
            (Returns {| success := false;
                        message := "Achievement '" ++ achievement_name
                                   ++ "' not found" |}, db')
      end
  end.

(** The query [{"roll_no": roll_no, "projects.name": project_name}] *)
Definition by_roll_no_and_project (roll_no name : string) (d : Student) : bool :=
  by_roll_no roll_no d
  && existsb (fun p => String.eqb (project_name p) name) (st_projects d).

(** [{"$set": {"projects.$.verified": True}}] *)
Definition set_first_project_verified (name : string) (d : Student) : Student :=
  set_st_projects
    (update_first (fun p => String.eqb (project_name p) name)
                  (set_project_verified true) (st_projects d)) d.

Definition verify_student_project (roll_no name : string) (db : Database)
  : outcome Reply * Database :=
  match find_one (by_roll_no roll_no) db with
  | None => (Returns {| success := false; message := "Student not found" |}, db)
  | Some _ =>
      match update_one (by_roll_no_and_project roll_no name)
                       (set_first_project_verified name) db with
      | (Raises e, db') => (Raises e, db')
      | (Returns result, db') =>
          if (0 <? modified_count result)%nat then
            (Returns {| success := true;
                        message := "Project '" ++ name
                                   ++ "' verified successfully" |}, db')
          else
            (Returns {| success := false;
                        message := "Project '" ++ name ++ "' not found" |}, db')
      end
  end.

(** What [add_comment] returns: the two keys of every answer and, on
    success, the comment that was stored. *)
Record CommentReply : Type := {
  cr_success : bool;
  cr_message : string;
  cr_comment : option Comment
}.

(** [{"$push": {"comments": comment_obj}}]: creates the array when the
    document has none. *)
Definition push_comment (comment_obj : Comment) (d : Student) : Student :=
  set_st_comments (Some (comments_of d ++ [comment_obj])%list) d.

(** [add_comment]; [utcnow] is [datetime.utcnow().isoformat()] at the call. *)
Definition add_comment (utcnow : string) (roll_no author author_type text : string)
  (db : Database) : outcome CommentReply * Database :=
  match find_one (by_roll_no roll_no) db with
  | None =>
      (Returns {| cr_success := false; cr_message := "Student not found";
                  cr_comment := None |}, db)
  | Some _ =>
      let comment_obj :=
        {| comment_author := author; comment_author_type := author_type;
           comment_text := text; comment_timestamp := utcnow |} in
      match update_one (by_roll_no roll_no) (push_comment comment_obj) db with
      | (Raises e, db') => (Raises e, db')
      | (Returns _, db') =>
          (Returns {| cr_success := true;
                      cr_message := "Comment added successfully";
                      cr_comment := Some comment_obj |}, db')
      end
  end.

(** What [get_comments] returns. *)
Inductive GetCommentsResult : Type :=
| CommentsFailure (message : string)
| CommentsSuccess (comments : list Comment).

Definition get_comments (roll_no : string) (db : Database) : GetCommentsResult :=
  match find_one (by_roll_no roll_no) db with
  | None => CommentsFailure "Student not found"
  | Some student => CommentsSuccess (comments_of student)
  end.




Section Regex.

(** [regex_search_i pattern text]: the store's [$regex] match with option
    [i] (a case-insensitive search of [pattern] in [text]). *)
Variable regex_search_i : string -> string -> bool.

(** The query [{"college_name": {"$regex": f"^{college_name}$", "$options": "i"}}] *)
Definition by_college_name (college_name : string) (d : Student) : bool :=
  match st_college_name d with
  | Some c => regex_search_i ("^" ++ college_name ++ "$") c
  | None => false
  end.

Definition get_all_students (db : Database) (college_name : string)
  : list Student :=
  filter (by_college_name college_name) (students_collection db).


End Regex.

Section Authentication.

(** [verify_password] of auth.py (bcrypt). *)
Variable verify_password : string -> string -> bool.

Definition authenticate_student (roll_no password : string) (db : Database)
  : option Student :=
  match find_one (by_roll_no roll_no) db with
  | None => None
  | Some student =>
      if negb (verify_password password (st_password student)) then None
      else Some student
  end.

Definition authenticate_college_admin (college_id admin_password : string)
  (db : Database) : option College :=
  match find (fun c => String.eqb (co_college_id c) college_id)
             (colleges_collection db) with
  | None => None
  | Some college =>
      if negb (verify_password admin_password (co_admin_password college))
      then None
      else Some college
  end.

End Authentication.

(* ================================================================== *)
(** ** Paths and files (os.path, open) *)

(** [s.rfind(c)]: the index of the last [c] in [s], or -1. *)
Fixpoint rfind_from (c : ascii) (s : string) (i last : Z) : Z :=
  match s with
  | EmptyString => last
  | String d s' => rfind_from c s' (i + 1)%Z (if Ascii.eqb c d then i else last)
  end.

Definition rfind (c : ascii) (s : string) : Z := rfind_from c s 0%Z (-1)%Z.

Fixpoint all_dots (s : string) : bool :=
  match s with
  | EmptyString => true
  | String c s' => Ascii.eqb c "."%char && all_dots s'
  end.

(** [os.path.splitext(p)] of posixpath: the extension starts at the last dot
    of the last component, unless only dots precede it there. *)
Definition splitext (p : string) : string * string :=
  let sepIndex := rfind "/"%char p in
  let dotIndex := rfind "."%char p in
  if (sepIndex <? dotIndex)%Z then
    let leading :=
      substring (Z.to_nat (sepIndex + 1)) (Z.to_nat (dotIndex - sepIndex - 1)) p in
    if all_dots leading then (p, "")
    else (substring 0 (Z.to_nat dotIndex) p, drop (Z.to_nat dotIndex) p)
  else (p, "").

Fixpoint ends_with_slash (s : string) : bool :=
  match s with
  | EmptyString => false
  | String c EmptyString => Ascii.eqb c "/"%char
  | String _ s' => ends_with_slash s'
  end.

(** [os.path.join(a, b)] of posixpath *)
Definition path_join (a b : string) : string :=
  if prefix "/" b then b
  else if is_empty a || ends_with_slash a then a ++ b
  else a ++ "/" ++ b.

Definition UPLOAD_DIR : string := "uploads/certificates".

(** The files of the server, by path. *)
Definition Files : Type := list (string * list Byte.byte).

Definition read_file (path : string) (fs : Files) : option (list Byte.byte) :=
  match find (fun e => String.eqb (fst e) path) fs with
  | Some e => Some (snd e)
  | None => None
  end.

(** [os.path.exists(path)] *)
Definition path_exists (path : string) (fs : Files) : bool :=
  match read_file path fs with Some _ => true | None => false end.

(** [os.remove(path)] *)
Definition remove_file (path : string) (fs : Files) : Files :=
  filter (fun e => negb (String.eqb (fst e) path)) fs.

(** The file [path] holds [data], whatever it held. *)
Definition store_file (path : string) (data : list Byte.byte) (fs : Files) : Files :=
  (path, data) :: remove_file path fs.

Section Writing.

(** What the operating system answers: the exception that [open(path, "wb")]
    raises, if any (a name that is too long or holds a NUL, a missing
    directory, missing rights, ...), and the exception that writing [data]
    to the opened file raises, if any, with the bytes that reached the
    file. *)
Variable open_error : string -> option exn.
Variable write_error : string -> list Byte.byte -> option (exn * list Byte.byte).

(** [with open(path, "wb") as buffer: buffer.write(data)] *)
Definition write_file (path : string) (data : list Byte.byte) (fs : Files)
  : outcome unit * Files :=
  match open_error path with
  | Some e => (Raises e, fs)
  | None =>
      match write_error path data with
      | Some (e, written) => (Raises e, store_file path written fs)
      | None => (Returns tt, store_file path data fs)
      end
  end.

End Writing.

(** The database and the files. *)
Record World : Type := {
  w_db : Database;
  w_files : Files
}.

(** [c.isalnum()] for an ASCII character: a digit or a letter. *)
Definition ascii_is_alnum (c : ascii) : bool :=
  let n := nat_of_ascii c in
  between 48 57 n || between 65 90 n || between 97 122 n.

(** [c.isalnum()] for a character [c] *)
Definition is_alnum {U : Unicode} (c : string) : bool :=
  match c with
  | String a EmptyString =>
      if is_ascii_char a then ascii_is_alnum a else unicode_isalnum c
  | _ => unicode_isalnum c
  end.

(** ["".join(c if c.isalnum() else "_" for c in s)] *)
Definition alnum_or_underscore {U : Unicode} (s : string) : string :=
  String.concat "" (map (fun c => if is_alnum c then c else "_") (chars s)).

(** [x in xs] for a list of strings *)
Definition in_list (x : string) (xs : list string) : bool :=
  existsb (String.eqb x) xs.

(* ================================================================== *)
(** ** More endpoints of main.py *)

(** The answer of [upload_college_id]. *)
Record UploadReply : Type := {
  up_message : string;
  up_roll_no : string;
  up_extracted_college_id : string;
  up_file_path : string;
  up_verification : string
}.

(** The answer of [check_college_id_status]. *)
Record IdStatus : Type := {
  ids_roll_no : string;
  has_uploaded_college_id : bool;
  college_id_pic_path : option string;
  ids_status : string
}.

(** The answer of [add_skill]. *)
Record AddSkillReply : Type := {
  as_message : string;
  certificate_uploaded : bool;
  as_verification : string;
  as_confidence_scores : option ConfidenceScores
}.

(** The answer of [get_student_projects]. *)
Record ProjectsReply : Type := {
  pr_roll_no : string;
  pr_projects : list ProjectItem;
  total_projects : nat
}.

(** An uploaded file: its name, if any, and its content. *)
Record UploadFile : Type := {
  filename : option string;
  content : list Byte.byte
}.

(** [bool(s)] for an optional string *)
Definition truthy (s : option string) : bool :=
  match s with Some v => negb (is_empty v) | None => false end.

Module Main.

(** [POST /colleges/] *)
Definition register_college (hash_password : string -> string)
  (college : CollegeCreate) (db : Database)
  : outcome (Response College) * Database :=
  match create_college hash_password college db with
  | (Returns c, db') => (Returns (Ok c), db')
  | (Raises (ValueError msg), db') => (Returns (HTTPException 400 msg), db')
  | (Raises e, db') => (Raises e, db')
  end.

(** [POST /students/] *)
Definition create_student (hash_password : string -> string)
  (student : StudentCreate) (db : Database)
  : outcome (Response Student) * Database :=
  match get_college_by_name (sc_college_name student) db with
  | None =>
      (Returns (HTTPException 400
         ("College '" ++ sc_college_name student ++
          "' is not registered. Register it first at POST /colleges/")), db)
  | Some _ =>
      match create_student hash_password student db with
      | (Returns s, db') => (Returns (Ok s), db')
      | (Raises (ValueError msg), db') => (Returns (HTTPException 400 msg), db')
      | (Raises e, db') => (Raises e, db')
      end
  end.

(** [GET /students/{roll_no}] *)
Definition get_student (roll_no : string) (db : Database) : Response Student :=
  match get_student_by_roll_no roll_no db with
  | None => HTTPException 404 "Student not found"
  | Some student => Ok student
  end.

(** [PUT /students/{roll_no}] *)
Definition update_student (roll_no : string) (student_update : StudentUpdate)
  (db : Database) : outcome (Response Student) * Database :=
  match update_student roll_no student_update db with
  | (Raises e, db') => (Raises e, db')
  | (Returns None, db') => (Returns (HTTPException 404 "Student not found"), db')
  | (Returns (Some result), db') => (Returns (Ok result), db')
  end.

(** [DELETE /students/{roll_no}] *)
Definition delete_student (roll_no : string) (db : Database)
  : Response string * Database :=
  let '(success, db') := delete_student roll_no db in
  if negb success then (HTTPException 404 "Student not found", db')
  else (Ok "Student deleted successfully", db').

(** [GET /students/{roll_no}/college-id-status/] *)
Definition check_college_id_status (roll_no : string) (db : Database)
  : Response IdStatus :=
  match get_student_by_roll_no roll_no db with
  | None => HTTPException 404 "Student not found"
  | Some student =>
      let has_college_id := truthy (st_college_id_pic student) in
      Ok {| ids_roll_no := roll_no;
            has_uploaded_college_id := has_college_id;
            college_id_pic_path :=
              if has_college_id then st_college_id_pic student else None;
            ids_status :=
              if has_college_id then "Completed" else "Pending - MANDATORY" |}
  end.

(** [GET /students/{roll_no}/projects/] *)
Definition get_student_projects (roll_no : string) (db : Database)
  : Response ProjectsReply :=
  match get_student_projects roll_no db with
  | None => HTTPException 404 "Student not found"
  | Some projects =>
      Ok {| pr_roll_no := roll_no; pr_projects := projects;
            total_projects := List.length projects |}
  end.

Section Uploads.

Context {U : Unicode}.
Variable open_error : string -> option exn.
Variable write_error : string -> list Byte.byte -> option (exn * list Byte.byte).
Variable preprocess_image : list Byte.byte -> outcome Image.
Variable models : ModelLoader.
Variable round2 : Q -> Q.

(** [str(x)] for the float [x] *)
Variable show_float : Q -> string.

(** [POST /students/{roll_no}/upload-college-id/] *)
Definition upload_college_id (roll_no : string) (college_id_pic : UploadFile)
  (w : World) (log : list Call)
  : outcome (Response UploadReply) * World * list Call :=
  if negb (truthy (filename college_id_pic)) then
    (Returns (HTTPException 400 "No file provided"), w, log)
  else
    match get_student_by_roll_no roll_no (w_db w) with
    | None => (Returns (HTTPException 404 "Student not found"), w, log)
    | Some student =>
        if negb (truthy (st_name student)) then
          (Returns (HTTPException 400 "Student name not found in database"), w, log)
        else
          let student_name :=
            match st_name student with Some n => n | None => "" end in
          let fname :=
            match filename college_id_pic with Some n => n | None => "" end in
          let allowed_extensions := [".jpg"; ".jpeg"; ".png"; ".gif"] in
          let file_ext := lower (snd (splitext fname)) in
          if negb (in_list file_ext allowed_extensions) then
            (Returns (HTTPException 400
               "Invalid file type. Allowed types: .jpg, .jpeg, .png, .gif"), w, log)
          else
            let mime_type :=
              if String.eqb file_ext ".png" then "image/png"
              else if String.eqb file_ext ".gif" then "image/gif"
              else "image/jpeg" in
            let image_bytes := content college_id_pic in
            let '((is_valid, ai_message, extracted_college_id), log') :=
              verify_college_id_with_ai preprocess_image models
                image_bytes mime_type student_name roll_no log in
            if negb is_valid then
              (Returns (HTTPException 400 ai_message), w, log')
            else
              let file_path := path_join UPLOAD_DIR (roll_no ++ "_college_id.png") in
              match write_file open_error write_error file_path image_bytes
                               (w_files w) with
              | (Raises e, fs) =>
                  (Raises e, {| w_db := w_db w; w_files := fs |}, log')
              | (Returns _, fs) =>
                  match update_college_id_pic roll_no file_path (w_db w) with
                  | (Raises e, db') =>
                      (Raises e, {| w_db := db'; w_files := fs |}, log')
                  | (Returns result, db') =>
                      if negb result then
                        let fs' :=
                          if path_exists file_path fs
                          then remove_file file_path fs
                          else fs in
                        (Returns (HTTPException 500
                                    "Failed to update student record"),
                         {| w_db := db'; w_files := fs' |}, log')
                      else
                        (Returns (Ok
                           {| up_message :=
                                "College ID card uploaded and verified successfully";
                              up_roll_no := roll_no;
                              up_extracted_college_id := extracted_college_id;
                              up_file_path := file_path;
                              up_verification := ai_message |}),
                         {| w_db := db'; w_files := fs |}, log')
                  end
              end
    end.

(** [POST /students/{roll_no}/skills/] *)
Definition add_skill (roll_no skills : string) (description : option string)
  (certificate : option UploadFile) (w : World) (log : list Call)
  : outcome (Response AddSkillReply) * World * list Call :=
  match get_student_by_roll_no roll_no (w_db w) with
  | None => (Returns (HTTPException 404 "Student not found"), w, log)
  | Some student =>
      if negb (truthy (st_name student)) then
        (Returns (HTTPException 400 "Student name not found in database"), w, log)
      else
        let student_name :=
          match st_name student with Some n => n | None => "" end in
        let final_description :=
          match description with
          | Some d =>
              if negb (is_empty d) && negb (is_empty (strip d)) then Some d
              else None
          | None => None
          end in
        let finish (certificate_path : option string)
                   (verification_message : string)
                   (confidence_scores : option ConfidenceScores)
                   (fs : Files) (log' : list Call) :=
          match add_skills roll_no skills (w_db w) certificate_path
                           final_description with
          | (Raises e, db') => (Raises e, {| w_db := db'; w_files := fs |}, log')
          | (Returns None, db') =>
              (Returns (HTTPException 404 "Student not found"),
               {| w_db := db'; w_files := fs |}, log')
          | (Returns (Some _), db') =>
              (Returns (Ok
                 {| as_message := "Skill added successfully";
                    certificate_uploaded := is_set certificate_path;
                    as_verification := verification_message;
                    as_confidence_scores := confidence_scores |}),
               {| w_db := db'; w_files := fs |}, log')
          end in
        match certificate with
        | Some cert =>
            if truthy (filename cert) then
              let fname := match filename cert with Some n => n | None => "" end in
              let allowed_extensions :=
                [".jpg"; ".jpeg"; ".png"; ".gif"; ".pdf"] in
              let file_ext := lower (snd (splitext fname)) in
              if negb (in_list file_ext allowed_extensions) then
                (Returns (HTTPException 400
                   "Invalid file type. Allowed types: .jpg, .jpeg, .png, .gif, .pdf"),
                 w, log)
              else
                let mime_type :=
                  if String.eqb file_ext ".png" then "image/png"
                  else if String.eqb file_ext ".gif" then "image/gif"
                  else if String.eqb file_ext ".pdf" then "application/pdf"
                  else "image/jpeg" in
                let cert_bytes := content cert in
                let '((is_valid, ai_message, confidence_scores), log') :=
                  verify_certificate_with_ai preprocess_image models round2
                    cert_bytes mime_type student_name skills description log in
                if negb is_valid then
                  (Returns (HTTPException 400
                     (ai_message ++ ". Confidence Score: " ++
                      show_float (overall_confidence confidence_scores))),
                   w, log')
                else
                  let clean_skill_name := lower (alnum_or_underscore skills) in
                  let file_path :=
                    path_join UPLOAD_DIR
                      (roll_no ++ "_" ++ clean_skill_name ++ ".png") in
                  match write_file open_error write_error file_path cert_bytes
                                   (w_files w) with
                  | (Raises e, fs) =>
                      (Raises e, {| w_db := w_db w; w_files := fs |}, log')
                  | (Returns _, fs) =>
                      finish (Some file_path) ai_message (Some confidence_scores)
                        fs log'
                  end
            else finish None "No certificate uploaded" None (w_files w) log
        | None => finish None "No certificate uploaded" None (w_files w) log
        end
  end.

End Uploads.

(** [POST /admin/verify-achievement/{roll_no}] *)
Definition verify_achievement (roll_no achievement_name : string) (db : Database)
  : outcome (Response Reply) * Database :=
  match verify_student_achievement roll_no achievement_name db with
  | (Raises e, db') => (Raises e, db')
  | (Returns result, db') =>
      if negb (success result) then
        (Returns (HTTPException 404 (message result)), db')
      else (Returns (Ok result), db')
  end.

(** [POST /admin/verify-project/{roll_no}] *)
Definition verify_project (roll_no project_name : string) (db : Database)
  : outcome (Response Reply) * Database :=
  match verify_student_project roll_no project_name db with
  | (Raises e, db') => (Raises e, db')
  | (Returns result, db') =>
      if negb (success result) then
        (Returns (HTTPException 404 (message result)), db')
      else (Returns (Ok result), db')
  end.

(** [POST /students/{roll_no}/comments/admin] *)
Definition admin_add_comment (utcnow roll_no text : string) (db : Database)
  : outcome (Response CommentReply) * Database :=
  match add_comment utcnow roll_no "admin" "admin" text db with
  | (Raises e, db') => (Raises e, db')
  | (Returns result, db') =>
      if negb (cr_success result) then
        (Returns (HTTPException 404 (cr_message result)), db')
      else (Returns (Ok result), db')
  end.

(** [POST /students/{roll_no}/comments/student] *)
Definition student_add_comment (utcnow roll_no text : string) (db : Database)
  : outcome (Response CommentReply) * Database :=
  match get_student_by_roll_no roll_no db with
  | None => (Returns (HTTPException 404 "Student not found"), db)
  | Some _ =>
      match add_comment utcnow roll_no roll_no "student" text db with
      | (Raises e, db') => (Raises e, db')
      | (Returns result, db') =>
          if negb (cr_success result) then
            (Returns (HTTPException 404 (cr_message result)), db')
          else (Returns (Ok result), db')
      end
  end.

(** [GET /students/{roll_no}/comments] *)
Definition get_student_comments (roll_no : string) (db : Database)
  : Response (list Comment) :=
  match get_comments roll_no db with
  | CommentsFailure msg => HTTPException 404 msg
  | CommentsSuccess comments => Ok comments
  end.

(** [DELETE /students/{roll_no}/comments/{timestamp}] *)
Definition delete_student_comment (roll_no timestamp : string) (db : Database)
  : outcome (Response Reply) * Database :=
  match delete_comment roll_no timestamp db with
  | (Raises e, db') => (Raises e, db')
  | (Returns result, db') =>
      if negb (success result) then
        (Returns (HTTPException 404 (message result)), db')
      else (Returns (Ok result), db')
  end.

End Main.

(** More sample requests: an update that only renumbers the student, one
    that takes the email of another student, and a second student. *)
Definition roll_update : StudentUpdate :=
  {| su_college_name := None; su_name := None; su_email := None;
     su_phone := None; su_roll_no := Some (Some "CS202"); su_branch := None;
     su_year := None; su_age := None; su_college_id_pic := None |}.

Definition email_update : StudentUpdate :=
  {| su_college_name := None; su_name := None;
     su_email := Some (Some "john.roe@example.com");
     su_phone := None; su_roll_no := None; su_branch := None;
     su_year := None; su_age := None; su_college_id_pic := None |}.

Definition john : Student :=
  {| st_id := 2; st_college_name := Some "IIITNR";
     st_name := Some "John Roe"; st_email := Some "john.roe@example.com";
     st_phone := Some "5550102030"; st_roll_no := Some "CS102";
     st_password := "$2b$12$other"; st_branch := Some "Physics";
     st_year := Some 3%Z; st_age := Some 21%Z;
     st_college_id_pic := None;
     st_skills := [set_item_verified true python_skill];
     st_achievements := []; st_projects := []; st_comments := None |}.

Definition two_students_db : Database :=
  {| colleges_collection := []; students_collection := [jane; john] |}.


(** A sample registration for a college that nobody registered, a sample
    upload and a sample world. *)
Definition orphan_student : StudentCreate :=
  {| sc_college_name := "Nowhere College"; sc_name := "Ann Other";
     sc_email := "ann.other@example.com"; sc_phone := "5550009999";
     sc_roll_no := "NW001"; sc_password := "secret9";
     sc_branch := "Chemistry"; sc_year := 1; sc_age := 18 |}.

Definition id_upload : UploadFile :=
  {| filename := Some "my-card.JPG"; content := [Byte.x89; Byte.x50] |}.

Definition jane_world : World := {| w_db := jane_db; w_files := [] |}.

(** A sample certificate upload and a stand-in for the printing of floats. *)
Definition certificate_upload : UploadFile :=
  {| filename := Some "python.png"; content := [Byte.x89; Byte.x50; Byte.x4e] |}.

Definition sample_show_float (x : Q) : string := "0.0".

(** An operating system on which every file opens and every write goes
    through, and one that refuses to open any file. *)
Definition no_open_error (path : string) : option exn := None.

Definition no_write_error (path : string) (data : list Byte.byte)
  : option (exn * list Byte.byte) := None.

Definition open_refused (path : string) : option exn :=
  Some (Exception ("[Errno 13] Permission denied: '" ++ path ++ "'")).

(** A stand-in for the Unicode tables when running on ASCII text, which
    does not consult them. *)
Definition sample_unicode : Unicode :=
  {| unicode_lower := fun s => s; unicode_isalnum := fun _ => false |}.

(** A number between 0 and 1, and a confidence map of such numbers. *)
Definition in_unit (q : Q) : Prop := (0 <= q /\ q <= 1)%Q.

Definition scores_in_unit (c : ConfidenceScores) : Prop :=
  in_unit (overall_confidence c) /\ in_unit (image_type_match c)
  /\ in_unit (student_name_match c) /\ in_unit (institution_match c)
  /\ in_unit (skill_match c) /\ in_unit (ocr_confidence c).

From Stdlib Require Import Lqa.

(** A stand-in for the check of a password against its bcrypt hash. *)
Definition sample_verify (password hashed : string) : bool :=
  String.eqb hashed (sample_hash password).

(** What an outcome returned, if it returned. *)
Definition fst_returned {A} (o : outcome A) : option A :=
  match o with Returns a => Some a | Raises _ => None end.

(* ================================================================== *)
(** ** Further notions used in the statements *)

(** The update [u] leaves the three indexed keys of every document alone. *)
Definition keeps_keys (u : Student -> Student) : Prop :=
  forall d,
    st_email (u d) = st_email d
    /\ st_phone (u d) = st_phone d
    /\ st_roll_no (u d) = st_roll_no d.

(** The unique indexes of the students collection hold. *)
Definition unique_keys (db : Database) : Prop :=
  NoDup (map st_email (students_collection db))
  /\ NoDup (map st_phone (students_collection db))
  /\ NoDup (map st_roll_no (students_collection db)).

(** The item [s'] is the item [s], possibly promoted to verified. *)
Definition item_promoted (s s' : Item) : Prop :=
  item_name s' = item_name s
  /\ item_certificate s' = item_certificate s
  /\ item_description s' = item_description s
  /\ (item_verified s = true -> item_verified s' = true).

(** The document [d'] is [d] but for its skills, which are those of [d],
    some of them promoted to verified. *)
Definition skills_promoted (d d' : Student) : Prop :=
  set_st_skills (st_skills d) d' = d
  /\ Forall2 item_promoted (st_skills d) (st_skills d').

(** The first skill of [d] with the name [skill_name], if any. *)
Definition first_skill (skill_name : string) (d : Student) : option Item :=
  find (fun s => String.eqb (item_name s) skill_name) (st_skills d).

(** What is left of the server when writing the file [path] raised [e]
    during a request that started in [w] and ended in [w']: either [open]
    raised and nothing changed, or the write raised, the database is as it
    was and no other file changed. *)
Definition write_failed
  (open_error : string -> option exn)
  (write_error : string -> list Byte.byte -> option (exn * list Byte.byte))
  (path : string) (data : list Byte.byte) (e : exn) (w w' : World) : Prop :=
  (open_error path = Some e /\ w' = w)
  \/ (open_error path = None
      /\ (exists written,
            write_error path data = Some (e, written)
            /\ read_file path (w_files w') = Some written)
      /\ w_db w' = w_db w
      /\ (forall p, p <> path -> read_file p (w_files w') = read_file p (w_files w))).

(** The path under which [add_skill] stores the certificate of a skill. *)
Definition certificate_path {U : Unicode} (roll_no skills : string) : string :=
  path_join UPLOAD_DIR
    (roll_no ++ "_" ++ lower (alnum_or_underscore skills) ++ ".png").

(* ================================================================== *)
(** * Properties *)

(** ** Substring test *)

Lemma prefix_app (a b : string) : prefix a (a ++ b) = true.
Proof.
  induction a as [|c a IH]; simpl.
  - destruct b; reflexivity.
  - destruct (ascii_dec c c) as [_|ne]; [exact IH | now destruct ne].
Qed.

Lemma prefix_inv (a s : string) :
  prefix a s = true -> exists b, s = a ++ b.
Proof.
  revert s; induction a as [|c a IH]; intros s H.
  - exists s; reflexivity.
  - destruct s as [|d s]; simpl in H; [discriminate|].
    destruct (ascii_dec c d) as [->|]; [|discriminate].
    destruct (IH s H) as [b ->]. exists b; reflexivity.
Qed.

Lemma append_assoc (a b c : string) : (a ++ b) ++ c = a ++ (b ++ c).
Proof. induction a as [|x a IH]; simpl; [reflexivity | now rewrite IH]. Qed.


Lemma contains_empty (s : string) : contains "" s = true.
Proof. destruct s; reflexivity. Qed.

Lemma prefix_contains (a s : string) : prefix a s = true -> contains a s = true.
Proof.
  destruct s as [|c s]; intros H.
  - destruct a; [reflexivity | discriminate].
  - cbn [contains]. rewrite H. reflexivity.
Qed.

Lemma contains_intro (sub p q : string) : contains sub (p ++ sub ++ q) = true.
Proof.
  induction p as [|c p IH].
  - cbn [append]. apply prefix_contains, prefix_app.
  - cbn [append contains]. rewrite IH. apply orb_true_r.
Qed.

Lemma contains_inv (sub s : string) :
  contains sub s = true -> exists p q, s = p ++ sub ++ q.
Proof.
  induction s as [|c s IH]; cbn [contains]; intros H.
  - destruct sub; [|discriminate]. exists "", ""; reflexivity.
  - apply orb_true_iff in H as [H|H].
    + destruct (prefix_inv _ _ H) as [b E]. exists "", b. exact E.
    + destruct (IH H) as (p & q & ->). exists (String c p), q; reflexivity.
Qed.

Lemma contains_trans (a b c : string) :
  contains a b = true -> contains b c = true -> contains a c = true.
Proof.
  intros Hab Hbc.
  destruct (contains_inv _ _ Hab) as (p & q & ->).
  destruct (contains_inv _ _ Hbc) as (p' & q' & ->).
  replace (p' ++ (p ++ a ++ q) ++ q') with ((p' ++ p) ++ a ++ (q ++ q')).
  - apply contains_intro.
  - now rewrite !append_assoc.
Qed.


(** ** Comparisons of ratios *)

Lemma Qltb_lt (x y : Q) : Qltb x y = true <-> (x < y)%Q.
Proof.
  unfold Qltb. rewrite negb_true_iff. split; intros H.
  - apply Qnot_le_lt. intros L. apply Qle_bool_iff in L. congruence.
  - destruct (Qle_bool y x) eqn:E; [|reflexivity].
    apply Qle_bool_iff in E. now apply Qle_not_lt in E.
Qed.

Lemma Qltb_ge (x y : Q) : Qltb x y = false <-> (y <= x)%Q.
Proof.
  unfold Qltb. rewrite negb_false_iff. apply Qle_bool_iff.
Qed.

(** ** The notions of the specification and what the code computes *)

Lemma contains_occurs (t s : string) : contains t s = true <-> occurs_in t s.
Proof.
  split; [apply contains_inv|].
  intros (p & q & ->). apply contains_intro.
Qed.

Lemma not_contains_occurs (t s : string) :
  contains t s = false <-> ~ occurs_in t s.
Proof.
  rewrite <- contains_occurs. destruct (contains t s); split; intros H;
    solve [reflexivity | discriminate | congruence | now destruct H].
Qed.

Lemma counts_filter {A} (P : A -> Prop) (p : A -> bool) (l : list A) :
  (forall x, p x = true <-> P x) -> counts P l (count p l).
Proof.
  intros H. unfold count. induction l as [|x l IH]; cbn [filter].
  - constructor.
  - destruct (p x) eqn:E.
    + cbn [List.length]. apply counts_yes; [now apply H | exact IH].
    + apply counts_no; [|exact IH]. intros HP. apply H in HP. congruence.
Qed.

Lemma counts_unique {A} (P : A -> Prop) (l : list A) (n m : nat) :
  counts P l n -> counts P l m -> n = m.
Proof.
  intros Hn. revert m.
  induction Hn as [|x l n Hx Hn IH|x l n Hx Hn IH]; intros m Hm;
    inversion Hm; subst;
    first [reflexivity | contradiction | f_equal; now apply IH | now apply IH].
Qed.

Lemma any_keyword_true (keywords : list string) (caption_lower : string) :
  any_keyword keywords caption_lower = true
  <-> exists k, In k keywords /\ occurs_in k caption_lower.
Proof.
  unfold any_keyword. rewrite existsb_exists.
  split; intros (k & Hk & H); exists k; split; try assumption;
    now apply contains_occurs.
Qed.

Lemma is_empty_false (s : string) : is_empty s = false <-> s <> "".
Proof.
  destruct s; cbn; split; intros H;
    solve [discriminate | reflexivity | now destruct H].
Qed.

Lemma token_matches_decide (text token : string) :
  (2 <? len token)%nat && contains token text = true
  <-> token_matches text token.
Proof.
  unfold token_matches.
  rewrite andb_true_iff, Nat.ltb_lt, contains_occurs. reflexivity.
Qed.

Lemma matched_parts_counts (parts : list string) (text : string) :
  counts (token_matches text) parts (matched_parts parts text).
Proof. apply counts_filter. intros x. apply token_matches_decide. Qed.

Lemma matched_chars_counts (roll text : string) :
  counts (fun c => occurs_in c text) (chars roll) (matched_chars roll text).
Proof. apply counts_filter. intros x. apply contains_occurs. Qed.

Lemma fraction_ratio (m n : nat) : (fraction m n == ratio m n)%Q.
Proof.
  unfold fraction, ratio. destruct n as [|n].
  - unfold Qdiv. cbn. now rewrite Qmult_0_r.
  - unfold Qdiv, Qeq. cbn. destruct n as [|n]; [lia|].
    rewrite Pos.of_nat_succ. cbn. lia.
Qed.

Lemma below_threshold (m n : nat) :
  Qltb (ratio m n) threshold = true <-> (fraction m n < 6 # 10)%Q.
Proof.
  rewrite Qltb_lt, fraction_ratio. change threshold with (6 # 10)%Q.
  reflexivity.
Qed.

Lemma at_least_threshold (m n : nat) :
  Qltb (ratio m n) threshold = false <-> (6 # 10 <= fraction m n)%Q.
Proof.
  rewrite Qltb_ge, fraction_ratio. change threshold with (6 # 10)%Q.
  reflexivity.
Qed.

Lemma clean_without_separators (s : string) : clean s = without_separators s.
Proof.
  unfold clean. induction s as [|c s IH]; [reflexivity|].
  cbn [remove_char without_separators].
  destruct (Ascii.eqb_spec " "%char c) as [<-|H1]; [exact IH|].
  cbn [remove_char].
  destruct (Ascii.eqb_spec "-"%char c) as [<-|H2]; [exact IH|].
  cbn [remove_char].
  destruct (Ascii.eqb_spec "_"%char c) as [<-|H3]; [exact IH|].
  destruct (in_dec ascii_dec c [" "%char; "-"%char; "_"%char]) as [Hin|_].
  - cbn in Hin. intuition congruence.
  - now rewrite IH.
Qed.

Lemma name_ratio_spec_code {U : Unicode} (student_name full : string) :
  name_ratio_spec student_name full
    (fraction (matched_parts (split (lower student_name)) (lower full))
              (List.length (split (lower student_name)))).
Proof. eexists. split; [apply matched_parts_counts | reflexivity]. Qed.

Lemma name_ratio_spec_unique {U : Unicode} (student_name full : string) (r r' : Q) :
  name_ratio_spec student_name full r ->
  name_ratio_spec student_name full r' -> r = r'.
Proof.
  intros (n & Hn & ->) (m & Hm & ->).
  now rewrite (counts_unique _ _ _ _ Hn Hm).
Qed.

Lemma roll_fraction_spec_code {U : Unicode} (roll_no full : string) :
  roll_fraction_spec roll_no full
    (fraction (matched_chars (clean (lower roll_no)) (clean (lower full)))
              (len (clean (lower roll_no)))).
Proof.
  unfold roll_fraction_spec. rewrite !clean_without_separators.
  eexists. split; [apply matched_chars_counts | reflexivity].
Qed.

Lemma roll_fraction_spec_unique {U : Unicode} (roll_no full : string) (r r' : Q) :
  roll_fraction_spec roll_no full r ->
  roll_fraction_spec roll_no full r' -> r = r'.
Proof.
  intros (n & Hn & ->) (m & Hm & ->).
  now rewrite (counts_unique _ _ _ _ Hn Hm).
Qed.

(** ** The caption gate *)

Lemma any_keyword_false (keywords : list string) (caption_lower : string) :
  (forall k, In k keywords -> ~ occurs_in k caption_lower) ->
  any_keyword keywords caption_lower = false.
Proof.
  intros H. destruct (any_keyword keywords caption_lower) eqn:E; [|reflexivity].
  apply any_keyword_true in E as (k & Hk & Ho). now destruct (H k Hk).
Qed.

(** C2, as the code has it: a caption whose lowercased form contains none of
    the keywords of a check is rejected by that check right after the
    caption call, before any OCR call: the ID card check answers with its
    fixed message and an empty extracted id, the certificate check with its
    fixed message and a confidence map whose entries (image_type_match and
    overall_confidence among them) are all 0.  The
    caption "No, this is not an ID" is not such a caption for the ID card
    check: lowercased it contains the keyword "id". *)
Theorem caption_gate_rejects {U : Unicode} :
  (forall preprocess_image models image_bytes image caption student_name
          roll_no log,
      preprocess_image image_bytes = Returns image ->
      generate_caption models image id_caption_prompt = Returns caption ->
      (forall k, In k ["yes"; "id"; "student"] ->
                 ~ occurs_in k (lower caption)) ->
      verify_college_id_with_models preprocess_image models
        image_bytes student_name roll_no log
      = ((false,
          "The uploaded image does not appear to be a valid college ID card",
          ""),
         (log ++ [CallPreprocess; CallCaption id_caption_prompt])%list))
  /\ (forall preprocess_image models round2 image_bytes image caption mime_type
             student_name skill_or_achievement description log,
      preprocess_image image_bytes = Returns image ->
      generate_caption models image certificate_caption_prompt
      = Returns caption ->
      (forall k, In k ["yes"; "certificate"; "award"] ->
                 ~ occurs_in k (lower caption)) ->
      verify_certificate_with_ai preprocess_image models round2
        image_bytes mime_type student_name skill_or_achievement
        description log
      = ((false,
          "The uploaded image does not appear to be a valid certificate",
          {| overall_confidence := 0; image_type_match := 0;
             student_name_match := 0; institution_match := 0;
             skill_match := 0; ocr_confidence := 0 |}),
         (log ++ [CallPreprocess;
                  CallCaption certificate_caption_prompt])%list))
  /\ occurs_in "id" (lower "No, this is not an ID").
Proof.
  split; [|split].
  - intros pre models bytes image caption name roll log Hpre Hcap Hk.
    apply any_keyword_false in Hk.
    unfold verify_college_id_with_models, try_except, verify_college_id_body,
      bind, call, ret.
    rewrite Hpre, Hcap. change id_keywords with ["yes"; "id"; "student"].
    rewrite Hk. cbn [negb]. now rewrite <- app_assoc.
  - intros pre models round2 bytes image caption mime name skill descr log
           Hpre Hcap Hk.
    apply any_keyword_false in Hk.
    unfold verify_certificate_with_ai, try_except, verify_certificate_body,
      bind, call, ret.
    rewrite Hpre, Hcap.
    change certificate_keywords with ["yes"; "certificate"; "award"].
    rewrite Hk. now rewrite <- app_assoc.
  - exists "no, this is not an ", "". reflexivity.
Qed.

(** ** Exceptions *)






(** ** The name stage *)

Lemma not_substring_nonempty (a s : string) :
  contains a s = false -> is_empty a = false.
Proof.
  destruct a; [|reflexivity]. rewrite contains_empty. discriminate.
Qed.

Lemma name_ratio_no_tokens (text : string) :
  Qltb 0 threshold = Qltb (ratio (matched_parts [] text) 0) threshold.
Proof. reflexivity. Qed.

(** The four ways through steps 4 to 6 of the ID card check, in the notions
    of the specification. *)
Lemma college_id_checks_cases {U : Unicode} (full student_name roll_no : string) :
  let rn := fraction (matched_parts (split (lower student_name)) (lower full))
                     (List.length (split (lower student_name))) in
  let roll := without_separators (lower roll_no) in
  let text := without_separators (lower full) in
  let rf := fraction (matched_chars roll text) (len roll) in
  let r := college_id_checks full student_name roll_no in
  ((rn < 6 # 10)%Q
   /\ r = (false,
           "Student name '" ++ student_name ++
           "' does not match the name on the ID card. Please ensure the name matches your registration.",
           ""))
  \/ ((6 # 10 <= rn)%Q /\ occurs_in roll text
      /\ r = (true, "College ID verified successfully", strip full))
  \/ ((6 # 10 <= rn)%Q /\ ~ occurs_in roll text /\ (rf < 6 # 10)%Q
      /\ r = (false,
              "Roll number '" ++ roll_no ++
              "' does not match the ID on the card. Please verify your roll number and try again.",
              ""))
  \/ ((6 # 10 <= rn)%Q /\ ~ occurs_in roll text /\ (6 # 10 <= rf)%Q
      /\ r = (true, "College ID verified successfully", strip full)).
Proof.
  intros rn roll text rf r. subst rn roll text rf r.
  unfold college_id_checks. cbv zeta. rewrite !clean_without_separators.
  assert (E : Qltb match split (lower student_name) with
                   | [] => 0%Q
                   | _ :: _ =>
                       ratio (matched_parts (split (lower student_name))
                                            (lower full))
                             (List.length (split (lower student_name)))
                   end threshold
              = Qltb (ratio (matched_parts (split (lower student_name))
                                           (lower full))
                            (List.length (split (lower student_name))))
                     threshold).
  { destruct (split (lower student_name)); reflexivity. }
  rewrite E. clear E.
  destruct (Qltb (ratio (matched_parts _ _) _) threshold) eqn:En.
  { left. apply below_threshold in En. split; [exact En | reflexivity]. }
  apply at_least_threshold in En. right.
  destruct (contains (without_separators (lower roll_no))
                     (without_separators (lower full))) eqn:Hs; cbn [negb].
  { left. apply contains_occurs in Hs. repeat split; assumption. }
  right. rewrite (not_substring_nonempty _ _ Hs).
  apply not_contains_occurs in Hs.
  destruct (Qltb (ratio (matched_chars _ _) _) threshold) eqn:Er.
  - left. apply below_threshold in Er. repeat split; assumption.
  - right. apply at_least_threshold in Er. repeat split; assumption.
Qed.

Lemma skill_stage_message round2 extracted_text expected_skill scores :
  prefix "St" (result_message
     (certificate_skill_stage round2 extracted_text expected_skill scores))
  = false.
Proof.
  unfold certificate_skill_stage, result_message.
  destruct (long_words expected_skill); [reflexivity|].
  destruct (Qltb _ threshold); reflexivity.
Qed.

Lemma later_stages_message {U : Unicode}
  round2 extracted_text skill description scores :
  prefix "St" (result_message
     (certificate_later_stages round2 extracted_text skill description scores))
  = false.
Proof.
  unfold certificate_later_stages.
  destruct (fst _) as [inst|]; [|apply skill_stage_message].
  destruct (is_empty inst); [apply skill_stage_message|].
  destruct (long_words inst); [apply skill_stage_message|].
  destruct (Qltb _ threshold); [reflexivity | apply skill_stage_message].
Qed.

Lemma certificate_name_stage_threshold {U : Unicode}
  round2 extracted_text student_name skill description scores :
  split (lower student_name) <> [] ->
  let r := certificate_name_stage round2 extracted_text student_name skill
             description scores in
  (result_accepted r = false
   /\ result_message r
      = "Student name '" ++ student_name ++
        "' does not match the name on the certificate")
  <-> (fraction (matched_parts (split (lower student_name)) extracted_text)
                (List.length (split (lower student_name))) < 6 # 10)%Q.
Proof.
  intros Hne r. subst r. rewrite <- below_threshold.
  unfold certificate_name_stage.
  destruct (split (lower student_name)) as [|part parts] eqn:Es;
    [now destruct Hne|].
  destruct (Qltb _ threshold) eqn:E.
  - split; [reflexivity|]. intros _. split; reflexivity.
  - split; [|discriminate]. intros [_ H].
    pose proof (later_stages_message round2 extracted_text skill description
      (set_student_name
         (round2 (ratio (matched_parts (part :: parts) extracted_text)
                        (List.length (part :: parts)))) scores)) as P.
    rewrite H in P. discriminate P.
Qed.

Lemma skill_stage_keeps_name round2 extracted_text expected_skill scores :
  student_name_match
    (snd (certificate_skill_stage round2 extracted_text expected_skill scores))
  = student_name_match scores.
Proof.
  unfold certificate_skill_stage.
  destruct (long_words expected_skill); [reflexivity|].
  destruct (Qltb _ threshold); reflexivity.
Qed.

Lemma later_stages_keep_name {U : Unicode}
  round2 extracted_text skill description scores :
  student_name_match
    (snd (certificate_later_stages round2 extracted_text skill description scores))
  = student_name_match scores.
Proof.
  unfold certificate_later_stages.
  destruct (fst _) as [inst|]; [|now rewrite skill_stage_keeps_name].
  destruct (is_empty inst); [now rewrite skill_stage_keeps_name|].
  destruct (long_words inst); [now rewrite skill_stage_keeps_name|].
  destruct (Qltb _ threshold); [reflexivity|].
  now rewrite skill_stage_keeps_name.
Qed.

Lemma id_reaches_checks {U : Unicode}
  preprocess_image models image_bytes student_name roll_no ocr_data log :
  reaches_checks preprocess_image models id_caption_prompt
    ["yes"; "id"; "student"] image_bytes ocr_data ->
  fst (verify_college_id_with_models preprocess_image models
         image_bytes student_name roll_no log)
  = college_id_checks (full_text ocr_data) student_name roll_no.
Proof.
  intros (image & caption & Hpre & Hcap & Hkey & Hocr & Hne).
  apply any_keyword_true in Hkey. apply is_empty_false in Hne.
  unfold verify_college_id_with_models, try_except, verify_college_id_body,
    bind, call, ret.
  rewrite Hpre, Hcap. change id_keywords with ["yes"; "id"; "student"].
  rewrite Hkey. cbn [negb]. rewrite Hocr, Hne. reflexivity.
Qed.

Lemma certificate_reaches_checks {U : Unicode}
  preprocess_image models round2 image_bytes mime_type student_name skill
  description ocr_data log :
  reaches_checks preprocess_image models certificate_caption_prompt
    ["yes"; "certificate"; "award"] image_bytes ocr_data ->
  fst (verify_certificate_with_ai preprocess_image models round2
         image_bytes mime_type student_name skill description log)
  = certificate_name_stage round2 (lower (full_text ocr_data)) student_name
      skill description (scores_after_ocr round2 ocr_data).
Proof.
  intros (image & caption & Hpre & Hcap & Hkey & Hocr & Hne).
  apply any_keyword_true in Hkey. apply is_empty_false in Hne.
  unfold verify_certificate_with_ai, try_except, verify_certificate_body,
    bind, call, ret, scores_after_ocr.
  rewrite Hpre, Hcap.
  change certificate_keywords with ["yes"; "certificate"; "award"].
  rewrite Hkey, Hocr, Hne.
  destruct (confidence_scores ocr_data); reflexivity.
Qed.

Lemma jane_smith_tokens {U : Unicode} (full : string) :
  occurs_in "jane smith cs101" (lower full) ->
  matched_parts (split (lower "Jane Smith")) (lower full) = 2%nat.
Proof.
  intros H. apply contains_occurs in H.
  change (split (lower "Jane Smith")) with ["jane"; "smith"].
  unfold matched_parts, count. cbn [filter].
  rewrite (contains_trans "jane" "jane smith cs101" (lower full) eq_refl H).
  rewrite (contains_trans "smith" "jane smith cs101" (lower full) eq_refl H).
  reflexivity.
Qed.

(** C3, as the code has it.  The name match ratio is the number of
    white-space-separated tokens of the lowercased name that are longer
    than 2 characters and occur in the lowercased OCR text, over the number
    of tokens.  Once the ID card check has a non-empty OCR text, it rejects
    with its name message exactly when the ratio (0 for a name without
    tokens) is below 0.6.  Once the certificate check has a non-empty OCR
    text, it rejects with its name message exactly when the ratio is below
    0.6, for every name with at least one token.  The name "Jane Smith"
    against a text containing "jane smith cs101" has ratio 1, which is not
    below 0.6. *)
Theorem name_stage_threshold {U : Unicode} :
  (forall preprocess_image models image_bytes student_name roll_no ocr_data log,
      reaches_checks preprocess_image models id_caption_prompt
        ["yes"; "id"; "student"] image_bytes ocr_data ->
      exists name_ratio,
        name_ratio_spec student_name (full_text ocr_data) name_ratio
        /\ (fst (verify_college_id_with_models preprocess_image models
                   image_bytes student_name roll_no log)
            = (false,
               "Student name '" ++ student_name ++
               "' does not match the name on the ID card. Please ensure the name matches your registration.",
               "")
            <-> (name_ratio < 6 # 10)%Q))
  /\ (forall preprocess_image models round2 image_bytes mime_type student_name
             skill_or_achievement description ocr_data log,
      reaches_checks preprocess_image models certificate_caption_prompt
        ["yes"; "certificate"; "award"] image_bytes ocr_data ->
      split (lower student_name) <> [] ->
      exists name_ratio,
        name_ratio_spec student_name (full_text ocr_data) name_ratio
        /\ let r := fst (verify_certificate_with_ai preprocess_image models
                           round2 image_bytes mime_type student_name
                           skill_or_achievement description log) in
           (result_accepted r = false
            /\ result_message r
               = "Student name '" ++ student_name ++
                 "' does not match the name on the certificate")
           <-> (name_ratio < 6 # 10)%Q)
  /\ (forall full,
      occurs_in "jane smith cs101" (lower full) ->
      exists name_ratio,
        name_ratio_spec "Jane Smith" full name_ratio
        /\ (name_ratio == 1)%Q /\ ~ (name_ratio < 6 # 10)%Q).
Proof.
  split; [|split].
  - intros pre models bytes name roll ocr log Hreach.
    eexists. split; [apply name_ratio_spec_code|].
    rewrite (id_reaches_checks pre models bytes name roll ocr log Hreach).
    destruct (college_id_checks_cases (full_text ocr) name roll)
      as [[L ->]|[(G & _ & ->)|[(G & _ & _ & ->)|(G & _ & _ & ->)]]].
    + split; [intros _; exact L | reflexivity].
    + split; [discriminate | intros L; now apply Qlt_not_le in L].
    + split; [intros E; cbn in E; discriminate E
             | intros L; now apply Qlt_not_le in L].
    + split; [discriminate | intros L; now apply Qlt_not_le in L].
  - intros pre models round2 bytes mime name skill descr ocr log Hreach Hne.
    eexists. split; [apply name_ratio_spec_code|]. cbv zeta.
    rewrite (certificate_reaches_checks pre models round2 bytes mime name skill
               descr ocr log Hreach).
    now apply certificate_name_stage_threshold.
  - intros full H. eexists. split; [apply name_ratio_spec_code|].
    rewrite (jane_smith_tokens full H).
    change (List.length (split (lower "Jane Smith"))) with 2%nat.
    split; [reflexivity | discriminate].
Qed.

(** ** The roll number stage *)

(** C4: in the ID card check, once the name stage has passed (the name
    match ratio is at least 0.6), a roll number whose lowercased form
    without spaces, hyphens and underscores occurs in the OCR text cleaned
    the same way is accepted; one that does not occur is accepted exactly
    when the fraction of its characters that occur somewhere in the cleaned
    OCR text is at least 0.6, and is rejected with the roll number message
    exactly when that fraction is below 0.6. *)
Theorem roll_number_stage {U : Unicode} :
  forall preprocess_image models image_bytes student_name roll_no ocr_data log,
    reaches_checks preprocess_image models id_caption_prompt
      ["yes"; "id"; "student"] image_bytes ocr_data ->
    (exists name_ratio,
        name_ratio_spec student_name (full_text ocr_data) name_ratio
        /\ (6 # 10 <= name_ratio)%Q) ->
    let r := fst (verify_college_id_with_models preprocess_image models
                    image_bytes student_name roll_no log) in
    let accepted :=
      (true, "College ID verified successfully", strip (full_text ocr_data)) in
    let roll := without_separators (lower roll_no) in
    let text := without_separators (lower (full_text ocr_data)) in
    (occurs_in roll text -> r = accepted)
    /\ (~ occurs_in roll text ->
        exists roll_fraction,
          roll_fraction_spec roll_no (full_text ocr_data) roll_fraction
          /\ (r = accepted <-> (6 # 10 <= roll_fraction)%Q)
          /\ (r = (false,
                   "Roll number '" ++ roll_no ++
                   "' does not match the ID on the card. Please verify your roll number and try again.",
                   "")
              <-> (roll_fraction < 6 # 10)%Q)).
Proof.
  intros pre models bytes name roll_no ocr log Hreach (rn & Hrn & Hge)
         r accepted roll text.
  subst r accepted roll text.
  rewrite (id_reaches_checks pre models bytes name roll_no ocr log Hreach).
  rewrite (name_ratio_spec_unique _ _ _ _ Hrn (name_ratio_spec_code _ _)) in Hge.
  pose proof (roll_fraction_spec_code roll_no (full_text ocr)) as Hrf.
  rewrite !clean_without_separators in Hrf.
  destruct (college_id_checks_cases (full_text ocr) name roll_no)
    as [[L _]|[(_ & S & ->)|[(_ & N & L & ->)|(_ & N & G & ->)]]].
  - now apply Qlt_not_le in L.
  - split; [reflexivity | intros N; now destruct N].
  - split; [intros S; now destruct N|]. intros _.
    eexists. split; [exact Hrf|]. split; split.
    + discriminate.
    + intros G. now apply Qlt_not_le in L.
    + intros _. exact L.
    + reflexivity.
  - split; [reflexivity|]. intros _.
    eexists. split; [exact Hrf|]. split; split.
    + intros _. exact G.
    + reflexivity.
    + discriminate.
    + intros L. now apply Qlt_not_le in L.
Qed.

(** ** Names without tokens in the certificate check *)

Lemma certificate_no_tokens_message {U : Unicode}
  preprocess_image models round2 image_bytes mime_type student_name skill
  description log :
  split (lower student_name) = [] ->
  prefix "St"
    (result_message
       (fst (verify_certificate_with_ai preprocess_image models round2
               image_bytes mime_type student_name skill description log)))
  = false.
Proof.
  intros Hs.
  unfold verify_certificate_with_ai, try_except, verify_certificate_body,
    bind, call, ret.
  destruct (preprocess_image image_bytes) as [image|e]; [|reflexivity].
  destruct (generate_caption models image certificate_caption_prompt)
    as [caption|e]; [|reflexivity].
  destruct (any_keyword certificate_keywords (lower caption)); [|reflexivity].
  destruct (extract_text models image) as [ocr_data|e]; [|reflexivity].
  destruct (is_empty (lower (full_text ocr_data))); [reflexivity|].
  cbn [fst]. unfold certificate_name_stage. rewrite Hs.
  apply later_stages_message.
Qed.

(** C10: in the certificate check a name that splits into no token (an
    empty name, or one of white space only) is never rejected at the name
    stage, whatever the OCR text: no run answers with the name message, and
    a run that reaches the name stage records student_name_match 1 and
    answers what the later stages answer. *)
Theorem certificate_no_tokens_name_passes {U : Unicode} :
  forall preprocess_image models round2 image_bytes mime_type student_name
         skill_or_achievement description log,
    split (lower student_name) = [] ->
    let r := fst (verify_certificate_with_ai preprocess_image models round2
                    image_bytes mime_type student_name skill_or_achievement
                    description log) in
    result_message r
    <> "Student name '" ++ student_name ++
       "' does not match the name on the certificate"
    /\ (forall ocr_data,
        reaches_checks preprocess_image models certificate_caption_prompt
          ["yes"; "certificate"; "award"] image_bytes ocr_data ->
        r = certificate_later_stages round2 (lower (full_text ocr_data))
              skill_or_achievement description
              (set_student_name 1 (scores_after_ocr round2 ocr_data))
        /\ student_name_match (snd r) = 1%Q).
Proof.
  intros pre models round2 bytes mime name skill descr log Hs r.
  split.
  - intros E.
    pose proof (certificate_no_tokens_message pre models round2 bytes mime name
                  skill descr log Hs) as P.
    fold r in P. rewrite E in P. discriminate P.
  - intros ocr Hreach.
    assert (Hr : r = certificate_later_stages round2 (lower (full_text ocr))
                       skill descr
                       (set_student_name 1 (scores_after_ocr round2 ocr))).
    { subst r.
      rewrite (certificate_reaches_checks pre models round2 bytes mime name
                 skill descr ocr log Hreach).
      unfold certificate_name_stage. now rewrite Hs. }
    split; [exact Hr|]. rewrite Hr, later_stages_keep_name. reflexivity.
Qed.

(** ** The document store *)

Lemma opt_eqb_refl (a : option string) : opt_eqb a a = true.
Proof. destruct a; simpl; [apply String.eqb_refl | reflexivity]. Qed.

Lemma key_taken_unchanged (field : Student -> option string) d d' docs :
  field d' = field d -> key_taken field (Some d) d' docs = false.
Proof.
  intros E. unfold key_taken. now rewrite E, opt_eqb_refl.
Qed.

Lemma no_violation_when_keys_kept d d' docs :
  st_email d' = st_email d ->
  st_phone d' = st_phone d ->
  st_roll_no d' = st_roll_no d ->
  student_index_violation (Some d) d' docs = None.
Proof.
  intros He Hp Hr. unfold student_index_violation.
  now rewrite !key_taken_unchanged.
Qed.

Lemma update_first_fixed {A} (p : A -> bool) (f : A -> A) (l : list A) d :
  find p l = Some d -> f d = d -> update_first p f l = l.
Proof.
  induction l as [|x l IH]; simpl; intros Hf Hd; [reflexivity|].
  destruct (p x).
  - injection Hf as ->. now rewrite Hd.
  - now rewrite IH.
Qed.

Lemma with_students_same (db : Database) :
  with_students (students_collection db) db = db.
Proof. now destruct db. Qed.

Lemma filter_keeps_all {A} (p : A -> bool) (l : list A) :
  (forall x, In x l -> p x = true) -> filter p l = l.
Proof.
  induction l as [|x l IH]; simpl; intros H; [reflexivity|].
  rewrite (H x (or_introl eq_refl)). f_equal. apply IH. auto.
Qed.

Lemma update_one_fixed query update db d :
  find query (students_collection db) = Some d ->
  update d = d ->
  update_one query update db
  = (Returns {| matched_count := 1; modified_count := 0 |}, db).
Proof.
  intros Hf Hd. unfold update_one. rewrite Hf, Hd.
  rewrite no_violation_when_keys_kept by reflexivity.
  destruct (Student_eq_dec d d) as [_|ne]; [|now destruct ne].
  rewrite (update_first_fixed query update _ d Hf Hd).
  now rewrite with_students_same.
Qed.

(** ** Project links *)

(** C5: a link whose lowercased form contains neither "github.com" nor
    "gitlab.com" (the empty link included) is refused with the literal
    message, by [add_projects] and as the detail of a 400 answer by the
    endpoint, and the database is left as it was, so that no projects list
    changes. *)
Theorem invalid_link_rejected {U : Unicode} :
  forall roll_no project_name github_link db,
    contains "github.com" (lower github_link) = false ->
    contains "gitlab.com" (lower github_link) = false ->
    add_projects roll_no project_name github_link db
      = (Returns (ResultStr
           "Invalid repository link. Must be from GitHub or GitLab"), db)
    /\ add_project roll_no project_name github_link db
      = (Returns (HTTPException 400
           "Invalid repository link. Must be from GitHub or GitLab"), db)
    /\ (forall r,
        get_student_projects r
          (snd (add_projects roll_no project_name github_link db))
        = get_student_projects r db).
Proof.
  intros roll pname link db Hgh Hgl.
  assert (E : add_projects roll pname link db
              = (Returns (ResultStr invalid_link_message), db)).
  { unfold add_projects. rewrite Hgh, Hgl. cbn [orb negb].
    now rewrite orb_true_r. }
  repeat split.
  - exact E.
  - unfold add_project. now rewrite E.
  - intros r. now rewrite E.
Qed.

(** ** Deleting comments *)

Lemma pull_comments_no_match timestamp d :
  (forall c, In c (comments_of d) -> comment_timestamp c <> timestamp) ->
  pull_comments timestamp d = d.
Proof.
  unfold pull_comments, comments_of. intros H.
  destruct d as [i cn n e p r pw b y a pic sk ac pr [cs|]]; cbn in *;
    [|reflexivity].
  unfold set_st_comments; cbn. rewrite filter_keeps_all; [reflexivity|].
  intros c Hc. apply negb_true_iff, String.eqb_neq. now apply H.
Qed.

(** C8: when no comment of the student carries the timestamp,
    [delete_comment] answers "Comment not found" and leaves the database, and
    with it the length of every comments list, as it was. *)
Theorem delete_comment_not_found :
  forall roll_no timestamp db,
    (forall d c,
        find_one (by_roll_no roll_no) db = Some d ->
        In c (comments_of d) -> comment_timestamp c <> timestamp) ->
    delete_comment roll_no timestamp db
      = (Returns {| success := false; message := "Comment not found" |}, db)
    /\ (forall r d d',
        find_one (by_roll_no r) db = Some d ->
        find_one (by_roll_no r) (snd (delete_comment roll_no timestamp db))
          = Some d' ->
        List.length (comments_of d') = List.length (comments_of d)).
Proof.
  intros roll ts db H.
  assert (E : delete_comment roll ts db
              = (Returns {| success := false; message := "Comment not found" |},
                 db)).
  { unfold delete_comment.
    destruct (find_one (by_roll_no roll) db) as [d|] eqn:Hf.
    - unfold find_one in Hf.
      rewrite (update_one_fixed _ _ db d Hf); [reflexivity|].
      apply pull_comments_no_match. intros c Hc. now apply (H d c).
    - unfold find_one in Hf. unfold update_one. now rewrite Hf. }
  split; [exact E|].
  intros r d d' Hd Hd'. rewrite E in Hd'. cbn [snd] in Hd'.
  rewrite Hd in Hd'. now injection Hd' as <-.
Qed.

Lemma delete_comment_not_found_witness :
  delete_comment "CS101" "2030-12-31T00:00:00" jane_db
  = (Returns {| success := false; message := "Comment not found" |}, jane_db).
Proof.
  refine (proj1 (delete_comment_not_found "CS101" "2030-12-31T00:00:00"
                   jane_db _)).
  intros d c Hd Hc. vm_compute in Hd. injection Hd as <-.
  cbn in Hc. destruct Hc as [<-|[]]. cbn. discriminate.
Defined.

(** ** Partial updates *)

Lemma update_first_length {A} (p : A -> bool) (f : A -> A) (l : list A) :
  List.length (update_first p f l) = List.length l.
Proof.
  induction l as [|x l IH]; simpl; [reflexivity|].
  destruct (p x); simpl; [reflexivity | now rewrite IH].
Qed.

Lemma update_first_nth {A} (p : A -> bool) (f : A -> A) (l : list A) i d :
  nth_error l i = Some d ->
  exists d', nth_error (update_first p f l) i = Some d' /\ (d' = d \/ d' = f d).
Proof.
  revert i; induction l as [|x l IH]; intros [|i] H; simpl in *;
    try discriminate.
  - injection H as ->. destruct (p d); simpl; eauto.
  - destruct (p x); simpl; eauto.
Qed.

Lemma fields_kept_refl u d : fields_kept u d d.
Proof. unfold fields_kept. repeat split; reflexivity. Qed.

Lemma fields_kept_apply_set u d : fields_kept u d (apply_set u d).
Proof.
  unfold fields_kept, apply_set; cbn.
  repeat split; intros ->; reflexivity.
Qed.

Lemma update_one_set_frame u query db :
  let db' := snd (update_one query (apply_set u) db) in
  colleges_collection db' = colleges_collection db
  /\ List.length (students_collection db') = List.length (students_collection db)
  /\ (forall i d,
      nth_error (students_collection db) i = Some d ->
      exists d',
        nth_error (students_collection db') i = Some d' /\ fields_kept u d d').
Proof.
  unfold update_one.
  destruct (find query (students_collection db)) as [d0|];
    [destruct (student_index_violation _ _ _)|]; cbn [snd];
    try solve [repeat split; eauto using fields_kept_refl].
  cbn. split; [reflexivity|]. split; [apply update_first_length|].
  intros i d H.
  destruct (update_first_nth query (apply_set u) _ i d H) as (d' & Hn & [E|E]);
    exists d'; subst d'; eauto using fields_kept_refl, fields_kept_apply_set.
Qed.

(** C9: [update_student] with no field set writes nothing and returns the
    current record of the student; with any payload, every document of the
    collection stays in place and keeps the value of each field that the
    payload does not set (and of the fields no payload can set), and the
    colleges are untouched. *)
Theorem update_student_partial :
  forall roll_no student db,
    let r := update_student roll_no student db in
    (update_data_nonempty student = false ->
     r = (Returns (get_student_by_roll_no roll_no db), db))
    /\ colleges_collection (snd r) = colleges_collection db
    /\ List.length (students_collection (snd r))
       = List.length (students_collection db)
    /\ (forall i d,
        nth_error (students_collection db) i = Some d ->
        exists d',
          nth_error (students_collection (snd r)) i = Some d'
          /\ fields_kept student d d').
Proof.
  intros roll u db r. subst r. unfold update_student.
  destruct (update_data_nonempty u) eqn:E; cbn [negb].
  - split; [discriminate|].
    pose proof (update_one_set_frame u (by_roll_no roll) db) as F.
    cbv zeta in F.
    destruct (update_one (by_roll_no roll) (apply_set u) db) as [[res|e] db'];
      [destruct (matched_count res =? 0)%nat|]; exact F.
  - split; [reflexivity|]. cbn [snd].
    repeat split; eauto using fields_kept_refl.
Qed.

Lemma update_student_partial_witness :
  update_student "CS101" empty_update jane_db = (Returns (Some jane), jane_db).
Proof.
  exact (proj1 (update_student_partial "CS101" empty_update jane_db) eq_refl).
Defined.

Example update_student_branch_only :
  update_student "CS101" branch_update jane_db
  = (Returns (Some (apply_set branch_update jane)),
     with_students [apply_set branch_update jane] jane_db)
  /\ st_branch (apply_set branch_update jane) = Some "Physics"
  /\ st_name (apply_set branch_update jane) = st_name jane.
Proof. vm_compute. repeat split. Qed.

(** ** Verifying a skill twice *)

Lemma find_update_first {A} (p : A -> bool) (f : A -> A) (l : list A) d :
  find p l = Some d -> p (f d) = true ->
  find p (update_first p f l) = Some (f d).
Proof.
  induction l as [|x l IH]; simpl; intros Hf Hp; [discriminate|].
  destruct (p x) eqn:E.
  - injection Hf as ->. simpl. now rewrite Hp.
  - simpl. rewrite E. now apply IH.
Qed.

Lemma update_first_twice {A} (p : A -> bool) (f : A -> A) (l : list A) :
  (forall x, p (f x) = p x) -> (forall x, f (f x) = f x) ->
  update_first p f (update_first p f l) = update_first p f l.
Proof.
  intros Hp Hf. induction l as [|x l IH]; simpl; [reflexivity|].
  destruct (p x) eqn:E; simpl.
  - now rewrite Hp, E, Hf.
  - now rewrite E, IH.
Qed.

Lemma existsb_update_first {A} (p : A -> bool) (f : A -> A) (l : list A) :
  (forall x, p (f x) = p x) ->
  existsb p (update_first p f l) = existsb p l.
Proof.
  intros Hp. induction l as [|x l IH]; simpl; [reflexivity|].
  destruct (p x) eqn:E; simpl.
  - now rewrite Hp, E.
  - now rewrite E, IH.
Qed.

Lemma find_weaken {A} (p q : A -> bool) (l : list A) d :
  find q l = Some d -> (forall x, q x = true -> p x = true) ->
  exists d', find p l = Some d'.
Proof.
  induction l as [|x l IH]; simpl; intros Hf Hq; [discriminate|].
  destruct (p x) eqn:E; [eauto|].
  destruct (q x) eqn:E'; [|now apply IH].
  rewrite (Hq x E') in E. discriminate.
Qed.

Lemma set_first_skill_verified_twice skill_name d :
  set_first_skill_verified skill_name (set_first_skill_verified skill_name d)
  = set_first_skill_verified skill_name d.
Proof.
  unfold set_first_skill_verified, set_st_skills; cbn.
  now rewrite update_first_twice.
Qed.

Lemma set_first_skill_verified_query roll_no skill_name d :
  by_roll_no_and_skill roll_no skill_name (set_first_skill_verified skill_name d)
  = by_roll_no_and_skill roll_no skill_name d.
Proof.
  unfold by_roll_no_and_skill, by_roll_no, set_first_skill_verified; cbn.
  now rewrite existsb_update_first.
Qed.

(** After a call of [verify_student_skill] that succeeded, the same call
    answers "not found", although the skill is there and verified. *)
Lemma verify_student_skill_second_call roll_no skill_name db r1 db1 :
  verify_student_skill roll_no skill_name db = (Returns r1, db1) ->
  success r1 = true ->
  verify_student_skill roll_no skill_name db1
  = (Returns {| success := false;
                message := "Skill '" ++ skill_name ++ "' not found" |}, db1).
Proof.
  unfold verify_student_skill at 1.
  destruct (find_one (by_roll_no roll_no) db) as [s|];
    [|intros H; injection H as <- _; discriminate].
  unfold update_one.
  destruct (find (by_roll_no_and_skill roll_no skill_name)
              (students_collection db)) as [d|] eqn:Hf;
    [|intros H; injection H as <- _; discriminate].
  rewrite no_violation_when_keys_kept by reflexivity.
  destruct (Student_eq_dec _ d) as [|ne]; cbn [modified_count Nat.ltb Nat.leb];
    [intros H; injection H as <- _; discriminate|].
  intros H _. injection H as _ <-.
  assert (Hq : by_roll_no_and_skill roll_no skill_name
                 (set_first_skill_verified skill_name d) = true).
  { rewrite set_first_skill_verified_query.
    apply find_some in Hf. tauto. }
  pose proof (find_update_first _ (set_first_skill_verified skill_name) _ d Hf Hq)
    as Hf'.
  unfold verify_student_skill.
  destruct (find_weaken (by_roll_no roll_no) _ _ _ Hf') as (s' & Hs').
  { intros x Hx. unfold by_roll_no_and_skill in Hx.
    now apply andb_true_iff in Hx. }
  unfold find_one. cbn [students_collection with_students]. rewrite Hs'.
  rewrite (update_one_fixed (by_roll_no_and_skill roll_no skill_name)
             (set_first_skill_verified skill_name)
             (with_students
                (update_first (by_roll_no_and_skill roll_no skill_name)
                   (set_first_skill_verified skill_name)
                   (students_collection db)) db)
             (set_first_skill_verified skill_name d) Hf'
             (set_first_skill_verified_twice _ _)).
  reflexivity.
Qed.

(** C1 on a student with the unverified skill "Python": the first call
    verifies the skill, the second call answers "Skill 'Python' not found"
    and the endpoint answers 404, although the skill is there and verified. *)
Theorem verify_skill_twice_reports_not_found :
  exists db1,
    verify_student_skill "CS101" "Python" jane_db
      = (Returns {| success := true;
                    message := "Skill 'Python' verified successfully" |}, db1)
    /\ option_map st_skills (get_student_by_roll_no "CS101" db1)
       = Some [set_item_verified true python_skill]
    /\ verify_student_skill "CS101" "Python" db1
      = (Returns {| success := false;
                    message := "Skill 'Python' not found" |}, db1)
    /\ verify_skill "CS101" "Python" db1
      = (Returns (HTTPException 404 "Skill 'Python' not found"), db1).
Proof.
  eexists. split; [vm_compute; reflexivity|].
  split; [vm_compute; reflexivity|].
  split; vm_compute; reflexivity.
Qed.

(** ** Duplicate keys *)

(** C7 on two colleges that share only the contact email
    "username@alpha.edu": the store reports the index contact_email, and
    [create_college] raises "College name 'Beta Institute' already exists",
    because the text of the store's error contains "name" inside the
    duplicate value; no college of that name is stored. *)
Theorem duplicate_email_reported_as_name :
  forall hash_password,
  exists alpha db1,
    create_college hash_password alpha_college empty_db = (Returns alpha, db1)
    /\ insert_college (college_doc_of hash_password beta_college) db1
       = (Raises (DuplicateKeyError
            (dup_key_message "erp.colleges" "contact_email"
               (Some "username@alpha.edu"))), db1)
    /\ create_college hash_password beta_college db1
       = (Raises (ValueError "College name 'Beta Institute' already exists"),
          db1)
    /\ existsb (fun c => String.eqb (co_name c) "Beta Institute")
         (colleges_collection db1) = false.
Proof.
  intros h. eexists. eexists.
  split; [reflexivity|].
  split; [reflexivity|].
  split; reflexivity.
Qed.

(** The same slip in [create_student]: a second registration that shares only
    the roll number "phone-07" is answered with the phone number message. *)
Example duplicate_roll_no_reported_as_phone :
  forall hash_password,
  exists john db1,
    create_student hash_password first_student empty_db = (Returns john, db1)
    /\ create_student hash_password second_student db1
       = (Raises (ValueError "Phone number '0987654321' already exists"), db1).
Proof.
  intros h. eexists. eexists. split; reflexivity.
Qed.

(** When the duplicate value holds no field name, the field is named. *)
Example duplicate_college_id_reported :
  forall hash_password,
    fst (create_college hash_password
           {| cc_name := "Gamma School"; cc_address := "3 Low St";
              cc_contact_email := "office@gamma.edu";
              cc_contact_phone := "5550001111"; cc_college_id := "COLL001";
              cc_admin_password := "secret3" |}
           (snd (create_college hash_password alpha_college empty_db)))
    = Raises (ValueError "College ID 'COLL001' already exists").
Proof. intros h. reflexivity. Qed.

(* ================================================================== *)
(** * Further properties of the record access layer *)

(** ** Updates that keep the indexed keys *)

Lemma update_one_keeps_keys query update db :
  keeps_keys update ->
  update_one query update db
  = match find query (students_collection db) with
    | None => (Returns {| matched_count := 0; modified_count := 0 |}, db)
    | Some d =>
        (Returns {| matched_count := 1;
                    modified_count :=
                      if Student_eq_dec (update d) d then 0 else 1 |},
         with_students (update_first query update (students_collection db)) db)
    end.
Proof.
  intros K. unfold update_one.
  destruct (find query (students_collection db)) as [d|]; [|reflexivity].
  destruct (K d) as (He & Hp & Hr).
  now rewrite (no_violation_when_keys_kept d (update d) _ He Hp Hr).
Qed.

Lemma find_update_first_other {A} (p q : A -> bool) (f : A -> A) (l : list A) :
  (forall x, p x = true -> q x = false /\ q (f x) = false) ->
  find q (update_first p f l) = find q l.
Proof.
  intros H. induction l as [|x l IH]; simpl; [reflexivity|].
  destruct (p x) eqn:E; simpl.
  - destruct (H x E) as [-> ->]. reflexivity.
  - now rewrite IH.
Qed.

Lemma opt_eqb_eq (a b : option string) : opt_eqb a b = true <-> a = b.
Proof.
  destruct a as [x|], b as [y|]; simpl; split; intros H;
    try discriminate; try reflexivity.
  - apply String.eqb_eq in H. now subst.
  - injection H as ->. apply String.eqb_refl.
Qed.

Lemma by_roll_no_other roll_no r d :
  r <> roll_no -> by_roll_no roll_no d = true -> by_roll_no r d = false.
Proof.
  unfold by_roll_no. intros Hne H. apply opt_eqb_eq in H.
  destruct (opt_eqb (st_roll_no d) (Some r)) eqn:E; [|reflexivity].
  apply opt_eqb_eq in E. rewrite H in E. injection E as E. now subst.
Qed.

Lemma push_skill_keeps_keys skill_obj : keeps_keys (push_skill skill_obj).
Proof. intros d; repeat split. Qed.

Lemma push_comment_keeps_keys c : keeps_keys (push_comment c).
Proof. intros d; repeat split. Qed.

Lemma pull_comments_keeps_keys ts : keeps_keys (pull_comments ts).
Proof.
  intros d. unfold pull_comments. destruct (st_comments d); repeat split.
Qed.

Lemma set_first_skill_verified_keeps_keys n :
  keeps_keys (set_first_skill_verified n).
Proof. intros d; repeat split. Qed.

Lemma set_college_id_pic_keeps_keys v : keeps_keys (set_st_college_id_pic v).
Proof. intros d; repeat split. Qed.

(** ** Adding a skill *)

(** [add_skills] on a missing student returns [None] and writes nothing; on
    a student it appends one unverified item with the given name, certificate
    and description to the end of the skills, keeps every other field of the
    student, returns the updated record, and leaves the lookups of all other
    roll numbers as they were. *)
Theorem add_skills_appends :
  forall roll_no skill_name certificate description db,
    let obj := {| item_name := skill_name; item_verified := false;
                  item_certificate := certificate;
                  item_description := description |} in
    match get_student_by_roll_no roll_no db with
    | None =>
        add_skills roll_no skill_name db certificate description
        = (Returns None, db)
    | Some d =>
        exists db',
          add_skills roll_no skill_name db certificate description
          = (Returns (Some (push_skill obj d)), db')
          /\ get_student_by_roll_no roll_no db' = Some (push_skill obj d)
          /\ st_skills (push_skill obj d) = (st_skills d ++ [obj])%list
          /\ set_st_skills (st_skills d) (push_skill obj d) = d
          /\ colleges_collection db' = colleges_collection db
          /\ (forall r, r <> roll_no ->
              get_student_by_roll_no r db' = get_student_by_roll_no r db)
    end.
Proof.
  intros roll name cert descr db obj.
  unfold get_student_by_roll_no, add_skills.
  destruct (find_one (by_roll_no roll) db) as [d|] eqn:Hf; [|reflexivity].
  fold obj. rewrite (update_one_keeps_keys _ _ db (push_skill_keeps_keys obj)).
  unfold find_one in Hf. rewrite Hf.
  assert (Hq : by_roll_no roll (push_skill obj d) = true).
  { apply find_some in Hf. tauto. }
  eexists. split; [|split; [|split; [|split; [|split]]]].
  - unfold get_student_by_roll_no, find_one. cbn [students_collection with_students].
    now rewrite (find_update_first _ _ _ d Hf Hq).
  - unfold find_one. cbn [students_collection with_students].
    now rewrite (find_update_first _ _ _ d Hf Hq).
  - reflexivity.
  - now destruct d.
  - reflexivity.
  - intros r Hr. unfold find_one. cbn [students_collection with_students].
    apply find_update_first_other. intros x Hx. split.
    + now apply (by_roll_no_other roll).
    + now apply (by_roll_no_other roll).
Qed.

(** ** What verifying a skill does *)

Lemma set_item_verified_fixed s :
  set_item_verified true s = s <-> item_verified s = true.
Proof.
  destruct s as [n v c d]; unfold set_item_verified; cbn. split.
  - intros H. now injection H.
  - now intros ->.
Qed.

Lemma update_first_verified_fixed (p : Item -> bool) (l : list Item) :
  update_first p (set_item_verified true) l = l
  <-> match find p l with
      | Some s => item_verified s = true
      | None => True
      end.
Proof.
  induction l as [|x l IH]; simpl; [tauto|].
  destruct (p x).
  - rewrite <- set_item_verified_fixed. split.
    + intros H. now injection H.
    + now intros ->.
  - rewrite <- IH. split.
    + intros H. now injection H.
    + now intros ->.
Qed.

Lemma set_first_skill_verified_fixed n d :
  set_first_skill_verified n d = d
  <-> match first_skill n d with
      | Some s => item_verified s = true
      | None => True
      end.
Proof.
  unfold first_skill. rewrite <- update_first_verified_fixed.
  unfold set_first_skill_verified.
  destruct d as [i cn nm e p r pw b y a pic sk ac pr cs]; cbn. split.
  - intros H. now injection H.
  - now intros ->.
Qed.

Lemma Forall2_update_first {A} (R : A -> A -> Prop) p f (l : list A) :
  (forall x, R x x) -> (forall x, R x (f x)) ->
  Forall2 R l (update_first p f l).
Proof.
  intros Hr Hf. induction l as [|x l IH]; simpl; [constructor|].
  destruct (p x); constructor; auto.
  clear IH. induction l; constructor; auto.
Qed.

Lemma item_promoted_refl s : item_promoted s s.
Proof. unfold item_promoted; tauto. Qed.

Lemma item_promoted_set s : item_promoted s (set_item_verified true s).
Proof. unfold item_promoted; cbn; tauto. Qed.

Lemma skills_promoted_refl d : skills_promoted d d.
Proof.
  split; [now destruct d|].
  induction (st_skills d); constructor; auto using item_promoted_refl.
Qed.

Lemma skills_promoted_set n d :
  skills_promoted d (set_first_skill_verified n d).
Proof.
  split; [now destruct d|].
  apply Forall2_update_first; auto using item_promoted_refl, item_promoted_set.
Qed.

Lemma count_verified_update_first (p : Item -> bool) (l : list Item) :
  (count item_verified (update_first p (set_item_verified true) l)
   <= S (count item_verified l))%nat.
Proof.
  unfold count. induction l as [|x l IH]; simpl; [lia|].
  destruct (p x); simpl.
  - destruct (item_verified x); simpl; lia.
  - destruct (item_verified x); simpl; lia.
Qed.

(** [verify_student_skill] answers success exactly when the first student
    with that roll number and a skill of that name has the first skill of
    that name still unverified; it never raises, and when it does not answer
    success it leaves the database as it was. *)
Theorem verify_student_skill_success_iff :
  forall roll_no skill_name db,
  exists reply db',
    verify_student_skill roll_no skill_name db = (Returns reply, db')
    /\ (success reply = true
        <-> exists d s,
              find (by_roll_no_and_skill roll_no skill_name)
                   (students_collection db) = Some d
              /\ first_skill skill_name d = Some s
              /\ item_verified s = false)
    /\ (success reply = false -> db' = db).
Proof.
  intros roll n db. unfold verify_student_skill.
  destruct (find_one (by_roll_no roll) db) as [s0|] eqn:H0.
  - rewrite (update_one_keeps_keys _ _ db (set_first_skill_verified_keeps_keys n)).
    destruct (find (by_roll_no_and_skill roll n) (students_collection db))
      as [d|] eqn:Hf.
    + destruct (Student_eq_dec (set_first_skill_verified n d) d) as [E|NE];
        cbn [modified_count Nat.ltb Nat.leb].
      * eexists _, _. split; [reflexivity|]. cbn [success]. split.
        -- split; [discriminate|]. intros (d' & s & Hd & Hs & Hv).
           injection Hd as <-.
           apply set_first_skill_verified_fixed in E. rewrite Hs in E.
           congruence.
        -- intros _. rewrite (update_first_fixed _ _ _ d Hf E).
           apply with_students_same.
      * eexists _, _. split; [reflexivity|]. cbn [success]. split.
        -- split; [|reflexivity]. intros _.
           destruct (first_skill n d) as [s|] eqn:Hs.
           ++ exists d, s. split; [reflexivity|]. split; [exact Hs|].
              destruct (item_verified s) eqn:Hv; [|reflexivity].
              exfalso. apply NE. apply set_first_skill_verified_fixed.
              now rewrite Hs.
           ++ exfalso. apply NE. apply set_first_skill_verified_fixed.
              now rewrite Hs.
        -- discriminate.
    + eexists _, _. split; [reflexivity|]. cbn [success]. split.
      * split; [discriminate|]. intros (d' & s & Hd & _). discriminate.
      * reflexivity.
  - eexists _, _. split; [reflexivity|]. cbn [success]. split.
    + split; [discriminate|]. intros (d & s & Hd & _).
      destruct (find_weaken (by_roll_no roll) _ _ _ Hd) as (d' & Hd').
      { intros x Hx. unfold by_roll_no_and_skill in Hx.
        now apply andb_true_iff in Hx. }
      unfold find_one in H0. congruence.
    + reflexivity.
Qed.

(** Whatever [verify_student_skill] answers, every student document stays in
    place and differs from before at most in its skills: these keep their
    names, certificates and descriptions, a verified skill stays verified,
    and at most one more skill is verified than before. *)
Theorem verify_student_skill_promotes :
  forall roll_no skill_name db,
    let db' := snd (verify_student_skill roll_no skill_name db) in
    colleges_collection db' = colleges_collection db
    /\ Forall2 (fun d d' =>
                  skills_promoted d d'
                  /\ (count item_verified (st_skills d')
                      <= S (count item_verified (st_skills d)))%nat)
         (students_collection db) (students_collection db').
Proof.
  intros roll n db db'. subst db'. unfold verify_student_skill.
  assert (Same : Forall2 (fun d d' =>
                  skills_promoted d d'
                  /\ (count item_verified (st_skills d')
                      <= S (count item_verified (st_skills d)))%nat)
         (students_collection db) (students_collection db)).
  { induction (students_collection db); constructor; auto.
    split; [apply skills_promoted_refl | lia]. }
  destruct (find_one (by_roll_no roll) db); [|now split].
  rewrite (update_one_keeps_keys _ _ db (set_first_skill_verified_keeps_keys n)).
  destruct (find _ (students_collection db)); [|now split].
  destruct (Student_eq_dec _ _); cbn [modified_count Nat.ltb Nat.leb snd];
    (split; [reflexivity|]); cbn [students_collection with_students];
    (apply Forall2_update_first;
       [intros x; split; [apply skills_promoted_refl | lia]
       |intros x; split;
          [apply skills_promoted_set | apply count_verified_update_first]]).
Qed.

(** ** Comments *)

Lemma filter_length_lt {A} (p : A -> bool) (l : list A) c :
  In c l -> p c = false -> (List.length (filter p l) < List.length l)%nat.
Proof.
  induction l as [|x l IH]; simpl; intros Hin Hp; [contradiction|].
  pose proof (filter_length_le p l) as Hle.
  destruct Hin as [->|Hin].
  - rewrite Hp. lia.
  - specialize (IH Hin Hp). destruct (p x); simpl; lia.
Qed.

Lemma comments_of_pull ts d :
  comments_of (pull_comments ts d)
  = filter (fun c => negb (String.eqb (comment_timestamp c) ts)) (comments_of d).
Proof.
  unfold pull_comments, comments_of.
  destruct (st_comments d) eqn:E; cbn; [reflexivity | now rewrite E].
Qed.

Lemma delete_comment_removes_aux roll_no timestamp db d :
  get_student_by_roll_no roll_no db = Some d ->
  (exists c, In c (comments_of d) /\ comment_timestamp c = timestamp) ->
  exists db',
    delete_comment roll_no timestamp db
    = (Returns {| success := true; message := "Comment deleted successfully" |},
       db')
    /\ get_comments roll_no db'
       = CommentsSuccess
           (filter (fun c => negb (String.eqb (comment_timestamp c) timestamp))
                   (comments_of d))
    /\ (List.length
          (filter (fun c => negb (String.eqb (comment_timestamp c) timestamp))
                  (comments_of d))
        < List.length (comments_of d))%nat
    /\ (forall r, r <> roll_no ->
        get_student_by_roll_no r db' = get_student_by_roll_no r db).
Proof.
  intros Hf (c & Hc & Hts).
  unfold get_student_by_roll_no, find_one in Hf.
  assert (Hlt : (List.length
          (filter (fun c => negb (String.eqb (comment_timestamp c) timestamp))
                  (comments_of d))
        < List.length (comments_of d))%nat).
  { apply (filter_length_lt _ _ c Hc). subst timestamp.
    now rewrite String.eqb_refl. }
  assert (Hq : by_roll_no roll_no (pull_comments timestamp d) = true).
  { destruct (pull_comments_keeps_keys timestamp d) as (_ & _ & Hr).
    unfold by_roll_no. rewrite Hr. apply find_some in Hf. tauto. }
  unfold delete_comment.
  rewrite (update_one_keeps_keys _ _ db (pull_comments_keeps_keys timestamp)), Hf.
  destruct (Student_eq_dec (pull_comments timestamp d) d) as [E|_].
  { exfalso. rewrite <- comments_of_pull, E in Hlt. lia. }
  cbn [modified_count Nat.ltb Nat.leb].
  eexists. split; [reflexivity|]. split; [|split; [exact Hlt|]].
  - unfold get_comments, find_one. cbn [students_collection with_students].
    rewrite (find_update_first _ _ _ d Hf Hq). now rewrite comments_of_pull.
  - intros r Hr. unfold get_student_by_roll_no, find_one.
    cbn [students_collection with_students].
    apply find_update_first_other. intros x Hx. split.
    + now apply (by_roll_no_other roll_no).
    + destruct (pull_comments_keeps_keys timestamp x) as (_ & _ & Hk).
      unfold by_roll_no. rewrite Hk. now apply (by_roll_no_other roll_no).
Qed.

(** When some comment of the student carries the timestamp, [delete_comment]
    answers success and removes every comment with that timestamp and no
    other: the comments list becomes strictly shorter and the lookups of
    other roll numbers stay as they were. *)
Theorem delete_comment_removes :
  forall roll_no timestamp db d,
    get_student_by_roll_no roll_no db = Some d ->
    (exists c, In c (comments_of d) /\ comment_timestamp c = timestamp) ->
    exists db',
      delete_comment roll_no timestamp db
      = (Returns {| success := true;
                    message := "Comment deleted successfully" |}, db')
      /\ get_comments roll_no db'
         = CommentsSuccess
             (filter (fun c => negb (String.eqb (comment_timestamp c) timestamp))
                     (comments_of d))
      /\ (List.length
            (filter (fun c => negb (String.eqb (comment_timestamp c) timestamp))
                    (comments_of d))
          < List.length (comments_of d))%nat
      /\ (forall r, r <> roll_no ->
          get_student_by_roll_no r db' = get_student_by_roll_no r db).
Proof.
  intros roll_no timestamp db d.
  intros Hf (c & Hc & Hts).
  unfold get_student_by_roll_no, find_one in Hf.
  assert (Hlt : (List.length
          (filter (fun c => negb (String.eqb (comment_timestamp c) timestamp))
                  (comments_of d))
        < List.length (comments_of d))%nat).
  { apply (filter_length_lt _ _ c Hc). subst timestamp.
    now rewrite String.eqb_refl. }
  assert (Hq : by_roll_no roll_no (pull_comments timestamp d) = true).
  { destruct (pull_comments_keeps_keys timestamp d) as (_ & _ & Hr).
    unfold by_roll_no. rewrite Hr. apply find_some in Hf. tauto. }
  unfold delete_comment.
  rewrite (update_one_keeps_keys _ _ db (pull_comments_keeps_keys timestamp)), Hf.
  destruct (Student_eq_dec (pull_comments timestamp d) d) as [E|_].
  { exfalso. rewrite <- comments_of_pull, E in Hlt. lia. }
  cbn [modified_count Nat.ltb Nat.leb].
  eexists. split; [reflexivity|]. split; [|split; [exact Hlt|]].
  - unfold get_comments, find_one. cbn [students_collection with_students].
    rewrite (find_update_first _ _ _ d Hf Hq). now rewrite comments_of_pull.
  - intros r Hr. unfold get_student_by_roll_no, find_one.
    cbn [students_collection with_students].
    apply find_update_first_other. intros x Hx. split.
    + now apply (by_roll_no_other roll_no).
    + destruct (pull_comments_keeps_keys timestamp x) as (_ & _ & Hk).
      unfold by_roll_no. rewrite Hk. now apply (by_roll_no_other roll_no).
Qed.

Lemma delete_comment_removes_witness :
  exists db',
    delete_comment "CS101" "2025-01-01T10:00:00" jane_db
    = (Returns {| success := true; message := "Comment deleted successfully" |},
       db')
    /\ get_comments "CS101" db' = CommentsSuccess [].
Proof.
  destruct (delete_comment_removes "CS101" "2025-01-01T10:00:00" jane_db jane
              eq_refl) as (db' & H1 & H2 & _).
  - eexists. split; [left; reflexivity | reflexivity].
  - exists db'. split; [exact H1 | exact H2].
Defined.

(** [add_comment] on a student appends the comment, stamped with the time of
    the call, to the end of the comments that [get_comments] returns; when no
    earlier comment carries that timestamp, deleting by it succeeds and
    [get_comments] returns the earlier comments again. *)
Theorem add_comment_then_delete :
  forall utcnow roll_no author author_type text db d,
    get_student_by_roll_no roll_no db = Some d ->
    let c := {| comment_author := author; comment_author_type := author_type;
                comment_text := text; comment_timestamp := utcnow |} in
    exists db1,
      add_comment utcnow roll_no author author_type text db
      = (Returns {| cr_success := true;
                    cr_message := "Comment added successfully";
                    cr_comment := Some c |}, db1)
      /\ get_comments roll_no db1 = CommentsSuccess (comments_of d ++ [c])%list
      /\ ((forall x, In x (comments_of d) -> comment_timestamp x <> utcnow) ->
          exists db2,
            delete_comment roll_no utcnow db1
            = (Returns {| success := true;
                          message := "Comment deleted successfully" |}, db2)
            /\ get_comments roll_no db2 = CommentsSuccess (comments_of d)).
Proof.
  intros now roll author atype text db d Hf c.
  unfold get_student_by_roll_no in Hf. unfold add_comment. rewrite Hf. fold c.
  rewrite (update_one_keeps_keys _ _ db (push_comment_keeps_keys c)).
  unfold find_one in Hf. rewrite Hf.
  assert (Hq : by_roll_no roll (push_comment c d) = true).
  { apply find_some in Hf. tauto. }
  assert (Hg : get_student_by_roll_no roll
                 (with_students
                    (update_first (by_roll_no roll) (push_comment c)
                       (students_collection db)) db)
               = Some (push_comment c d)).
  { unfold get_student_by_roll_no, find_one.
    cbn [students_collection with_students].
    exact (find_update_first _ _ _ d Hf Hq). }
  eexists. split; [reflexivity|]. split.
  - unfold get_comments. unfold get_student_by_roll_no in Hg. now rewrite Hg.
  - intros Hfresh.
    destruct (delete_comment_removes_aux roll now _ _ Hg) as (db2 & H1 & H2 & _).
    + exists c. split; [|reflexivity].
      cbn. apply in_or_app. right. now left.
    + exists db2. split; [exact H1|]. rewrite H2. f_equal.
      change (comments_of (push_comment c d)) with (comments_of d ++ [c])%list.
      rewrite filter_app. cbn. rewrite String.eqb_refl. cbn.
      rewrite app_nil_r. apply filter_keeps_all.
      intros x Hx. apply negb_true_iff, String.eqb_neq. now apply Hfresh.
Qed.

Lemma add_comment_then_delete_witness :
  exists db1,
    add_comment "2025-02-02T12:00:00" "CS101" "admin" "admin" "Well done" jane_db
    = (Returns {| cr_success := true;
                  cr_message := "Comment added successfully";
                  cr_comment :=
                    Some {| comment_author := "admin";
                            comment_author_type := "admin";
                            comment_text := "Well done";
                            comment_timestamp := "2025-02-02T12:00:00" |} |},
       db1)
    /\ exists db2,
         delete_comment "CS101" "2025-02-02T12:00:00" db1
         = (Returns {| success := true;
                       message := "Comment deleted successfully" |}, db2)
         /\ get_comments "CS101" db2 = CommentsSuccess (comments_of jane).
Proof.
  destruct (add_comment_then_delete "2025-02-02T12:00:00" "CS101" "admin"
              "admin" "Well done" jane_db jane eq_refl) as (db1 & H1 & _ & H3).
  exists db1. split; [exact H1|]. apply H3.
  intros x Hx. cbn in Hx. destruct Hx as [<-|[]]. cbn. discriminate.
Defined.

(** ** The unique indexes *)

Lemma existsb_opt_eqb_false (f : Student -> option string) v l :
  existsb (fun x => opt_eqb (f x) v) l = false -> ~ In v (map f l).
Proof.
  intros H Hin. apply in_map_iff in Hin as (x & Hx & Hin).
  assert (E : existsb (fun x => opt_eqb (f x) v) l = true).
  { apply existsb_exists. exists x. split; [exact Hin|]. now apply opt_eqb_eq. }
  congruence.
Qed.

Lemma key_taken_false (f : Student -> option string) d d' l :
  key_taken f (Some d) d' l = false ->
  f d' = f d \/ ~ In (f d') (map f l).
Proof.
  unfold key_taken. intros H. apply andb_false_iff in H as [H|H].
  - left. apply negb_false_iff, opt_eqb_eq in H. now symmetry.
  - right. now apply existsb_opt_eqb_false.
Qed.

Lemma in_map_update_first {A B} (f : A -> B) p u (l : list A) d y :
  find p l = Some d ->
  In y (map f (update_first p u l)) -> In y (map f l) \/ y = f (u d).
Proof.
  induction l as [|x l IH]; simpl; intros Hf Hin; [discriminate|].
  destruct (p x).
  - injection Hf as ->. simpl in Hin. destruct Hin as [<-|Hin]; auto.
  - simpl in Hin. destruct Hin as [<-|Hin]; auto.
    destruct (IH Hf Hin); auto.
Qed.

Lemma NoDup_map_update_first {A B} (f : A -> B) p u (l : list A) d :
  find p l = Some d ->
  NoDup (map f l) ->
  f (u d) = f d \/ ~ In (f (u d)) (map f l) ->
  NoDup (map f (update_first p u l)).
Proof.
  induction l as [|x l IH]; simpl; intros Hf Hnd Hk; [constructor|].
  inversion Hnd as [|y ys Hx Hl]; subst.
  destruct (p x).
  - injection Hf as ->. simpl. constructor; [|exact Hl].
    destruct Hk as [->|Hk]; [exact Hx|]. intros Hin. apply Hk. now right.
  - simpl. constructor.
    + intros Hin. destruct (in_map_update_first f p u l d _ Hf Hin) as [H|H].
      * contradiction.
      * destruct Hk as [Hk|Hk].
        -- rewrite Hk in H. apply Hx. rewrite H.
           apply in_map. apply find_some in Hf. tauto.
        -- apply Hk. left. exact H.
    + apply IH; auto. destruct Hk as [Hk|Hk]; [now left|].
      right. intros Hin. apply Hk. now right.
Qed.

Lemma violation_none_keys d d' l :
  student_index_violation (Some d) d' l = None ->
  key_taken st_email (Some d) d' l = false
  /\ key_taken st_phone (Some d) d' l = false
  /\ key_taken st_roll_no (Some d) d' l = false.
Proof.
  unfold student_index_violation.
  destruct (key_taken st_email _ _ _); [discriminate|].
  destruct (key_taken st_phone _ _ _); [discriminate|].
  destruct (key_taken st_roll_no _ _ _); [discriminate|].
  auto.
Qed.

Lemma update_one_unique query update db :
  unique_keys db -> unique_keys (snd (update_one query update db)).
Proof.
  intros U. unfold update_one.
  destruct (find query (students_collection db)) as [d|] eqn:Hf; [|exact U].
  destruct (student_index_violation _ _ _) eqn:Hv; [exact U|].
  destruct (violation_none_keys _ _ _ Hv) as (He & Hp & Hr).
  destruct U as (Ue & Up & Ur).
  cbn [snd]. unfold unique_keys. cbn [students_collection with_students].
  repeat split;
    (eapply NoDup_map_update_first; [exact Hf | assumption |]);
    now apply key_taken_false.
Qed.

Lemma NoDup_map_remove_first {A B} (f : A -> B) p (l : list A) :
  NoDup (map f l) -> NoDup (map f (remove_first p l)).
Proof.
  induction l as [|x l IH]; simpl; intros H; [constructor|].
  inversion H as [|y ys Hx Hl]; subst.
  destruct (p x); [exact Hl|]. simpl. constructor; [|auto].
  intros Hin. apply Hx. clear -Hin.
  induction l as [|z l IH]; simpl in *; [contradiction|].
  destruct (p z); [now right|]. simpl in Hin. destruct Hin; auto.
Qed.

Lemma delete_one_unique query db :
  unique_keys db -> unique_keys (snd (delete_one query db)).
Proof.
  intros U. unfold delete_one.
  destruct (find query (students_collection db)); [|exact U].
  destruct U as (Ue & Up & Ur). cbn [snd]. unfold unique_keys.
  cbn [students_collection with_students].
  repeat split; now apply NoDup_map_remove_first.
Qed.

Lemma NoDup_map_snoc {A B} (f : A -> B) (l : list A) x :
  NoDup (map f l) -> ~ In (f x) (map f l) -> NoDup (map f (l ++ [x])).
Proof.
  intros H Hx. rewrite map_app. simpl.
  apply NoDup_app; [exact H | repeat constructor; auto |].
  intros a Ha [<-|[]]. contradiction.
Qed.

Lemma insert_student_unique doc db :
  unique_keys db -> unique_keys (snd (insert_student doc db)).
Proof.
  intros U. unfold insert_student, student_index_violation, key_taken.
  cbn [andb].
  destruct (existsb _ _) eqn:He; [exact U|].
  destruct (existsb (fun x => opt_eqb (st_phone x) _) _) eqn:Hp; [exact U|].
  destruct (existsb (fun x => opt_eqb (st_roll_no x) _) _) eqn:Hr; [exact U|].
  destruct U as (Ue & Up & Ur). cbn [snd]. unfold unique_keys.
  cbn [students_collection with_students].
  repeat split; apply NoDup_map_snoc; auto;
    cbn; now apply existsb_opt_eqb_false.
Qed.

(** ** Creating students and colleges *)

Lemma email_message_names_email v :
  contains "email" (dup_key_message "erp.students" "email" v) = true.
Proof. reflexivity. Qed.

Lemma name_message_names_name v :
  contains "name" (dup_key_message "erp.colleges" "name" v) = true.
Proof. reflexivity. Qed.

Lemma find_snoc_none {A} (p : A -> bool) (l : list A) x :
  find p l = None -> find p (l ++ [x]) = (if p x then Some x else None).
Proof.
  induction l as [|y l IH]; simpl; intros H; [reflexivity|].
  destruct (p y); [discriminate | auto].
Qed.

Lemma find_snoc_other {A} (p : A -> bool) (l : list A) x :
  p x = false -> find p (l ++ [x]) = find p l.
Proof.
  intros Hx. induction l as [|y l IH]; simpl; [now rewrite Hx|].
  destruct (p y); auto.
Qed.

Lemma existsb_false_find_none {A} (p : A -> bool) (l : list A) :
  existsb p l = false -> find p l = None.
Proof.
  induction l as [|x l IH]; simpl; intros H; [reflexivity|].
  apply orb_false_iff in H as [-> H]. auto.
Qed.

Lemma create_student_then_lookup_aux :
  forall hash_password student db st db',
    create_student hash_password student db = (Returns st, db') ->
    get_student_by_roll_no (sc_roll_no student) db' = Some st
    /\ st_name st = Some (sc_name student)
    /\ st_email st = Some (sc_email student)
    /\ st_password st = hash_password (sc_password student)
    /\ st_skills st = [] /\ st_achievements st = [] /\ st_projects st = []
    /\ st_comments st = None /\ st_college_id_pic st = None
    /\ colleges_collection db' = colleges_collection db
    /\ (forall r, r <> sc_roll_no student ->
        get_student_by_roll_no r db' = get_student_by_roll_no r db).
Proof.
  intros h s db st db'. unfold create_student, insert_student.
  destruct (student_index_violation None _ _) as [m|] eqn:Hv.
  { repeat destruct (contains _ m); intros H; discriminate H. }
  unfold student_index_violation, key_taken in Hv.
  cbn [andb st_email st_phone st_roll_no] in Hv.
  destruct (existsb _ _) in Hv; [discriminate Hv|].
  destruct (existsb (fun x => opt_eqb (st_phone x) _) _) in Hv;
    [discriminate Hv|].
  destruct (existsb (fun x => opt_eqb (st_roll_no x) _) _) eqn:Hr in Hv;
    [discriminate Hv|].
  intros H. injection H as <- <-.
  apply existsb_false_find_none in Hr.
  unfold get_student_by_roll_no, find_one.
  cbn [students_collection with_students colleges_collection].
  repeat split.
  - change (by_roll_no (sc_roll_no s)) with
      (fun x => opt_eqb (st_roll_no x) (Some (sc_roll_no s))).
    rewrite (find_snoc_none _ _ _ Hr). cbn. now rewrite String.eqb_refl.
  - intros r Hne. apply find_snoc_other. unfold by_roll_no. cbn.
    apply String.eqb_neq. congruence.
Qed.

(** A [create_student] that returns has stored the record it returns: it is
    what the lookup by its roll number finds, it has no skills, achievements,
    projects, comments or ID picture, its password is the hash of the given
    one, and the lookups of other roll numbers and the colleges are as
    before. *)
Theorem create_student_then_lookup :
  forall hash_password student db st db',
    create_student hash_password student db = (Returns st, db') ->
    get_student_by_roll_no (sc_roll_no student) db' = Some st
    /\ st_name st = Some (sc_name student)
    /\ st_email st = Some (sc_email student)
    /\ st_password st = hash_password (sc_password student)
    /\ st_skills st = [] /\ st_achievements st = [] /\ st_projects st = []
    /\ st_comments st = None /\ st_college_id_pic st = None
    /\ colleges_collection db' = colleges_collection db
    /\ (forall r, r <> sc_roll_no student ->
        get_student_by_roll_no r db' = get_student_by_roll_no r db).
Proof.
  intros h s db st db'. unfold create_student, insert_student.
  destruct (student_index_violation None _ _) as [m|] eqn:Hv.
  { repeat destruct (contains _ m); intros H; discriminate H. }
  unfold student_index_violation, key_taken in Hv.
  cbn [andb st_email st_phone st_roll_no] in Hv.
  destruct (existsb _ _) in Hv; [discriminate Hv|].
  destruct (existsb (fun x => opt_eqb (st_phone x) _) _) in Hv;
    [discriminate Hv|].
  destruct (existsb (fun x => opt_eqb (st_roll_no x) _) _) eqn:Hr in Hv;
    [discriminate Hv|].
  intros H. injection H as <- <-.
  apply existsb_false_find_none in Hr.
  unfold get_student_by_roll_no, find_one.
  cbn [students_collection with_students colleges_collection].
  repeat split.
  - change (by_roll_no (sc_roll_no s)) with
      (fun x => opt_eqb (st_roll_no x) (Some (sc_roll_no s))).
    rewrite (find_snoc_none _ _ _ Hr). cbn. now rewrite String.eqb_refl.
  - intros r Hne. apply find_snoc_other. unfold by_roll_no. cbn.
    apply String.eqb_neq. congruence.
Qed.

Lemma create_student_then_lookup_witness :
  exists st db',
    create_student sample_hash first_student empty_db = (Returns st, db')
    /\ get_student_by_roll_no "phone-07" db' = Some st.
Proof.
  eexists. eexists. split; [reflexivity|].
  exact (proj1 (create_student_then_lookup sample_hash first_student empty_db
                  _ _ eq_refl)).
Defined.

Lemma create_student_failure_writes_nothing_aux hash_password student db e db' :
  create_student hash_password student db = (Raises e, db') ->
  db' = db /\ exists msg, e = ValueError msg.
Proof.
  unfold create_student, insert_student.
  destruct (student_index_violation _ _ _) as [m|].
  - repeat destruct (contains _ m); intros H; injection H as <- <-; eauto.
  - intros H. discriminate H.
Qed.

(** A [create_student] that raises has written nothing, and what it raises
    is a [ValueError]: no duplicate-key error of the store escapes. *)
Theorem create_student_failure_writes_nothing :
  forall hash_password student db e db',
    create_student hash_password student db = (Raises e, db') ->
    db' = db /\ exists msg, e = ValueError msg.
Proof.
  intros hash_password student db e db'.
  unfold create_student, insert_student.
  destruct (student_index_violation _ _ _) as [m|].
  - repeat destruct (contains _ m); intros H; injection H as <- <-; eauto.
  - intros H. discriminate H.
Qed.

(** When a stored student already has the email of the registration,
    [create_student] raises the error that names the email, whatever else
    collides, and writes nothing. *)
Theorem create_student_duplicate_email :
  forall hash_password student db,
    (exists x, In x (students_collection db)
               /\ st_email x = Some (sc_email student)) ->
    create_student hash_password student db
    = (Raises (ValueError ("Email '" ++ sc_email student ++ "' already exists")),
       db).
Proof.
  intros h s db (x & Hin & He). unfold create_student, insert_student.
  unfold student_index_violation, key_taken. cbn [andb st_email].
  assert (E : existsb (fun y => opt_eqb (st_email y) (Some (sc_email s)))
                (students_collection db) = true).
  { apply existsb_exists. exists x. split; [exact Hin|]. now apply opt_eqb_eq. }
  rewrite E. now rewrite email_message_names_email.
Qed.

Lemma create_student_failure_writes_nothing_witness :
  exists msg,
    fst (create_student sample_hash second_student
           (snd (create_student sample_hash first_student empty_db)))
    = Raises (ValueError msg).
Proof.
  destruct (create_student_failure_writes_nothing sample_hash second_student
              (snd (create_student sample_hash first_student empty_db))
              (ValueError "Phone number '0987654321' already exists")
              (snd (create_student sample_hash first_student empty_db))
              eq_refl) as (_ & msg & E).
  exists msg. now rewrite <- E.
Defined.

Lemma create_student_duplicate_email_witness :
  fst (create_student sample_hash first_student
         (snd (create_student sample_hash first_student empty_db)))
  = Raises (ValueError "Email 'john.doe@example.com' already exists").
Proof.
  rewrite (create_student_duplicate_email sample_hash first_student
             (snd (create_student sample_hash first_student empty_db))).
  - reflexivity.
  - eexists. split; [left; reflexivity | reflexivity].
Defined.

(** A [create_college] that returns has stored the college under its name;
    one that meets a college of the same name raises the error that names the
    college name, whatever else collides; one that raises writes nothing. *)
Theorem create_college_outcomes :
  forall hash_password college db,
    match create_college hash_password college db with
    | (Returns c, db') =>
        get_college_by_name (cc_name college) db' = Some c
        /\ co_name c = cc_name college
        /\ co_admin_password c = hash_password (cc_admin_password college)
        /\ students_collection db' = students_collection db
    | (Raises e, db') =>
        db' = db
        /\ (exists msg, e = ValueError msg)
        /\ ((exists x, In x (colleges_collection db)
                       /\ co_name x = cc_name college) ->
            e = ValueError ("College name '" ++ cc_name college
                            ++ "' already exists"))
    end.
Proof.
  intros h c db. unfold create_college, insert_college.
  destruct (college_index_violation _ _) as [m|] eqn:Hv.
  - assert (Hname : (exists x, In x (colleges_collection db)
                               /\ co_name x = cc_name c) ->
                    contains "name" m = true).
    { intros (x & Hin & Hx).
      assert (E : existsb (fun x => (co_name x =? cc_name c)%string)
                    (colleges_collection db) = true).
      { apply existsb_exists. exists x. split; [exact Hin|].
        now apply String.eqb_eq. }
      unfold college_index_violation in Hv. cbn [co_name] in Hv.
      rewrite E in Hv. injection Hv as <-. apply name_message_names_name. }
    destruct (contains "name" m) eqn:C1.
    + repeat split; eauto.
    + destruct (contains "college_id" m); [|destruct (contains "contact_email" m);
        [|destruct (contains "contact_phone" m)]];
        (split; [reflexivity|]); (split; [eauto|]);
        intros H; apply Hname in H; discriminate H.
  - unfold college_index_violation in Hv. cbn [co_name] in Hv.
    destruct (existsb (fun x => (co_name x =? cc_name c)%string) _) eqn:En;
      [discriminate Hv|].
    apply existsb_false_find_none in En.
    unfold get_college_by_name. cbn [colleges_collection students_collection].
    repeat split.
    rewrite (find_snoc_none _ _ _ En). cbn. now rewrite String.eqb_refl.
Qed.

Lemma create_college_outcomes_witness :
  fst (create_college sample_hash alpha_college
         (snd (create_college sample_hash alpha_college empty_db)))
  = Raises (ValueError "College name 'Alpha College' already exists").
Proof.
  pose proof (create_college_outcomes sample_hash alpha_college
                (snd (create_college sample_hash alpha_college empty_db))) as H.
  destruct (create_college sample_hash alpha_college
              (snd (create_college sample_hash alpha_college empty_db)))
    as [[c|e] db'] eqn:E.
  - vm_compute in E. discriminate E.
  - destruct H as (_ & _ & H). cbn [fst]. rewrite H; [reflexivity|].
    eexists. split; [left; reflexivity | reflexivity].
Defined.

(** ** Deleting a student *)

Lemma remove_first_length {A} (p : A -> bool) (l : list A) d :
  find p l = Some d -> S (List.length (remove_first p l)) = List.length l.
Proof.
  induction l as [|x l IH]; simpl; intros H; [discriminate|].
  destruct (p x); [reflexivity|]. simpl. now rewrite IH.
Qed.

Lemma find_remove_first_other {A} (p q : A -> bool) (l : list A) :
  (forall x, p x = true -> q x = false) ->
  find q (remove_first p l) = find q l.
Proof.
  intros H. induction l as [|x l IH]; simpl; [reflexivity|].
  destruct (p x) eqn:E; simpl.
  - now rewrite (H x E).
  - now rewrite IH.
Qed.

Lemma find_by_roll_no_tail roll_no x l :
  NoDup (map st_roll_no (x :: l)) -> by_roll_no roll_no x = true ->
  find (by_roll_no roll_no) l = None.
Proof.
  intros Hnd Hx. destruct (find (by_roll_no roll_no) l) as [y|] eqn:Hf;
    [|reflexivity].
  apply find_some in Hf as [Hin Hy].
  unfold by_roll_no in Hx, Hy. apply opt_eqb_eq in Hx, Hy.
  inversion Hnd as [|a b Hnotin _]; subst. exfalso. apply Hnotin.
  rewrite Hx, <- Hy. now apply in_map.
Qed.

Lemma find_remove_first_unique roll_no l :
  NoDup (map st_roll_no l) ->
  find (by_roll_no roll_no) (remove_first (by_roll_no roll_no) l) = None.
Proof.
  induction l as [|x l IH]; simpl; intros Hnd; [reflexivity|].
  destruct (by_roll_no roll_no x) eqn:E.
  - now apply (find_by_roll_no_tail roll_no x l).
  - simpl. rewrite E. apply IH. now inversion Hnd.
Qed.

(** [delete_student] returns false and writes nothing when no student has
    the roll number; otherwise it returns true and removes exactly one
    document: the collection is one shorter, lookups of other roll numbers
    are as before, and, when the roll numbers are unique, the lookup of the
    deleted roll number finds nothing. *)
Theorem delete_student_outcomes :
  forall roll_no db,
    match get_student_by_roll_no roll_no db with
    | None => delete_student roll_no db = (false, db)
    | Some _ =>
        exists db',
          delete_student roll_no db = (true, db')
          /\ S (List.length (students_collection db'))
             = List.length (students_collection db)
          /\ colleges_collection db' = colleges_collection db
          /\ (forall r, r <> roll_no ->
              get_student_by_roll_no r db' = get_student_by_roll_no r db)
          /\ (unique_keys db -> get_student_by_roll_no roll_no db' = None)
    end.
Proof.
  intros roll db. unfold get_student_by_roll_no, find_one, delete_student, delete_one.
  destruct (find (by_roll_no roll) (students_collection db)) as [d|] eqn:Hf;
    [|reflexivity].
  eexists. split; [reflexivity|].
  cbn [students_collection with_students colleges_collection].
  split; [exact (remove_first_length _ _ d Hf)|]. split; [reflexivity|]. split.
  - intros r Hr. apply find_remove_first_other.
    intros x Hx. now apply (by_roll_no_other roll).
  - intros (_ & _ & U). now apply find_remove_first_unique.
Qed.

(** ** Updating a student *)

Lemma find_update_first_moved {A} (p : A -> bool) (f : A -> A) (l : list A) :
  (forall x, p x = true -> p (f x) = false) ->
  find p (update_first p f l) = find p (remove_first p l).
Proof.
  intros H. induction l as [|x l IH]; simpl; [reflexivity|].
  destruct (p x) eqn:E; simpl.
  - now rewrite (H x E).
  - now rewrite E, IH.
Qed.

Lemma find_none_existsb {A} (p : A -> bool) (l : list A) :
  find p l = None -> existsb p l = false.
Proof.
  induction l as [|x l IH]; simpl; [reflexivity|].
  destruct (p x); [discriminate | auto].
Qed.

Lemma find_update_first_new {A} (p q : A -> bool) (f : A -> A) (l : list A) d :
  find p l = Some d -> q (f d) = true -> find q l = None ->
  find q (update_first p f l) = Some (f d).
Proof.
  induction l as [|x l IH]; cbn [find update_first]; intros Hf Hq Hn;
    [discriminate|].
  destruct (q x) eqn:Eq; [discriminate|].
  destruct (p x) eqn:Ep.
  - injection Hf as ->. cbn [find]. now rewrite Hq.
  - cbn [find]. rewrite Eq. now apply IH.
Qed.

(** An update that sets the roll number to a new, unused one (and sets
    neither email nor phone) is applied, but [update_student] looks the
    student up under the old roll number afterwards: with unique roll numbers
    it returns [None], and the endpoint answers 404 "Student not found",
    while the student is stored under the new roll number. *)
Theorem update_student_new_roll_no :
  forall roll_no new_roll_no student db d,
    unique_keys db ->
    get_student_by_roll_no roll_no db = Some d ->
    su_roll_no student = Some (Some new_roll_no) ->
    new_roll_no <> roll_no ->
    get_student_by_roll_no new_roll_no db = None ->
    su_email student = None ->
    su_phone student = None ->
    exists db',
      update_student roll_no student db = (Returns None, db')
      /\ Main.update_student roll_no student db
         = (Returns (HTTPException 404 "Student not found"), db')
      /\ get_student_by_roll_no new_roll_no db' = Some (apply_set student d)
      /\ st_roll_no (apply_set student d) = Some new_roll_no.
Proof.
  intros roll new u db d U Hf Hroll Hne Hnew Hemail Hphone.
  unfold get_student_by_roll_no, find_one in Hf, Hnew.
  assert (Hr : st_roll_no (apply_set u d) = Some new).
  { change (st_roll_no (apply_set u d))
      with (supplied (su_roll_no u) (st_roll_no d)).
    now rewrite Hroll. }
  assert (Hnonempty : update_data_nonempty u = true).
  { unfold update_data_nonempty. rewrite Hroll. cbn.
    now rewrite !orb_true_r. }
  assert (Hv : student_index_violation (Some d) (apply_set u d)
                 (students_collection db) = None).
  { unfold student_index_violation.
    rewrite (key_taken_unchanged st_email)
      by (change (st_email (apply_set u d))
            with (supplied (su_email u) (st_email d)); now rewrite Hemail).
    rewrite (key_taken_unchanged st_phone)
      by (change (st_phone (apply_set u d))
            with (supplied (su_phone u) (st_phone d)); now rewrite Hphone).
    unfold key_taken. rewrite Hr.
    change (fun x => opt_eqb (st_roll_no x) (Some new)) with (by_roll_no new).
    rewrite (find_none_existsb _ _ Hnew). now rewrite andb_false_r. }
  assert (Hup : update_one (by_roll_no roll) (apply_set u) db
                = (Returns {| matched_count := 1;
                              modified_count :=
                                if Student_eq_dec (apply_set u d) d then 0 else 1 |},
                   with_students
                     (update_first (by_roll_no roll) (apply_set u)
                        (students_collection db)) db)).
  { unfold update_one. now rewrite Hf, Hv. }
  assert (Hmoved : forall x, by_roll_no roll x = true ->
                             by_roll_no roll (apply_set u x) = false).
  { intros x _. unfold by_roll_no.
    change (st_roll_no (apply_set u x))
      with (supplied (su_roll_no u) (st_roll_no x)).
    rewrite Hroll. cbn. apply String.eqb_neq. exact Hne. }
  assert (Hold : get_student_by_roll_no roll
                   (with_students
                      (update_first (by_roll_no roll) (apply_set u)
                         (students_collection db)) db) = None).
  { unfold get_student_by_roll_no, find_one.
    cbn [students_collection with_students].
    rewrite (find_update_first_moved _ _ _ Hmoved).
    apply find_remove_first_unique. apply U. }
  assert (E : update_student roll u db
              = (Returns None,
                 with_students
                   (update_first (by_roll_no roll) (apply_set u)
                      (students_collection db)) db)).
  { unfold update_student. rewrite Hnonempty, Hup. cbn [negb matched_count Nat.eqb].
    now rewrite Hold. }
  eexists. split; [exact E|]. split; [|split; [|exact Hr]].
  - unfold Main.update_student. now rewrite E.
  - unfold get_student_by_roll_no, find_one.
    cbn [students_collection with_students].
    apply (find_update_first_new _ _ _ _ d Hf); [|exact Hnew].
    unfold by_roll_no. rewrite Hr. apply opt_eqb_refl.
Qed.

Lemma update_student_new_roll_no_witness :
  exists db',
    Main.update_student "CS101" roll_update jane_db
    = (Returns (HTTPException 404 "Student not found"), db')
    /\ get_student_by_roll_no "CS202" db' = Some (apply_set roll_update jane).
Proof.
  destruct (update_student_new_roll_no "CS101" "CS202" roll_update jane_db jane)
    as (db' & _ & H2 & H3 & _); try reflexivity.
  - repeat split; cbn; repeat constructor; cbn; tauto.
  - discriminate.
  - exists db'. split; [exact H2 | exact H3].
Defined.

(** An update of an existing student that sets some field but none of the
    three indexed keys is applied: [update_student] returns the stored
    record, which holds the supplied value in every supplied field, and the
    lookups of other roll numbers are as before. *)
Theorem update_student_applies :
  forall roll_no student db d,
    get_student_by_roll_no roll_no db = Some d ->
    update_data_nonempty student = true ->
    su_email student = None ->
    su_phone student = None ->
    su_roll_no student = None ->
    exists db',
      update_student roll_no student db = (Returns (Some (apply_set student d)), db')
      /\ get_student_by_roll_no roll_no db' = Some (apply_set student d)
      /\ (forall v, su_name student = Some v -> st_name (apply_set student d) = v)
      /\ (forall v, su_college_name student = Some v ->
                    st_college_name (apply_set student d) = v)
      /\ (forall v, su_branch student = Some v -> st_branch (apply_set student d) = v)
      /\ (forall v, su_year student = Some v -> st_year (apply_set student d) = v)
      /\ (forall v, su_age student = Some v -> st_age (apply_set student d) = v)
      /\ (forall v, su_college_id_pic student = Some v ->
                    st_college_id_pic (apply_set student d) = v)
      /\ (forall r, r <> roll_no ->
          get_student_by_roll_no r db' = get_student_by_roll_no r db).
Proof.
  intros roll u db d Hf Hne He Hp Hr.
  unfold get_student_by_roll_no, find_one in Hf.
  assert (K : keeps_keys (apply_set u)).
  { intros x. unfold apply_set; cbn. now rewrite He, Hp, Hr. }
  assert (Hq : by_roll_no roll (apply_set u d) = true).
  { unfold by_roll_no. destruct (K d) as (_ & _ & ->).
    apply find_some in Hf. tauto. }
  assert (Hg : find (by_roll_no roll)
                 (update_first (by_roll_no roll) (apply_set u)
                    (students_collection db)) = Some (apply_set u d)).
  { exact (find_update_first _ _ _ d Hf Hq). }
  unfold update_student. rewrite Hne. cbn [negb].
  rewrite (update_one_keeps_keys _ _ db K), Hf. cbn [matched_count Nat.eqb].
  unfold get_student_by_roll_no, find_one.
  cbn [students_collection with_students]. rewrite Hg.
  eexists. split; [reflexivity|]. split; [exact Hg|].
  repeat split; try (intros v E; unfold apply_set; cbn; now rewrite E).
  intros r Hne'. apply find_update_first_other. intros x Hx. split.
  - now apply (by_roll_no_other roll).
  - unfold by_roll_no. destruct (K x) as (_ & _ & ->).
    now apply (by_roll_no_other roll).
Qed.

Lemma update_student_applies_witness :
  exists db',
    update_student "CS101" branch_update jane_db
    = (Returns (Some (apply_set branch_update jane)), db')
    /\ st_branch (apply_set branch_update jane) = Some "Physics".
Proof.
  destruct (update_student_applies "CS101" branch_update jane_db jane
              eq_refl eq_refl eq_refl eq_refl eq_refl)
    as (db' & H1 & _ & _ & _ & H5 & _).
  exists db'. split; [exact H1 | exact (H5 _ eq_refl)].
Defined.

(** An update that sets the email to one that another student holds is
    refused by the unique index: [update_student] raises the store's
    duplicate-key error, which the endpoint does not catch, and nothing is
    written. *)
Theorem update_student_duplicate_email_raises :
  forall roll_no student db d email,
    get_student_by_roll_no roll_no db = Some d ->
    su_email student = Some email ->
    st_email d <> email ->
    (exists x, In x (students_collection db) /\ st_email x = email) ->
    update_student roll_no student db
    = (Raises (DuplicateKeyError (dup_key_message "erp.students" "email" email)), db)
    /\ Main.update_student roll_no student db
    = (Raises (DuplicateKeyError (dup_key_message "erp.students" "email" email)), db).
Proof.
  intros roll u db d email Hf He Hne (x & Hin & Hx).
  unfold get_student_by_roll_no, find_one in Hf.
  assert (Hnonempty : update_data_nonempty u = true).
  { unfold update_data_nonempty. rewrite He. cbn. now rewrite !orb_true_r. }
  assert (Hm : st_email (apply_set u d) = email).
  { unfold apply_set; cbn. now rewrite He. }
  assert (E : update_student roll u db
              = (Raises (DuplicateKeyError
                   (dup_key_message "erp.students" "email" email)), db)).
  { unfold update_student, update_one. rewrite Hnonempty, Hf. cbn [negb].
    unfold student_index_violation, key_taken. rewrite Hm.
    assert (N : opt_eqb (st_email d) email = false).
    { destruct (opt_eqb (st_email d) email) eqn:O; [|reflexivity].
      apply opt_eqb_eq in O. contradiction. }
    assert (X : existsb (fun y => opt_eqb (st_email y) email)
                  (students_collection db) = true).
    { apply existsb_exists. exists x. split; [exact Hin|]. now apply opt_eqb_eq. }
    now rewrite N, X. }
  split; [exact E|]. unfold Main.update_student. now rewrite E.
Qed.

Lemma update_student_duplicate_email_raises_witness :
  update_student "CS101" email_update two_students_db
  = (Raises (DuplicateKeyError
       (dup_key_message "erp.students" "email" (Some "john.roe@example.com"))),
     two_students_db).
Proof.
  refine (proj1 (update_student_duplicate_email_raises "CS101" email_update
                   two_students_db jane (Some "john.roe@example.com")
                   eq_refl eq_refl _ _)).
  - discriminate.
  - exists john. split; [right; left; reflexivity | reflexivity].
Defined.

(** ** Registering a student through the endpoint *)

(** [POST /students/] for a college name that no registered college has
    (names are compared exactly) answers 400 with the "not registered"
    message and writes nothing; whatever the request, the endpoint never
    lets an exception out, and every rejection is a 400 that leaves the
    database as it was. *)
Theorem create_student_requires_college :
  forall hash_password student db,
    (get_college_by_name (sc_college_name student) db = None ->
     Main.create_student hash_password student db
     = (Returns (HTTPException 400
          ("College '" ++ sc_college_name student ++
           "' is not registered. Register it first at POST /colleges/")), db))
    /\ (exists resp,
        fst (Main.create_student hash_password student db) = Returns resp
        /\ (forall code detail,
            resp = HTTPException code detail ->
            code = 400%nat
            /\ snd (Main.create_student hash_password student db) = db)).
Proof.
  intros h s db. unfold Main.create_student.
  destruct (get_college_by_name (sc_college_name s) db) as [c|].
  - split; [discriminate|].
    destruct (create_student h s db) as [[st|e] db'] eqn:E.
    + eexists. split; [reflexivity|]. discriminate.
    + destruct (create_student_failure_writes_nothing_aux h s db e db' E)
        as (-> & msg & ->).
      eexists. split; [reflexivity|].
      intros code detail H. injection H as <- _. auto.
  - split; [reflexivity|]. eexists. split; [reflexivity|].
    intros code detail H. injection H as <- _. auto.
Qed.

Lemma create_student_requires_college_witness :
  Main.create_student sample_hash orphan_student jane_db
  = (Returns (HTTPException 400
       "College 'Nowhere College' is not registered. Register it first at POST /colleges/"),
     jane_db).
Proof.
  exact (proj1 (create_student_requires_college sample_hash orphan_student
                  jane_db) eq_refl).
Defined.

(** ** The list of unverified students *)





(** ** Uploading the college ID *)

Lemma read_store_same path data fs :
  read_file path (store_file path data fs) = Some data.
Proof.
  unfold read_file, store_file. cbn. now rewrite String.eqb_refl.
Qed.

Lemma find_filter_weaker {A} (p q : A -> bool) (l : list A) :
  (forall x, q x = true -> p x = true) ->
  find q (filter p l) = find q l.
Proof.
  intros H. induction l as [|x l IH]; simpl; [reflexivity|].
  destruct (p x) eqn:Ep; simpl.
  - destruct (q x); [reflexivity | exact IH].
  - destruct (q x) eqn:Eq; [|exact IH].
    rewrite (H x Eq) in Ep. discriminate.
Qed.

Lemma read_store_other path data fs p :
  p <> path -> read_file p (store_file path data fs) = read_file p fs.
Proof.
  intros Hne. unfold read_file, store_file, remove_file. cbn [find fst].
  assert (E : (path =? p)%string = false) by (apply String.eqb_neq; congruence).
  rewrite E. rewrite find_filter_weaker; [reflexivity|].
  intros x Hx. apply String.eqb_eq in Hx. rewrite Hx.
  apply negb_true_iff, String.eqb_neq. exact Hne.
Qed.

(** What writing a file comes to: [open] raises and nothing changes; the
    write raises and the file holds what reached it; or the file holds the
    data. *)
Lemma write_file_cases open_error write_error path data fs :
  (exists e,
      open_error path = Some e
      /\ write_file open_error write_error path data fs = (Raises e, fs))
  \/ (exists e written,
      open_error path = None
      /\ write_error path data = Some (e, written)
      /\ write_file open_error write_error path data fs
         = (Raises e, store_file path written fs))
  \/ (open_error path = None
      /\ write_error path data = None
      /\ write_file open_error write_error path data fs
         = (Returns tt, store_file path data fs)).
Proof.
  unfold write_file.
  destruct (open_error path) as [e|]; [left; eauto|]. right.
  destruct (write_error path data) as [[e written]|].
  - left. exists e, written. auto.
  - right. auto.
Qed.

Lemma is_empty_append_r a b : is_empty b = false -> is_empty (a ++ b) = false.
Proof. destruct a; [auto | reflexivity]. Qed.

Lemma path_join_nonempty a b : is_empty b = false -> is_empty (path_join a b) = false.
Proof.
  intros H. unfold path_join. destruct (prefix "/" b); [exact H|].
  destruct (_ || _).
  - now apply is_empty_append_r.
  - apply is_empty_append_r. reflexivity.
Qed.

Lemma update_college_id_pic_found roll_no file_path db d :
  get_student_by_roll_no roll_no db = Some d ->
  exists db',
    update_college_id_pic roll_no file_path db = (Returns true, db')
    /\ get_student_by_roll_no roll_no db'
       = Some (set_st_college_id_pic (Some file_path) d)
    /\ colleges_collection db' = colleges_collection db
    /\ (forall r, r <> roll_no ->
        get_student_by_roll_no r db' = get_student_by_roll_no r db).
Proof.
  intros Hf. unfold get_student_by_roll_no, find_one in Hf.
  unfold update_college_id_pic.
  rewrite (update_one_keeps_keys _ _ db
             (set_college_id_pic_keeps_keys (Some file_path))), Hf.
  cbn [matched_count Nat.ltb Nat.leb].
  assert (Hq : by_roll_no roll_no (set_st_college_id_pic (Some file_path) d) = true).
  { apply find_some in Hf. tauto. }
  eexists. split; [reflexivity|].
  unfold get_student_by_roll_no, find_one.
  cbn [students_collection with_students colleges_collection].
  split; [exact (find_update_first _ _ _ d Hf Hq)|]. split; [reflexivity|].
  intros r Hr. apply find_update_first_other. intros x Hx. split.
  - now apply (by_roll_no_other roll_no).
  - now apply (by_roll_no_other roll_no).
Qed.

(** [upload_college_id] never answers 500, and every rejection is a 400 or
    a 404 that leaves the database and the files as they were.  The only
    exceptions it lets out are those that opening or writing the file
    raises, after the ID card check has accepted the upload; the student
    record is then not updated.  An accepted upload was accepted by the ID
    card check; its bytes are stored under the upload directory's path for
    the roll number, that path is recorded as the student's ID picture, the
    status endpoint then reports "Completed", and every other file and the
    lookups of other roll numbers are as before. *)
Theorem upload_college_id_outcomes {U : Unicode} :
  forall open_error write_error preprocess_image models roll_no file w log,
    let run := Main.upload_college_id open_error write_error preprocess_image
                 models roll_no file w log in
    let path := path_join UPLOAD_DIR (roll_no ++ "_college_id.png") in
    let w' := snd (fst run) in
    match fst (fst run) with
    | Returns (HTTPException code detail) =>
        w' = w /\ (code = 400 \/ code = 404)%nat
    | Raises e =>
        write_failed open_error write_error path (content file) e w w'
        /\ exists d name,
             get_student_by_roll_no roll_no (w_db w) = Some d
             /\ st_name d = Some name
             /\ result_accepted
                  (fst (verify_college_id_with_models preprocess_image models
                          (content file) name roll_no log)) = true
    | Returns (Ok reply) =>
        exists d name,
          get_student_by_roll_no roll_no (w_db w) = Some d
          /\ st_name d = Some name
          /\ fst (verify_college_id_with_models preprocess_image models
                    (content file) name roll_no log)
             = (true, up_verification reply, up_extracted_college_id reply)
          /\ open_error path = None
          /\ write_error path (content file) = None
          /\ up_file_path reply = path
          /\ read_file path (w_files w') = Some (content file)
          /\ (forall p, p <> path ->
              read_file p (w_files w') = read_file p (w_files w))
          /\ get_student_by_roll_no roll_no (w_db w')
             = Some (set_st_college_id_pic (Some path) d)
          /\ (forall r, r <> roll_no ->
              get_student_by_roll_no r (w_db w')
              = get_student_by_roll_no r (w_db w))
          /\ Main.check_college_id_status roll_no (w_db w')
             = Ok {| ids_roll_no := roll_no;
                     has_uploaded_college_id := true;
                     college_id_pic_path := Some path;
                     ids_status := "Completed" |}
    end.
Proof.
  intros operr wrerr pre models roll file w log run path w'. subst run w'.
  unfold Main.upload_college_id.
  destruct (negb (truthy (filename file))); [cbn; auto|].
  destruct (get_student_by_roll_no roll (w_db w)) as [d|] eqn:Hd; [|cbn; auto].
  destruct (st_name d) as [name|] eqn:Hn; [|cbn; auto].
  cbn [truthy]. destruct (negb (negb (is_empty name))); [cbn; auto|].
  destruct (negb (in_list _ _)); [cbn; auto|].
  unfold verify_college_id_with_ai.
  destruct (verify_college_id_with_models pre models (content file) name roll log)
    as [[[is_valid ai_message] extracted] log'] eqn:Hv.
  destruct is_valid; cbn [negb]; [|cbn; auto].
  fold path.
  destruct (write_file_cases operr wrerr path (content file) (w_files w))
    as [(e & Ho & ->)|[(e & written & Ho & Hw & ->)|(Ho & Hw & ->)]];
    cbn [fst snd].
  - split; [left; split; [exact Ho | now destruct w]|].
    exists d, name. repeat split; try assumption. now rewrite Hv.
  - split.
    + right. cbn [w_db w_files]. split; [exact Ho|]. split.
      * exists written. split; [exact Hw | apply read_store_same].
      * split; [reflexivity|]. intros p Hp. now apply read_store_other.
    + exists d, name. repeat split; try assumption. now rewrite Hv.
  - destruct (update_college_id_pic_found roll path (w_db w) d Hd)
      as (db' & Hup & Hget & _ & Hother).
    rewrite Hup. cbn [negb fst snd].
    cbn [up_verification up_extracted_college_id up_file_path w_files w_db].
    exists d, name.
    split; [reflexivity|]. split; [exact Hn|]. split; [now rewrite Hv|].
    split; [exact Ho|]. split; [exact Hw|].
    split; [reflexivity|]. split; [apply read_store_same|].
    split; [intros p Hp; now apply read_store_other|].
    split; [exact Hget|]. split; [exact Hother|].
    unfold Main.check_college_id_status. rewrite Hget.
    cbn [truthy st_college_id_pic set_st_college_id_pic].
    assert (P : is_empty path = false).
    { apply path_join_nonempty, is_empty_append_r. reflexivity. }
    now rewrite P.
Qed.

(** ** Adding a skill through the endpoint *)

Lemma add_skills_found roll_no skill_name certificate description db d :
  get_student_by_roll_no roll_no db = Some d ->
  exists db',
    add_skills roll_no skill_name db certificate description
    = (Returns (Some (push_skill
                        {| item_name := skill_name; item_verified := false;
                           item_certificate := certificate;
                           item_description := description |} d)), db')
    /\ get_student_by_roll_no roll_no db'
       = Some (push_skill
                 {| item_name := skill_name; item_verified := false;
                    item_certificate := certificate;
                    item_description := description |} d).
Proof.
  intros Hf. unfold get_student_by_roll_no in Hf. unfold add_skills. rewrite Hf.
  rewrite (update_one_keeps_keys _ _ db (push_skill_keeps_keys _)).
  unfold find_one in Hf. rewrite Hf.
  set (obj := {| item_name := skill_name; item_verified := false;
                 item_certificate := certificate;
                 item_description := description |}).
  assert (Hq : by_roll_no roll_no (push_skill obj d) = true).
  { apply find_some in Hf. tauto. }
  assert (Hg : get_student_by_roll_no roll_no
                 (with_students
                    (update_first (by_roll_no roll_no) (push_skill obj)
                       (students_collection db)) db)
               = Some (push_skill obj d)).
  { unfold get_student_by_roll_no, find_one.
    cbn [students_collection with_students].
    exact (find_update_first _ _ _ d Hf Hq). }
  rewrite Hg. eexists. split; [reflexivity | exact Hg].
Qed.

(** Every rejection of [add_skill] is a 400 or a 404 that leaves the
    database and the files as they were, so that a certificate that fails
    the check adds no skill and stores no file.  The only exceptions it lets
    out are those that opening or writing the certificate file raises, after
    the certificate check has accepted; no skill is added then.  An accepted
    request appends one unverified skill of the given name; without a
    certificate no model is called, no file is written and the skill has no
    certificate; with one, the certificate check accepted it and its bytes
    are stored under the path that the skill records. *)
Theorem add_skill_outcomes {U : Unicode} :
  forall open_error write_error preprocess_image models round2 show_float
         roll_no skills description certificate w log,
    let run := Main.add_skill open_error write_error preprocess_image models
                 round2 show_float roll_no skills description certificate
                 w log in
    let w' := snd (fst run) in
    match fst (fst run) with
    | Returns (HTTPException code detail) =>
        w' = w /\ (code = 400 \/ code = 404)%nat
    | Raises e =>
        exists cert d name mime_type,
          certificate = Some cert
          /\ get_student_by_roll_no roll_no (w_db w) = Some d
          /\ st_name d = Some name
          /\ result_accepted
               (fst (verify_certificate_with_ai preprocess_image models
                       round2 (content cert) mime_type
                       name skills description log)) = true
          /\ write_failed open_error write_error
               (certificate_path roll_no skills) (content cert) e w w'
    | Returns (Ok reply) =>
        exists d new_skill,
          get_student_by_roll_no roll_no (w_db w) = Some d
          /\ get_student_by_roll_no roll_no (w_db w')
             = Some (push_skill new_skill d)
          /\ item_name new_skill = skills
          /\ item_verified new_skill = false
          /\ (item_description new_skill = description
              \/ item_description new_skill = None)
          /\ certificate_uploaded reply = is_set (item_certificate new_skill)
          /\ (item_certificate new_skill = None ->
              w_files w' = w_files w
              /\ snd run = log
              /\ as_verification reply = "No certificate uploaded"
              /\ as_confidence_scores reply = None)
          /\ (forall path,
              item_certificate new_skill = Some path ->
              exists cert name mime_type,
                certificate = Some cert
                /\ st_name d = Some name
                /\ result_accepted
                     (fst (verify_certificate_with_ai preprocess_image models
                             round2 (content cert) mime_type
                             name skills description log)) = true
                /\ path = certificate_path roll_no skills
                /\ read_file path (w_files w') = Some (content cert))
    end.
Proof.
  intros operr wrerr pre models round2 show roll skills description certificate
         w log run w'.
  subst run w'. unfold Main.add_skill.
  destruct (get_student_by_roll_no roll (w_db w)) as [d|] eqn:Hd; [|cbn; auto].
  destruct (st_name d) as [name|] eqn:Hn; [|cbn; auto].
  cbn [truthy]. destruct (negb (negb (is_empty name))); [cbn; auto|].
  set (final := match description with
                | Some d0 =>
                    if negb (is_empty d0) && negb (is_empty (strip d0))
                    then Some d0 else None
                | None => None
                end).
  assert (Hfinal : final = description \/ final = None).
  { subst final. destruct description as [d0|]; [|now left].
    destruct (_ && _); [now left | now right]. }
  destruct certificate as [cert|]; [destruct (truthy (filename cert))|].
  2,3: destruct (add_skills_found roll skills None final (w_db w) d Hd)
         as (db' & Ha & Hg);
       rewrite Ha; cbn [fst snd w_db w_files];
       eexists d, _; (split; [reflexivity|]); (split; [exact Hg|]);
       cbn [item_name item_verified item_description item_certificate
            certificate_uploaded is_set as_verification as_confidence_scores];
       (split; [reflexivity|]); (split; [reflexivity|]);
       (split; [exact Hfinal|]); (split; [reflexivity|]); (split; [auto|]);
       intros path Hp; discriminate Hp.
  destruct (negb (in_list _ _)); [cbn; auto|].
  match goal with |- context [verify_certificate_with_ai ?a ?b ?c ?e ?f ?g ?h ?i ?j] =>
    destruct (verify_certificate_with_ai a b c e f g h i j)
      as [[[is_valid ai_message] scores] log'] eqn:Hv end.
  destruct is_valid; cbn [negb]; [|cbn; auto].
  fold (certificate_path roll skills).
  destruct (write_file_cases operr wrerr (certificate_path roll skills)
              (content cert) (w_files w))
    as [(e & Ho & ->)|[(e & written & Ho & Hw & ->)|(Ho & Hw & ->)]];
    cbn [fst snd].
  - eexists cert, d, name, _. split; [reflexivity|]. split; [reflexivity|].
    split; [exact Hn|]. split; [unfold result_accepted; now rewrite Hv|].
    left. split; [exact Ho | now destruct w].
  - eexists cert, d, name, _. split; [reflexivity|]. split; [reflexivity|].
    split; [exact Hn|]. split; [unfold result_accepted; now rewrite Hv|].
    right. cbn [w_db w_files]. split; [exact Ho|]. split.
    + exists written. split; [exact Hw | apply read_store_same].
    + split; [reflexivity|]. intros p Hp. now apply read_store_other.
  - destruct (add_skills_found roll skills (Some (certificate_path roll skills))
                final (w_db w) d Hd) as (db' & Ha & Hg).
    rewrite Ha. cbn [fst snd w_db w_files].
    eexists d, _. split; [reflexivity|]. split; [exact Hg|].
    cbn [item_name item_verified item_description item_certificate
         certificate_uploaded is_set].
    split; [reflexivity|]. split; [reflexivity|]. split; [exact Hfinal|].
    split; [reflexivity|]. split; [discriminate|].
    intros path Hp. injection Hp as <-.
    eexists cert, name, _. split; [reflexivity|]. split; [exact Hn|].
    split; [unfold result_accepted; now rewrite Hv|].
    split; [reflexivity|]. apply read_store_same.
Qed.

(** ** Adding a project *)

Lemma push_project_keeps_keys p : keeps_keys (push_project p).
Proof. intros d; repeat split. Qed.

(** With a link whose lowercased form contains "github.com" or "gitlab.com",
    [add_projects] on a student appends one unverified project that holds
    the link exactly as given; [get_student_projects] then returns the
    earlier projects followed by it, and the endpoint answers success.  On a
    missing student it returns [None], the endpoint answers 404, and nothing
    is written. *)
Theorem add_projects_appends {U : Unicode} :
  forall roll_no name github_link db,
    contains "github.com" (lower github_link) = true
    \/ contains "gitlab.com" (lower github_link) = true ->
    let p := {| project_name := name; project_verified := false;
                project_github_link := github_link;
                project_description := None |} in
    match get_student_by_roll_no roll_no db with
    | None =>
        add_projects roll_no name github_link db = (Returns (ResultDoc None), db)
        /\ add_project roll_no name github_link db
           = (Returns (HTTPException 404 "Student not found"), db)
    | Some d =>
        exists db',
          add_projects roll_no name github_link db
          = (Returns (ResultDoc (Some (push_project p d))), db')
          /\ add_project roll_no name github_link db
             = (Returns (Ok ("Project added successfully", name, github_link)), db')
          /\ get_student_projects roll_no db' = Some (st_projects d ++ [p])%list
          /\ (forall r, r <> roll_no ->
              get_student_projects r db' = get_student_projects r db)
    end.
Proof.
  intros roll name link db Hlink p.
  assert (Hne : is_empty link = false).
  { destruct link; [|reflexivity]. destruct Hlink as [H|H]; discriminate H. }
  assert (Hor : contains "github.com" (lower link)
                || contains "gitlab.com" (lower link) = true).
  { apply orb_true_iff. exact Hlink. }
  unfold add_project, add_projects, get_student_by_roll_no.
  rewrite Hne, Hor. cbn [orb negb].
  destruct (find_one (by_roll_no roll) db) as [d|] eqn:Hf; [|split; reflexivity].
  fold p. rewrite (update_one_keeps_keys _ _ db (push_project_keeps_keys p)).
  unfold find_one in Hf. rewrite Hf.
  assert (Hq : by_roll_no roll (push_project p d) = true).
  { apply find_some in Hf. tauto. }
  assert (Hg : find (by_roll_no roll)
                 (update_first (by_roll_no roll) (push_project p)
                    (students_collection db)) = Some (push_project p d)).
  { exact (find_update_first _ _ _ d Hf Hq). }
  unfold get_student_by_roll_no, get_student_projects, find_one.
  cbn [students_collection with_students]. rewrite Hg.
  eexists. split; [reflexivity|]. split; [reflexivity|].
  cbn [students_collection with_students]. rewrite Hg.
  split; [reflexivity|].
  intros r Hr.
  rewrite find_update_first_other; [reflexivity|].
  intros x Hx. split; now apply (by_roll_no_other roll).
Qed.

(* ================================================================== *)
(** * Further properties of the verification heuristics *)

(** ** Empty OCR text *)

(** When the OCR model finds no text, a check whose caption passed rejects
    right after the OCR call with its "could not extract any text" message,
    whatever the name, roll number or skill: the ID card check with an
    empty extracted id, the certificate check with image_type_match 1 and
    student_name_match, institution_match and skill_match 0 (and
    ocr_confidence 0 when the model reports no confidences). *)
Theorem empty_ocr_text_rejected {U : Unicode} :
  (forall preprocess_image models image_bytes student_name roll_no log image
          caption confs,
      preprocess_image image_bytes = Returns image ->
      generate_caption models image id_caption_prompt = Returns caption ->
      (exists k, In k ["yes"; "id"; "student"] /\ occurs_in k (lower caption)) ->
      extract_text models image
      = Returns {| full_text := ""; confidence_scores := confs |} ->
      verify_college_id_with_models preprocess_image models
        image_bytes student_name roll_no log
      = ((false,
          "Could not extract any text from the ID card. Please upload a clearer image",
          ""),
         (log ++ [CallPreprocess; CallCaption id_caption_prompt; CallOcr])%list))
  /\ (forall preprocess_image models round2 image_bytes mime_type student_name
             skill_or_achievement description log image caption confs,
      preprocess_image image_bytes = Returns image ->
      generate_caption models image certificate_caption_prompt
      = Returns caption ->
      (exists k, In k ["yes"; "certificate"; "award"]
                 /\ occurs_in k (lower caption)) ->
      extract_text models image
      = Returns {| full_text := ""; confidence_scores := confs |} ->
      exists scores,
        verify_certificate_with_ai preprocess_image models round2
          image_bytes mime_type student_name skill_or_achievement
          description log
        = ((false,
            "Could not extract any text from the certificate. Please upload a clearer image",
            scores),
           (log ++ [CallPreprocess; CallCaption certificate_caption_prompt;
                    CallOcr])%list)
        /\ image_type_match scores = 1%Q
        /\ student_name_match scores = 0%Q
        /\ institution_match scores = 0%Q
        /\ skill_match scores = 0%Q
        /\ (confs = [] -> ocr_confidence scores = 0%Q)).
Proof.
  split.
  - intros pre models bytes name roll log image caption confs
           Hpre Hcap Hkey Hocr.
    apply any_keyword_true in Hkey.
    unfold verify_college_id_with_models, try_except, verify_college_id_body,
      bind, call, ret.
    rewrite Hpre, Hcap. change id_keywords with ["yes"; "id"; "student"].
    rewrite Hkey. cbn [negb]. rewrite Hocr. cbn.
    now rewrite <- !app_assoc.
  - intros pre models round2 bytes mime name skill descr log image caption
           confs Hpre Hcap Hkey Hocr.
    apply any_keyword_true in Hkey.
    unfold verify_certificate_with_ai, try_except, verify_certificate_body,
      bind, call, ret.
    rewrite Hpre, Hcap.
    change certificate_keywords with ["yes"; "certificate"; "award"].
    rewrite Hkey, Hocr. cbn [full_text confidence_scores].
    change (is_empty (lower "")) with true. cbv iota.
    eexists. split; [now rewrite <- !app_assoc|].
    destruct confs; repeat split; discriminate.
Qed.

(** ** When the ID card check accepts *)

Lemma college_id_checks_accepted_result {U : Unicode} full student_name roll_no :
  result_accepted (college_id_checks full student_name roll_no) = true ->
  college_id_checks full student_name roll_no
  = (true, "College ID verified successfully", strip full).
Proof.
  destruct (college_id_checks_cases full student_name roll_no)
    as [[_ ->]|[(_ & _ & ->)|[(_ & _ & _ & ->)|(_ & _ & _ & ->)]]];
    solve [reflexivity | discriminate].
Qed.


(** ** What the ID card check is insensitive to *)

Lemma id_verdict_depends_on {U : Unicode} name1 name2 roll1 roll2 full :
  lower name1 = lower name2 ->
  without_separators (lower roll1) = without_separators (lower roll2) ->
  result_accepted (college_id_checks full name1 roll1)
  = result_accepted (college_id_checks full name2 roll2)
  /\ snd (college_id_checks full name1 roll1)
     = snd (college_id_checks full name2 roll2).
Proof.
  intros Hn Hr.
  pose proof (college_id_checks_cases full name1 roll1) as C1.
  pose proof (college_id_checks_cases full name2 roll2) as C2.
  cbv zeta in C1, C2. rewrite Hn, Hr in C1.
  destruct C1 as [[L1 ->]|[(G1 & S1 & ->)|[(G1 & N1 & L1 & ->)|(G1 & N1 & F1 & ->)]]];
    destruct C2 as [[L2 ->]|[(G2 & S2 & ->)|[(G2 & N2 & L2 & ->)|(G2 & N2 & F2 & ->)]]];
    try (split; reflexivity);
    try (now apply Qlt_not_le in L1);
    try (now apply Qlt_not_le in L2);
    try (now destruct N1); try (now destruct N2).
Qed.

(** The verdict of the ID card check, the extracted id and the calls made
    depend on the name only through its lowercased form and on the roll
    number only through its lowercased form without spaces, hyphens and
    underscores: two names that differ in case, or two roll numbers that
    differ in case or in those separators, are treated alike. *)
Theorem college_id_case_and_separator_insensitive {U : Unicode} :
  forall preprocess_image models image_bytes name1 name2 roll1 roll2 log,
    lower name1 = lower name2 ->
    without_separators (lower roll1) = without_separators (lower roll2) ->
    let run1 := verify_college_id_with_models preprocess_image models
                  image_bytes name1 roll1 log in
    let run2 := verify_college_id_with_models preprocess_image models
                  image_bytes name2 roll2 log in
    result_accepted (fst run1) = result_accepted (fst run2)
    /\ snd (fst run1) = snd (fst run2)
    /\ snd run1 = snd run2.
Proof.
  intros pre models bytes n1 n2 r1 r2 log Hn Hr run1 run2. subst run1 run2.
  unfold verify_college_id_with_models, try_except, verify_college_id_body,
    bind, call, ret.
  destruct (pre bytes) as [image|e]; [|repeat split].
  destruct (generate_caption models image id_caption_prompt) as [caption|e];
    [|repeat split].
  destruct (negb _); [repeat split|].
  destruct (extract_text models image) as [ocr|e]; [|repeat split].
  destruct (is_empty _); [repeat split|].
  cbn [fst snd].
  destruct (id_verdict_depends_on n1 n2 r1 r2 (full_text ocr) Hn Hr) as [E1 E2].
  repeat split; assumption.
Qed.

(** ** Roll number characters in any order *)

Lemma count_all {A} (p : A -> bool) (l : list A) :
  (forall x, In x l -> p x = true) -> count p l = List.length l.
Proof.
  intros H. unfold count. now rewrite filter_keeps_all.
Qed.

Lemma chars_from_nil (cur s : string) :
  chars_from cur s = [] -> cur = "" /\ s = "".
Proof.
  revert cur. induction s as [|c s IH]; intros cur; cbn [chars_from].
  - destruct cur; [auto | discriminate].
  - destruct (is_continuation c).
    + intros H. apply IH in H as [H _]. destruct cur; discriminate H.
    + destruct (is_empty cur); [|discriminate].
      intros H. apply IH in H as [H _]. discriminate H.
Qed.

Lemma chars_nil (s : string) : chars s = [] -> s = "".
Proof. intros H. now apply chars_from_nil in H. Qed.

Lemma fraction_all (n : nat) : n <> 0%nat -> (6 # 10 <= fraction n n)%Q.
Proof.
  intros Hn. destruct n as [|n]; [now destruct Hn|].
  unfold fraction, Qle. cbn [Qnum Qden].
  rewrite <- (positive_nat_Z (Pos.of_nat (S n))), Nat2Pos.id by discriminate.
  lia.
Qed.

(** Once the name stage has passed, the ID card check accepts every roll
    number each of whose characters (lowercased, and without the spaces,
    hyphens and underscores) occurs somewhere in the cleaned OCR text, in
    whatever order and however often: the character fallback does not look
    at positions. *)
Theorem roll_characters_anywhere_accepted {U : Unicode} :
  forall preprocess_image models image_bytes student_name roll_no ocr_data log,
    reaches_checks preprocess_image models id_caption_prompt
      ["yes"; "id"; "student"] image_bytes ocr_data ->
    (exists name_ratio,
        name_ratio_spec student_name (full_text ocr_data) name_ratio
        /\ (6 # 10 <= name_ratio)%Q) ->
    (forall c, In c (chars (without_separators (lower roll_no))) ->
               occurs_in c (without_separators (lower (full_text ocr_data)))) ->
    fst (verify_college_id_with_models preprocess_image models
           image_bytes student_name roll_no log)
    = (true, "College ID verified successfully", strip (full_text ocr_data)).
Proof.
  intros pre models bytes name roll ocr log Hreach (rn & Hrn & Hge) Hall.
  rewrite (id_reaches_checks pre models bytes name roll ocr log Hreach).
  rewrite (name_ratio_spec_unique _ _ _ _ Hrn (name_ratio_spec_code _ _)) in Hge.
  destruct (college_id_checks_cases (full_text ocr) name roll)
    as [[L _]|[(_ & _ & ->)|[(_ & N & L & _)|(_ & _ & _ & ->)]]];
    try reflexivity.
  - now apply Qlt_not_le in L.
  - exfalso. unfold matched_chars in L.
    rewrite count_all in L.
    + apply Qlt_not_le in L. apply L. apply fraction_all.
      unfold len. intros E. apply length_zero_iff_nil, chars_nil in E.
      apply N. rewrite E. exists "", (without_separators (lower (full_text ocr))).
      reflexivity.
    + intros c Hc. apply contains_occurs. now apply Hall.
Qed.

(** ** The description of a certificate *)

Lemma split_once_some (sep s : string) :
  contains sep s = true -> exists a b, split_once sep s = Some (a, b).
Proof.
  induction s as [|c s IH]; cbn [contains split_once]; intros H.
  - destruct sep; [|discriminate]. cbn. eauto.
  - destruct (prefix sep (String c s)); [eauto|].
    cbn [orb] in H. destruct (IH H) as (a & b & ->). eauto.
Qed.

Lemma later_stages_ignore_skill {U : Unicode} round2 text skill1 skill2 d scores :
  contains " - " d = true ->
  certificate_later_stages round2 text skill1 (Some d) scores
  = certificate_later_stages round2 text skill2 (Some d) scores.
Proof.
  intros H. unfold certificate_later_stages.
  assert (Hd : is_empty d = false) by (destruct d; [discriminate | reflexivity]).
  rewrite Hd, H. cbn [negb andb].
  destruct (split_once_some _ _ H) as (a & b & ->). reflexivity.
Qed.

(** When the description contains " - ", the certificate check takes the
    expected skill from the text after the first " - " and does not look at
    the skill or achievement name of the request at all: two requests that
    differ only in that name get the same answer. *)
Theorem description_overrides_skill_name {U : Unicode} :
  forall preprocess_image models round2 image_bytes mime_type student_name
         skill1 skill2 description log,
    contains " - " description = true ->
    verify_certificate_with_ai preprocess_image models round2
      image_bytes mime_type student_name skill1 (Some description) log
    = verify_certificate_with_ai preprocess_image models round2
        image_bytes mime_type student_name skill2 (Some description) log.
Proof.
  intros pre models round2 bytes mime name s1 s2 d log H.
  unfold verify_certificate_with_ai, try_except, verify_certificate_body,
    bind, call, ret.
  destruct (pre bytes) as [image|e]; [|reflexivity].
  destruct (generate_caption models image certificate_caption_prompt)
    as [caption|e]; [|reflexivity].
  destruct (any_keyword certificate_keywords (lower caption)); [|reflexivity].
  destruct (extract_text models image) as [ocr|e]; [|reflexivity].
  destruct (is_empty _); [reflexivity|].
  unfold certificate_name_stage.
  destruct (split (lower name)); [|destruct (Qltb _ threshold); [reflexivity|]];
    now rewrite (later_stages_ignore_skill round2 _ s1 s2 d _ H).
Qed.

(** ** Confidence scores stay between 0 and 1 *)

Lemma count_le_length {A} (p : A -> bool) (l : list A) :
  (count p l <= List.length l)%nat.
Proof. unfold count. apply filter_length_le. Qed.

Lemma ratio_in_unit m n : (m <= n)%nat -> in_unit (ratio m n).
Proof.
  intros H. unfold in_unit, ratio.
  destruct n as [|n].
  - assert (m = 0%nat) by lia. subst m. split; discriminate.
  - assert (Hpos : (0 < inject_Z (Z.of_nat (S n)))%Q).
    { unfold Qlt. cbn. lia. }
    split.
    + apply Qle_shift_div_l; [exact Hpos|].
      rewrite Qmult_0_l. unfold Qle. cbn. lia.
    + apply Qle_shift_div_r; [exact Hpos|].
      rewrite Qmult_1_l. rewrite <- Zle_Qle. lia.
Qed.

Lemma fold_sum_bounds (xs : list Q) (acc : Q) (k : nat) :
  Forall in_unit xs ->
  (0 <= acc)%Q -> (acc <= inject_Z (Z.of_nat k))%Q ->
  (0 <= fold_left Qplus xs acc)%Q
  /\ (fold_left Qplus xs acc <= inject_Z (Z.of_nat (k + List.length xs)))%Q.
Proof.
  revert acc k. induction xs as [|x xs IH]; intros acc k Hall H0 H1.
  - cbn. rewrite Nat.add_0_r. auto.
  - inversion Hall as [|y ys [Hx0 Hx1] Hxs]; subst.
    cbn [fold_left List.length].
    replace (k + S (List.length xs))%nat with (S k + List.length xs)%nat by lia.
    apply IH; [exact Hxs | lra |].
    rewrite Nat2Z.inj_succ. unfold Z.succ. rewrite inject_Z_plus.
    change (inject_Z 1) with 1%Q. lra.
Qed.

Lemma average_in_unit xs : Forall in_unit xs -> in_unit (average xs).
Proof.
  intros Hall. unfold average, in_unit.
  destruct (fold_sum_bounds xs 0 0 Hall) as [H0 H1];
    [apply Qle_refl | apply Qle_refl |].
  cbn [Nat.add] in H1.
  destruct xs as [|x xs].
  - split; discriminate.
  - assert (Hpos : (0 < inject_Z (Z.of_nat (List.length (x :: xs))))%Q).
    { unfold Qlt. cbn. lia. }
    split.
    + apply Qle_shift_div_l; [exact Hpos|]. now rewrite Qmult_0_l.
    + apply Qle_shift_div_r; [exact Hpos|]. now rewrite Qmult_1_l.
Qed.

Lemma in_unit_0 : in_unit 0.
Proof. split; discriminate. Qed.

Lemma in_unit_1 : in_unit 1.
Proof. split; discriminate. Qed.

Ltac split_scores :=
  unfold scores_in_unit;
  cbn [snd overall_confidence image_type_match student_name_match
       institution_match skill_match ocr_confidence set_overall set_image_type
       set_student_name set_institution set_skill set_ocr zero_scores];
  split; [|split; [|split; [|split; [|split]]]].

Ltac weighted_in_unit :=
  unfold in_unit in *; lra.

Section UnitInterval.

Variable round2 : Q -> Q.
Hypothesis round2_in_unit : forall q, in_unit q -> in_unit (round2 q).

Lemma skill_stage_in_unit text expected_skill scores :
  scores_in_unit scores ->
  scores_in_unit (snd (certificate_skill_stage round2 text expected_skill scores)).
Proof.
  intros (Ho & Hi & Hn & Hs & Hk & Hc).
  unfold certificate_skill_stage.
  destruct (long_words expected_skill) as [|w ws] eqn:Hw.
  - split_scores; try assumption; try apply in_unit_1.
    apply round2_in_unit. pose proof in_unit_1. weighted_in_unit.
  - assert (R : in_unit (round2 (ratio (matched_words (w :: ws) text)
                                       (List.length (w :: ws))))).
    { apply round2_in_unit, ratio_in_unit, count_le_length. }
    destruct (Qltb _ threshold); split_scores; try assumption;
      apply round2_in_unit; weighted_in_unit.
Qed.

Lemma later_stages_in_unit {U : Unicode} text skill description scores :
  scores_in_unit scores ->
  scores_in_unit
    (snd (certificate_later_stages round2 text skill description scores)).
Proof.
  intros H. pose proof H as (Ho & Hi & Hn & Hs & Hk & Hc).
  assert (One : scores_in_unit (set_institution 1 scores)).
  { split_scores; try assumption; apply in_unit_1. }
  unfold certificate_later_stages.
  destruct (fst _) as [inst|]; [|now apply skill_stage_in_unit].
  destruct (is_empty inst); [now apply skill_stage_in_unit|].
  destruct (long_words inst) as [|w ws]; [now apply skill_stage_in_unit|].
  assert (R : in_unit (round2 (ratio (matched_words (w :: ws) text)
                                     (List.length (w :: ws))))).
  { apply round2_in_unit, ratio_in_unit, count_le_length. }
  destruct (Qltb _ threshold).
  - split_scores; try assumption.
    apply round2_in_unit. weighted_in_unit.
  - apply skill_stage_in_unit. split_scores; assumption.
Qed.

Lemma name_stage_in_unit {U : Unicode} text name skill description scores :
  scores_in_unit scores ->
  scores_in_unit
    (snd (certificate_name_stage round2 text name skill description scores)).
Proof.
  intros H. pose proof H as (Ho & Hi & Hn & Hs & Hk & Hc).
  unfold certificate_name_stage.
  destruct (split (lower name)) as [|w ws].
  - apply later_stages_in_unit. split_scores; try assumption; apply in_unit_1.
  - assert (R : in_unit (round2 (ratio (matched_parts (w :: ws) text)
                                       (List.length (w :: ws))))).
    { apply round2_in_unit, ratio_in_unit, count_le_length. }
    destruct (Qltb _ threshold).
    + split_scores; try assumption.
      apply round2_in_unit. weighted_in_unit.
    + apply later_stages_in_unit. split_scores; assumption.
Qed.

End UnitInterval.

(** When rounding to two decimals keeps numbers between 0 and 1 there, and
    the OCR model reports confidences between 0 and 1, every entry of the
    confidence map that the certificate check returns (the overall
    confidence included) lies between 0 and 1, on every path: acceptance,
    each rejection, and the exception path. *)
Theorem certificate_scores_in_unit {U : Unicode} :
  forall preprocess_image models round2 image_bytes mime_type student_name
         skill_or_achievement description log,
    (forall q, in_unit q -> in_unit (round2 q)) ->
    (forall image ocr_data,
        extract_text models image = Returns ocr_data ->
        Forall in_unit (confidence_scores ocr_data)) ->
    scores_in_unit
      (snd (fst (verify_certificate_with_ai preprocess_image models round2
                   image_bytes mime_type student_name skill_or_achievement
                   description log))).
Proof.
  intros pre models round2 bytes mime name skill descr log Hround Hocr.
  assert (Z0 : scores_in_unit zero_scores).
  { split_scores; apply in_unit_0. }
  unfold verify_certificate_with_ai, try_except, verify_certificate_body,
    bind, call, ret.
  destruct (pre bytes) as [image|e]; [|exact Z0].
  destruct (generate_caption models image certificate_caption_prompt)
    as [caption|e]; [|exact Z0].
  destruct (any_keyword certificate_keywords (lower caption)); [|exact Z0].
  destruct (extract_text models image) as [ocr|e] eqn:Ho; [|exact Z0].
  pose proof (Hocr image ocr Ho) as Hc.
  assert (S1 : scores_in_unit
                 match confidence_scores ocr with
                 | [] => set_ocr 0 (set_image_type 1 zero_scores)
                 | _ :: _ =>
                     set_ocr (round2 (average (confidence_scores ocr)))
                             (set_image_type 1 zero_scores)
                 end).
  { destruct (confidence_scores ocr) as [|x xs] eqn:E.
    - split_scores; first [apply in_unit_0 | apply in_unit_1].
    - pose proof (Hround _ (average_in_unit _ Hc)) as A.
      split_scores; first [exact A | apply in_unit_0 | apply in_unit_1]. }
  destruct (is_empty (lower (full_text ocr))).
  - cbn [fst snd]. destruct S1 as (Ho' & Hi & Hn & Hs & Hk & Hcf).
    split_scores; try assumption. weighted_in_unit.
  - cbn [fst snd]. now apply name_stage_in_unit.
Qed.

(** ** Further runs on the sample documents *)

Lemma add_skills_appends_witness :
  exists db',
    add_skills "CS101" "Rocq" two_students_db None (Some "MIT - Rocq")
    = (Returns (Some (push_skill
                        {| item_name := "Rocq"; item_verified := false;
                           item_certificate := None;
                           item_description := Some "MIT - Rocq" |} jane)), db')
    /\ get_student_by_roll_no "CS102" db' = Some john.
Proof.
  pose proof (add_skills_appends "CS101" "Rocq" None (Some "MIT - Rocq")
                two_students_db) as H.
  cbv zeta in H.
  change (get_student_by_roll_no "CS101" two_students_db) with (Some jane) in H.
  destruct H as (db' & H1 & _ & _ & _ & _ & H6).
  exists db'. split; [exact H1|].
  rewrite (H6 "CS102"); [reflexivity | discriminate].
Defined.

Lemma verify_student_skill_success_iff_witness :
  exists reply db',
    verify_student_skill "CS102" "Python" two_students_db = (Returns reply, db')
    /\ db' = two_students_db.
Proof.
  destruct (verify_student_skill_success_iff "CS102" "Python" two_students_db)
    as (reply & db' & H1 & _ & H3).
  exists reply, db'. split; [exact H1|]. apply H3.
  vm_compute in H1. injection H1 as <- _. reflexivity.
Defined.

Lemma delete_student_outcomes_witness :
  exists db',
    delete_student "CS101" two_students_db = (true, db')
    /\ get_student_by_roll_no "CS101" db' = None
    /\ get_student_by_roll_no "CS102" db' = Some john.
Proof.
  pose proof (delete_student_outcomes "CS101" two_students_db) as H.
  change (get_student_by_roll_no "CS101" two_students_db) with (Some jane) in H.
  destruct H as (db' & H1 & _ & _ & H4 & H5).
  exists db'. split; [exact H1|]. split.
  - apply H5. repeat split; cbn; repeat constructor; cbn; intuition discriminate.
  - rewrite (H4 "CS102"); [reflexivity | discriminate].
Defined.

(** ** Registering, then logging in *)

(** When checking a password against its own hash succeeds, a student that
    [create_student] has just stored is authenticated by the roll number and
    password of the registration, and [authenticate_student] returns the
    stored record; a password that does not check against the stored hash is
    refused, as is every password for a roll number that is not stored. *)
Theorem register_then_authenticate :
  forall hash_password verify_password student db st db',
    (forall p, verify_password p (hash_password p) = true) ->
    create_student hash_password student db = (Returns st, db') ->
    authenticate_student verify_password (sc_roll_no student)
      (sc_password student) db' = Some st
    /\ (forall p,
        verify_password p (hash_password (sc_password student)) = false ->
        authenticate_student verify_password (sc_roll_no student) p db' = None)
    /\ (forall r p,
        get_student_by_roll_no r db' = None ->
        authenticate_student verify_password r p db' = None).
Proof.
  intros h v s db st db' Hv Hc.
  destruct (create_student_then_lookup_aux h s db st db' Hc)
    as (Hg & _ & _ & Hp & _).
  unfold get_student_by_roll_no in Hg. unfold authenticate_student.
  rewrite Hg, Hp. split; [|split].
  - now rewrite Hv.
  - intros p Hw. now rewrite Hw.
  - intros r p Hn. unfold get_student_by_roll_no in Hn. now rewrite Hn.
Qed.

Lemma register_then_authenticate_witness :
  authenticate_student sample_verify "phone-07" "secret1"
    (snd (create_student sample_hash first_student empty_db))
  = fst_returned (fst (create_student sample_hash first_student empty_db))
  /\ authenticate_student sample_verify "phone-07" "guess"
       (snd (create_student sample_hash first_student empty_db)) = None.
Proof.
  destruct (create_student sample_hash first_student empty_db)
    as [[st|e] db'] eqn:E; [|vm_compute in E; discriminate E].
  destruct (register_then_authenticate sample_hash sample_verify first_student
              empty_db st db') as (H1 & H2 & _).
  - intros p. unfold sample_verify. apply String.eqb_refl.
  - exact E.
  - split; [exact H1|]. apply H2.
    unfold sample_verify, sample_hash. reflexivity.
Defined.

(* ================================================================== *)
(** * Runs of the checks on ASCII samples

    The samples below are ASCII texts, on which [lower] and [isalnum] do not
    consult the Unicode tables; the runs use a stand-in for them. *)

#[local] Existing Instance sample_unicode.

(** ** The caption gate *)

Lemma caption_gate_rejects_witness :
  verify_college_id_with_models decode_ok
      (fixed_models "No, this is a cat" "jane smith cs101" [])
      [] "Jane Smith" "CS101" []
    = ((false,
        "The uploaded image does not appear to be a valid college ID card",
        ""),
       [CallPreprocess; CallCaption id_caption_prompt]).
Proof.
  refine (proj1 caption_gate_rejects decode_ok
    (fixed_models "No, this is a cat" "jane smith cs101" [])
    [] [] "No, this is a cat" "Jane Smith" "CS101" [] eq_refl eq_refl _).
  intros k Hk. apply not_contains_occurs. cbn in Hk.
  destruct Hk as [<-|[<-|[<-|[]]]]; reflexivity.
Defined.

(** C2, as the spec words it, fails: with the caption "No, this is not an ID"
    the ID card check does not reject for every OCR content; on an OCR text
    that carries the name and the roll number it accepts. *)
Lemma caption_no_not_an_id_counterexample :
  ~ (forall full : string,
       result_accepted
         (fst (verify_college_id_with_models decode_ok
                 (fixed_models "No, this is not an ID" full [])
                 [] "Jane Smith" "CS101" [])) = false).
Proof.
  intros H. specialize (H "jane smith cs101").
  vm_compute in H. discriminate H.
Qed.

(** ** Exceptions *)


(** ** The name stage *)

Lemma sample_reaches_checks (prompt keyword full : string) :
  lower full <> "" ->
  reaches_checks decode_ok (fixed_models "yes" full []) prompt
    ["yes"; keyword; "student"] []
    {| full_text := full; confidence_scores := [] |}.
Proof.
  intros H. exists [], "yes". split; [reflexivity|]. split; [reflexivity|].
  split; [|split; [reflexivity | exact H]].
  exists "yes". split; [now left|]. exists "", "". reflexivity.
Qed.

Lemma name_stage_threshold_witness :
  result_accepted
    (fst (verify_certificate_with_ai decode_ok
            (fixed_models "yes" "Awarded to john doe" [])
            round_half_even [] "image/png" "Jane Smith" "Python" None []))
  = false
  /\ result_message
       (fst (verify_certificate_with_ai decode_ok
               (fixed_models "yes" "Awarded to john doe" [])
               round_half_even [] "image/png" "Jane Smith" "Python" None []))
     = "Student name 'Jane Smith' does not match the name on the certificate".
Proof.
  assert (R : reaches_checks decode_ok
                (fixed_models "yes" "Awarded to john doe" [])
                certificate_caption_prompt ["yes"; "certificate"; "award"] []
                {| full_text := "Awarded to john doe";
                   confidence_scores := [] |}).
  { exists [], "yes". split; [reflexivity|]. split; [reflexivity|].
    split; [|split; [reflexivity | discriminate]].
    exists "yes". split; [now left|]. exists "", "". reflexivity. }
  destruct (proj1 (proj2 name_stage_threshold) decode_ok
              (fixed_models "yes" "Awarded to john doe" []) round_half_even
              [] "image/png" "Jane Smith" "Python" None
              {| full_text := "Awarded to john doe"; confidence_scores := [] |}
              [] R) as (ratio & Hratio & Hiff).
  - discriminate.
  - apply Hiff.
    rewrite (name_ratio_spec_unique _ _ _ _ Hratio (name_ratio_spec_code _ _)).
    reflexivity.
Defined.

(** C3, as the spec words it, fails on a name without tokens: for the name
    of three blanks and a non-empty OCR text the ID card check rejects at
    the name stage and the certificate check does not, so that no value of
    the ratio makes both checks reject exactly when it is below 0.6. *)
Lemma name_stage_zero_tokens_counterexample :
  ~ (exists name_ratio : Q,
       (fst (verify_college_id_with_models decode_ok
               (fixed_models "yes" "abc" []) [] "   " "CS101" [])
        = (false,
           "Student name '   ' does not match the name on the ID card. Please ensure the name matches your registration.",
           "")
        <-> (name_ratio < 6 # 10)%Q)
       /\ (result_accepted
             (fst (verify_certificate_with_ai decode_ok
                     (fixed_models "yes" "abc" []) round_half_even
                     [] "image/png" "   " "Python" None [])) = false
           /\ result_message
                (fst (verify_certificate_with_ai decode_ok
                        (fixed_models "yes" "abc" []) round_half_even
                        [] "image/png" "   " "Python" None []))
              = "Student name '   ' does not match the name on the certificate"
           <-> (name_ratio < 6 # 10)%Q)).
Proof.
  intros (r & [H1 _] & [_ H2]).
  assert (L : (r < 6 # 10)%Q) by (apply H1; reflexivity).
  destruct (H2 L) as [_ M]. vm_compute in M. discriminate M.
Qed.

(** ** The roll number stage *)

Lemma roll_number_stage_witness :
  fst (verify_college_id_with_models decode_ok
         (fixed_models "yes" "jane smith roll cs-1o1" [])
         [] "Jane Smith" "CS101" [])
  = (true, "College ID verified successfully", "jane smith roll cs-1o1").
Proof.
  assert (R : reaches_checks decode_ok
                (fixed_models "yes" "jane smith roll cs-1o1" [])
                id_caption_prompt ["yes"; "id"; "student"] []
                {| full_text := "jane smith roll cs-1o1";
                   confidence_scores := [] |}).
  { apply sample_reaches_checks. discriminate. }
  assert (N : exists name_ratio,
             name_ratio_spec "Jane Smith" "jane smith roll cs-1o1" name_ratio
             /\ (6 # 10 <= name_ratio)%Q).
  { eexists. split; [apply name_ratio_spec_code | discriminate]. }
  destruct (proj2 (roll_number_stage decode_ok
              (fixed_models "yes" "jane smith roll cs-1o1" [])
              [] "Jane Smith" "CS101"
              {| full_text := "jane smith roll cs-1o1"; confidence_scores := [] |}
              [] R N)) as (fraction & Hf & Hacc & _).
  - apply not_contains_occurs. reflexivity.
  - apply Hacc.
    rewrite (roll_fraction_spec_unique _ _ _ _ Hf (roll_fraction_spec_code _ _)).
    discriminate.
Defined.

(** ** Names without tokens in the certificate check *)

Lemma certificate_no_tokens_name_passes_witness :
  student_name_match
    (snd (fst (verify_certificate_with_ai decode_ok
                 (fixed_models "yes" "certificate of python" [])
                 round_half_even [] "image/png" "   " "Python" None [])))
  = 1%Q.
Proof.
  refine (proj2 (proj2 (certificate_no_tokens_name_passes decode_ok
    (fixed_models "yes" "certificate of python" []) round_half_even
    [] "image/png" "   " "Python" None [] eq_refl)
    {| full_text := "certificate of python"; confidence_scores := [] |} _)).
  exists [], "yes". split; [reflexivity|]. split; [reflexivity|].
  split; [|split; [reflexivity | discriminate]].
  exists "yes". split; [now left|]. exists "", "". reflexivity.
Defined.

(** ** Project links *)

Lemma invalid_link_rejected_witness :
  add_projects "CS101" "Compiler" "https://bitbucket.org/jane/compiler" jane_db
  = (Returns (ResultStr
       "Invalid repository link. Must be from GitHub or GitLab"), jane_db).
Proof.
  exact (proj1 (invalid_link_rejected "CS101" "Compiler"
                  "https://bitbucket.org/jane/compiler" jane_db
                  eq_refl eq_refl)).
Defined.

Lemma add_projects_appends_witness :
  exists db',
    add_project "CS101" "Compiler" "https://GitHub.com/jane/compiler" jane_db
    = (Returns (Ok ("Project added successfully", "Compiler",
                    "https://GitHub.com/jane/compiler")), db')
    /\ get_student_projects "CS101" db'
       = Some [{| project_name := "Compiler"; project_verified := false;
                  project_github_link := "https://GitHub.com/jane/compiler";
                  project_description := None |}].
Proof.
  destruct (add_projects_appends "CS101" "Compiler"
              "https://GitHub.com/jane/compiler" jane_db (or_introl eq_refl))
    as (db' & _ & H2 & H3 & _).
  exists db'. split; [exact H2 | exact H3].
Defined.

(** ** Uploads *)

Lemma upload_college_id_outcomes_witness :
  exists reply,
    fst (fst (Main.upload_college_id no_open_error no_write_error decode_ok
                (fixed_models "yes" "Jane Smith CS101" [])
                "CS101" id_upload jane_world []))
    = Returns (Ok reply)
    /\ read_file "uploads/certificates/CS101_college_id.png"
         (w_files (snd (fst (Main.upload_college_id no_open_error
                               no_write_error decode_ok
                               (fixed_models "yes" "Jane Smith CS101" [])
                               "CS101" id_upload jane_world []))))
       = Some (content id_upload).
Proof.
  pose proof (upload_college_id_outcomes no_open_error no_write_error decode_ok
                (fixed_models "yes" "Jane Smith CS101" [])
                "CS101" id_upload jane_world []) as H.
  cbv zeta in H.
  destruct (fst (fst (Main.upload_college_id no_open_error no_write_error
                        decode_ok (fixed_models "yes" "Jane Smith CS101" [])
                        "CS101" id_upload jane_world [])))
    as [[code detail|reply]|e] eqn:E.
  - vm_compute in E. discriminate E.
  - exists reply. split; [reflexivity|].
    destruct H as (d & name & _ & _ & _ & _ & _ & _ & H & _). exact H.
  - vm_compute in E. discriminate E.
Defined.

Lemma add_skill_outcomes_witness :
  snd (fst (Main.add_skill no_open_error no_write_error decode_ok
              (fixed_models "a dog on a beach" "woof" [])
              round_half_even sample_show_float "CS101" "Python" None
              (Some certificate_upload) jane_world []))
  = jane_world.
Proof.
  pose proof (add_skill_outcomes no_open_error no_write_error decode_ok
                (fixed_models "a dog on a beach" "woof" [])
                round_half_even sample_show_float "CS101" "Python" None
                (Some certificate_upload) jane_world []) as H.
  cbv zeta in H.
  destruct (fst (fst (Main.add_skill no_open_error no_write_error decode_ok
                        (fixed_models "a dog on a beach" "woof" [])
                        round_half_even sample_show_float "CS101" "Python" None
                        (Some certificate_upload) jane_world [])))
    as [[code detail|reply]|e] eqn:E.
  - exact (proj1 H).
  - vm_compute in E. discriminate E.
  - vm_compute in E. discriminate E.
Defined.

(** ** Empty OCR text *)

Lemma empty_ocr_text_rejected_witness :
  verify_college_id_with_models decode_ok (fixed_models "yes" "" [])
    [] "Jane Smith" "CS101" []
  = ((false,
      "Could not extract any text from the ID card. Please upload a clearer image",
      ""),
     [CallPreprocess; CallCaption id_caption_prompt; CallOcr]).
Proof.
  refine (proj1 empty_ocr_text_rejected decode_ok (fixed_models "yes" "" [])
            [] "Jane Smith" "CS101" [] [] "yes" [] eq_refl eq_refl _ eq_refl).
  exists "yes". split; [now left|]. exists "", "". reflexivity.
Defined.

(** ** When the ID card check accepts *)


Lemma college_id_case_and_separator_insensitive_witness :
  result_accepted
    (fst (verify_college_id_with_models decode_ok
            (fixed_models "yes" "Jane Smith CS101" []) [] "JANE smith" "cs-101" []))
  = result_accepted
      (fst (verify_college_id_with_models decode_ok
              (fixed_models "yes" "Jane Smith CS101" []) [] "Jane Smith" "CS 101" [])).
Proof.
  exact (proj1 (college_id_case_and_separator_insensitive decode_ok
                  (fixed_models "yes" "Jane Smith CS101" []) []
                  "JANE smith" "Jane Smith" "cs-101" "CS 101" []
                  eq_refl eq_refl)).
Defined.

Lemma roll_characters_anywhere_accepted_witness :
  fst (verify_college_id_with_models decode_ok
         (fixed_models "yes" "jane smith room 10 sc" [])
         [] "Jane Smith" "CS101" [])
  = (true, "College ID verified successfully", "jane smith room 10 sc").
Proof.
  refine (roll_characters_anywhere_accepted decode_ok
            (fixed_models "yes" "jane smith room 10 sc" [])
            [] "Jane Smith" "CS101"
            {| full_text := "jane smith room 10 sc"; confidence_scores := [] |}
            [] _ _ _).
  - apply sample_reaches_checks. discriminate.
  - eexists. split; [apply name_ratio_spec_code | discriminate].
  - intros c Hc. apply contains_occurs. cbn in Hc.
    destruct Hc as [<-|[<-|[<-|[<-|[<-|[]]]]]]; reflexivity.
Defined.

(** ** The certificate check *)

Lemma description_overrides_skill_name_witness :
  verify_certificate_with_ai decode_ok
    (fixed_models "yes" "jane smith mit python" []) round_half_even
    [] "image/png" "Jane Smith" "Cooking" (Some "MIT - Python") []
  = verify_certificate_with_ai decode_ok
      (fixed_models "yes" "jane smith mit python" []) round_half_even
      [] "image/png" "Jane Smith" "Python" (Some "MIT - Python") [].
Proof.
  exact (description_overrides_skill_name decode_ok
           (fixed_models "yes" "jane smith mit python" []) round_half_even
           [] "image/png" "Jane Smith" "Cooking" "Python" "MIT - Python" []
           eq_refl).
Defined.

Lemma certificate_scores_in_unit_witness :
  scores_in_unit
    (snd (fst (verify_certificate_with_ai decode_ok
                 (fixed_models "yes" "jane smith" [(9 # 10)%Q; (1 # 2)%Q])
                 (fun q => q) [] "image/png" "Jane Smith" "Python" None []))).
Proof.
  apply certificate_scores_in_unit.
  - intros q H. exact H.
  - intros image ocr H. injection H as <-. cbn.
    repeat constructor; discriminate.
Defined.
